(** * Scientific plotting suite: a shallow embedding of its control logic

    The repository is a set of Python scripts that load a CSV file with
    pandas, check its columns, hand the data to matplotlib and save a PNG.
    This development embeds the parts of the scripts that are the
    repository's own logic:

    - [CommonUtils]: [check_and_load_csv] and [save_plot] of
      [utils/common_utils.py];
    - [Grid]: the nested loop that rebuilds a rectangular Z grid in the 3D
      surface, wireframe and contour plots;
    - [Charts]: the chart functions with their [try]/[except] structure,
      and the entry points of the scripts with their exit codes;
    - [Runner]: [run_all_plots.py];
    - [Corr]: the correlation coefficient shown by the basic scatter plot.

    The libraries (pandas, numpy, matplotlib, the operating system) are
    collaborators: what they answer is read from a [World] record, so every
    statement quantifies over all their possible answers.  Standard output
    is not modelled; [print] does not influence control flow. *)

From Stdlib Require Import Ascii String QArith Qcanon Floats.
From stdpp Require Import base list sorting strings numbers gmap.

Local Open Scope string_scope.
Local Open Scope list_scope.

(** ** Python runtime: exceptions, results, effects *)

Module Py.

(** The exception classes the scripts can meet.  All of them derive
    from [Exception]; [parent] is the class each one inherits from. *)
Inductive exn_class :=
| Exception
| OSError
| FileNotFoundError
| PermissionError
| ValueError
| EmptyDataError      (* pandas.errors.EmptyDataError *)
| ParserError         (* pandas.errors.ParserError *)
| TypeError
| NameError
| KeyError
| IndexError
| RuntimeError
| SubprocessError
| TimeoutExpired.     (* subprocess.TimeoutExpired *)

#[global] Instance exn_class_eq_dec : EqDecision exn_class.
Proof. solve_decision. Defined.

Definition parent (c : exn_class) : option exn_class :=
  match c with
  | Exception => None
  | OSError => Some Exception
  | FileNotFoundError => Some OSError
  | PermissionError => Some OSError
  | ValueError => Some Exception
  | EmptyDataError => Some ValueError
  | ParserError => Some ValueError
  | TypeError => Some Exception
  | NameError => Some Exception
  | KeyError => Some Exception
  | IndexError => Some Exception
  | RuntimeError => Some Exception
  | SubprocessError => Some Exception
  | TimeoutExpired => Some SubprocessError
  end.

(** [issubclass c d]: [d] is [c] or one of its ancestors.  The hierarchy
    is three levels deep, so three steps up are enough. *)
Fixpoint issubclass_fuel (n : nat) (c d : exn_class) : bool :=
  if decide (c = d) then true
  else match n with
       | O => false
       | S n' => match parent c with
                 | Some p => issubclass_fuel n' p d
                 | None => false
                 end
       end.

Definition issubclass : exn_class → exn_class → bool := issubclass_fuel 3.

(** The texts of the exceptions: one constructor per f-string of the
    repository, carrying the values the f-string interpolates. *)
Inductive message :=
| DataFileMissing (csv_path : string)
    (* f"数据文件不存在: {csv_path}" *)
| CsvColumnsMissing (missing_columns : list string)
    (* f"CSV文件缺少必需的列: {missing_columns}" *)
| CsvEmpty (csv_path : string)
    (* f"❌ CSV文件为空: {csv_path}" *)
| RequiredCsvNotFound (csv_path : string)
    (* f"Required CSV file not found: {csv_path}" *)
| MissingRequiredColumns (missing_columns required_columns : list string)
    (* f"Missing required columns: {missing_columns}. Required: {required_columns}" *)
| NameNotDefined (name : string)
    (* name 'stats' is not defined *)
| LibraryText (text : string).

Record exn := Exn { cls : exn_class; msg : message }.

Definition isinstance (e : exn) (c : exn_class) : bool := issubclass (cls e) c.
Arguments isinstance : simpl never.

Inductive result (A : Type) :=
| Ret (a : A)
| Raise (e : exn).
Arguments Ret {A} a.
Arguments Raise {A} e.

End Py.

Import Py.

(** ** Tables as pandas holds them *)

Module Pandas.

(** A column has one dtype for all its cells: pandas reads a column of
    integer literals as int64, one with a decimal point somewhere as
    float64 and anything else as object (strings).  Floating-point
    values are taken as exact rationals. *)
Inductive Series :=
| Int64 (values : list Z)
| Float64 (values : list Qc)
| Object (values : list string).

(** Columns in file order. *)
Definition DataFrame : Type := list (string * Series).

Definition columns (df : DataFrame) : list string := df.*1.

(** [df[name]]: the first column of that name. *)
Fixpoint getitem (df : DataFrame) (name : string) : option Series :=
  match df with
  | [] => None
  | (c, s) :: df' => if decide (c = name) then Some s else getitem df' name
  end.

End Pandas.

Import Pandas.

(** ** The part of numpy the gridding code uses *)

Module Numpy.

Inductive dtype := int64 | float64.

#[global] Instance dtype_eq_dec : EqDecision dtype.
Proof. solve_decision. Defined.

(** One-dimensional and two-dimensional arrays.  Every array has one
    dtype; an int64 array holds integers only.  Integers are taken
    without the 64-bit bound. *)
Record ndarray := Array { dtype_of : dtype; items : list Qc }.
Record matrix := Matrix { mdtype : dtype; rows : list (list Qc) }.

Definition of_int (z : Z) : Qc := Q2Qc (inject_Z z).

(** Conversion of a floating-point value to an integer drops the
    fractional part (rounds toward zero). *)
Definition trunc (q : Qc) : Z := Z.quot (Qnum q) (Zpos (Qden q)).

(** What a store into an array of dtype [d] keeps of [q]. *)
Definition cast (d : dtype) (q : Qc) : Qc :=
  match d with
  | int64 => of_int (trunc q)
  | float64 => q
  end.

(** [series.values] of a numeric column. *)
Definition values (s : Series) : option ndarray :=
  match s with
  | Int64 l => Some (Array int64 (of_int <$> l))
  | Float64 l => Some (Array float64 l)
  | Object _ => None
  end.

(** [np.unique]: the distinct values in ascending order, same dtype. *)
Definition unique (a : ndarray) : ndarray :=
  Array (dtype_of a) (merge_sort Qcle (remove_dups (items a))).

(** [np.meshgrid(xu, yu)]: both results have [len(yu)] rows and
    [len(xu)] columns; each keeps the dtype of its argument. *)
Definition meshgrid (xu yu : ndarray) : matrix * matrix :=
  (Matrix (dtype_of xu) (replicate (length (items yu)) (items xu)),
   Matrix (dtype_of yu) ((λ yi : Qc, replicate (length (items xu)) yi) <$> items yu)).

(** [np.zeros_like]: same shape and same dtype. *)
Definition zeros_like (m : matrix) : matrix :=
  Matrix (mdtype m) ((λ r : list Qc, (λ _, 0%Qc) <$> r) <$> rows m).

Definition index_error : exn := Exn IndexError (LibraryText "index is out of bounds").

(** [m[j, i] = v] for non-negative indices: the value is converted to
    the dtype of [m]; an index outside the array raises. *)
Definition setitem (m : matrix) (j i : nat) (v : Qc) : result matrix :=
  match rows m !! j with
  | Some r =>
      if decide (i < length r)%nat then
        Ret (Matrix (mdtype m) (<[j := <[i := cast (mdtype m) v]> r]> (rows m)))
      else Raise index_error
  | None => Raise index_error
  end.

(** [m[j, i]] *)
Definition getitem2 (m : matrix) (j i : nat) : option Qc :=
  r ← rows m !! j; r !! i.

Definition sum (l : list Qc) : Qc := foldr Qcplus 0%Qc l.

(** [np.mean] of a non-empty array, in exact arithmetic. *)
Definition mean (l : list Qc) : Qc := (sum l / of_int (Z.of_nat (length l)))%Qc.

End Numpy.

Import Numpy.

(** ** The correlation coefficient, in binary64 arithmetic *)

Module Corr.

Local Open Scope float_scope.

Definition float_of_Z (z : Z) : float :=
  if (z <? 0)%Z then - of_uint63 (Uint63.of_Z (- z))
  else of_uint63 (Uint63.of_Z z).

(** The nearest binary64 value of a cell, for numerators and
    denominators below 2^53. *)
Definition float_of_Qc (q : Qc) : float :=
  float_of_Z (Qnum q) / float_of_Z (Zpos (Qden q)).

(** A numeric column as numpy converts it for [np.corrcoef]. *)
Definition as_float64 (s : Series) : option (list float) :=
  match s with
  | Int64 l => Some (float_of_Z <$> l)
  | Float64 l => Some (float_of_Qc <$> l)
  | Object _ => None
  end.

(** Sums run from left to right, as numpy adds fewer than eight
    numbers. *)
Definition fsum (l : list float) : float := fold_left add l 0.

Definition fmean (l : list float) : float :=
  fsum l / float_of_Z (Z.of_nat (length l)).

(** [X -= avg[:, None]] *)
Definition center (l : list float) : list float :=
  let avg := fmean l in (λ v, v - avg) <$> l.

Definition dot (a b : list float) : float := fsum (zip_with mul a b).

(** One entry of [np.cov]: [ddof = 1], so the products are scaled by
    [1 / (N - 1)]. *)
Definition cov (a b : list float) : float :=
  dot (center a) (center b) * (1 / float_of_Z (Z.of_nat (length a) - 1)).

(** [np.clip(v, lo, hi)] *)
Definition clip (lo hi v : float) : float :=
  if v <? lo then lo else if hi <? v then hi else v.

(** [np.corrcoef(x, y)[0, 1]]: the covariance divided by the standard
    deviation of the row, then by that of the column, then clipped to
    [-1, 1]. *)
Definition corrcoef (x y : list float) : float :=
  clip (-1) 1 (cov x y / sqrt (cov x x) / sqrt (cov y y)).

End Corr.

(** ** Effects of a chart script *)

Module Eff.

(** What a chart script does that can be seen from outside: the
    directories and image files it writes, the grids it hands to the
    3D plotting calls, and the correlation coefficient the basic
    scatter plot writes into its figure. *)
Inductive event :=
| Makedirs (dir : string)
| Savefig (filename : string)
| Plot3D (call : string) (X Y Z : matrix)
| AxText (correlation : float).

(** A computation returns or raises, and leaves a trace of events; the
    events that happened before an exception stay in the trace. *)
Record M (A : Type) : Type := Run { res : result A; trace : list event }.
Arguments Run {A} res trace.
Arguments res {A} m.
Arguments trace {A} m.

Definition ret {A} (a : A) : M A := Run (Ret a) [].
Definition raise {A} (e : exn) : M A := Run (Raise e) [].
Definition emit (ev : event) : M unit := Run (Ret tt) [ev].

Definition bind {A B} (k : A → M B) (m : M A) : M B :=
  match res m with
  | Ret a => Run (res (k a)) (trace m ++ trace (k a))
  | Raise e => Run (Raise e) (trace m)
  end.

#[global] Instance M_ret : MRet M := @ret.
#[global] Instance M_bind : MBind M := @bind.

(** An [except C as e: h] clause. *)
Definition handler (A : Type) : Type := exn_class * (exn → M A).

(** The clauses of a [try] are tried in order; the first whose class
    matches runs; with none the exception goes on. *)
Fixpoint dispatch {A} (hs : list (handler A)) (e : exn) : M A :=
  match hs with
  | [] => raise e
  | (c, h) :: hs' => if isinstance e c then h e else dispatch hs' e
  end.

Definition try_except {A} (body : M A) (hs : list (handler A)) : M A :=
  match res body with
  | Ret a => body
  | Raise e => Run (res (dispatch hs e)) (trace body ++ trace (dispatch hs e))
  end.

(** A library call that either goes through or raises. *)
Definition outcome (o : option exn) : M unit :=
  match o with
  | None => ret tt
  | Some e => raise e
  end.

Definition lift {A} (r : result A) : M A := Run r [].

(** The Z grids a trace handed to the 3D plotting calls, as plain
    rationals. *)
Definition plotted (t : list event) : list (list (list Q)) :=
  omap (λ ev, match ev with
              | Plot3D _ _ _ Z => Some (map (map this) (rows Z))
              | _ => None
              end) t.

(** The image files a trace wrote. *)
Definition saved (t : list event) : list string :=
  omap (λ ev, match ev with Savefig f => Some f | _ => None end) t.

End Eff.

Import Eff.

(** ** The collaborators *)

Record World := {
  (** [os.path.exists] *)
  path_exists : string → bool;
  (** [pd.read_csv]: the table, or the exception pandas raises *)
  read_csv : string → result DataFrame;
  (** the plotting calls of the chart with that label, in order: [None]
      when all of them go through, or the first exception one raises *)
  plotting : string → option exn;
  (** [os.makedirs(..., exist_ok=True)] *)
  makedirs : string → option exn;
  (** [fig.savefig] *)
  savefig : string → option exn;
  (** [os.path.dirname(__file__)] of the running script *)
  script_dir : string
}.

(** ** utils/common_utils.py *)

Module CommonUtils.

(** Position of the last ['/'] of [s], counted from the start. *)
Fixpoint last_slash (s : string) : option nat :=
  match s with
  | EmptyString => None
  | String c s' =>
      match last_slash s' with
      | Some i => Some (S i)
      | None => if decide (c = "/"%char) then Some O else None
      end
  end.

(** [os.path.dirname] on POSIX paths without a run of slashes at the
    cut: everything before the last ['/'], and ["/"] for a file directly
    under the root. *)
Definition dirname (s : string) : string :=
  match last_slash s with
  | None => ""
  | Some O => "/"
  | Some i => String.substring 0 i s
  end.

Definition ends_with_slash (s : string) : bool :=
  match last_slash s with
  | Some i => bool_decide (S i = String.length s)
  | None => false
  end.

(** [os.path.join a b] for a relative [b]. *)
Definition path_join (a b : string) : string :=
  if decide (a = "") then b
  else if ends_with_slash a then String.append a b
  else String.append a (String.append "/" b).

Definition save_plot (w : World) (filename : string) : M unit :=
  outcome (makedirs w (dirname filename));;
  emit (Makedirs (dirname filename));;
  outcome (savefig w filename);;
  emit (Savefig filename).

Definition check_and_load_csv (w : World) (csv_path : string)
    (required_columns : list string) (data_description : string)
  : M DataFrame :=
  if negb (path_exists w csv_path) then
    raise (Exn FileNotFoundError (DataFileMissing csv_path))
  else
    try_except
      (df ← lift (read_csv w csv_path);
       let missing_columns :=
         filter (λ col, col ∉ columns df) required_columns in
       if bool_decide (missing_columns ≠ []) then
         raise (Exn ValueError (CsvColumnsMissing missing_columns))
       else
         ret df)
      [ (EmptyDataError, λ _, raise (Exn ValueError (CsvEmpty csv_path)));
        (Exception, λ e, raise e) ].

End CommonUtils.

Import CommonUtils.

(** ** The grid reconstructor of the 3D surface, wireframe and contour plots *)

Module Grid.

(** [for k, a in enumerate(l, start=k0): s = body(k, a, s)], stopping
    at the first exception. *)
Fixpoint for_enumerate {A St} (body : nat → A → St → result St)
    (k0 : nat) (l : list A) (s : St) : result St :=
  match l with
  | [] => Ret s
  | a :: l' =>
      match body k0 a s with
      | Ret s' => for_enumerate body (S k0) l' s'
      | Raise e => Raise e
      end
  end.

(** [(data['x'] == xi) & (data['y'] == yi)] *)
Definition mask (xs ys : list Qc) (xi yi : Qc) : list bool :=
  zip_with (λ x y, bool_decide (x = xi) && bool_decide (y = yi)) xs ys.

(** [mask.any()] *)
Definition any (m : list bool) : bool := existsb id m.

(** [data.loc[mask, 'z']]: the cells of the rows the mask selects, in
    row order. *)
Fixpoint loc (m : list bool) (zs : list Qc) : list Qc :=
  match m, zs with
  | b :: m', z :: zs' => if b then z :: loc m' zs' else loc m' zs'
  | _, _ => []
  end.

(** [series.iloc[0]] *)
Definition iloc0 (l : list Qc) : result Qc :=
  match l with
  | v :: _ => Ret v
  | [] => Raise index_error
  end.

(** The body of the inner loop: the value stored at [Z[j, i]]. *)
Definition cell (xs ys zs : list Qc) (xi yi : Qc) : result Qc :=
  let m := mask xs ys xi yi in
  if any m then iloc0 (loc m zs) else Ret (mean zs).

(** Lines 69-86 of [3d_surface_plot.py], and the same loop in
    [3d_wireframe_plot.py], [3d_contour_plot.py] and [3d_plot.py]. *)
Definition reconstruct (x y z : ndarray) : result (matrix * matrix * matrix) :=
  let x_unique := unique x in
  let y_unique := unique y in
  let '(X, Y) := meshgrid x_unique y_unique in
  let Z0 := zeros_like X in
  match
    for_enumerate (λ i xi Z,
      for_enumerate (λ j yi Z,
        match cell (items x) (items y) (items z) xi yi with
        | Ret v => setitem Z j i v
        | Raise e => Raise e
        end) 0 (items y_unique) Z) 0 (items x_unique) Z0
  with
  | Ret Z => Ret (X, Y, Z)
  | Raise e => Raise e
  end.

(** What a store into a grid of dtype [d] leaves in the cell. *)
Definition stored (d : dtype) (r : result Qc) : option Qc :=
  match r with
  | Ret v => Some (cast d v)
  | Raise _ => None
  end.

(** A matrix of [nr] rows and [nc] columns. *)
Definition shaped (nr nc : nat) (m : matrix) : Prop :=
  length (rows m) = nr ∧ ∀ j r, rows m !! j = Some r → length r = nc.

(** The Z grid alone, [None] when the loop raised. *)
Definition grid (x y z : ndarray) : option matrix :=
  match reconstruct x y z with
  | Ret (_, _, Z) => Some Z
  | Raise _ => None
  end.

End Grid.

Import Grid.

(** ** The chart functions and the scripts *)

Module Charts.

(** [plt.close()] *)
Definition plt_close (w : World) : M unit := outcome (plotting w "plt.close").

(** *** Line, bar and scatter charts

    Every chart function of [line_chart/], [bar_chart/] and
    [scatter_plot/] has this shape: the table comes from
    [check_and_load_csv], the [try] has one clause
    [except (FileNotFoundError, ValueError)], and [return True] follows
    the [try] statement.  [body] is what happens between loading and
    saving. *)
Definition loader_chart (csv_path : string) (required_columns : list string)
    (data_description : string) (body : World → DataFrame → M unit)
    (png_path : string) (w : World) : M bool :=
  returned ← try_except
    (df ← check_and_load_csv w csv_path required_columns data_description;
     body w df;;
     save_plot w png_path;;
     plt_close w;;
     mret None)
    [ (FileNotFoundError, λ _, mret (Some false));
      (ValueError, λ _, mret (Some false)) ];
  match returned with
  | Some b => mret b
  | None => mret true
  end.

(** The plotting calls of a chart, all behind one label. *)
Definition draw (label : string) (w : World) (df : DataFrame) : M unit :=
  outcome (plotting w label).

(** *** Box plots, histograms and 3D plots

    Every chart function of [box_plot/], [histogram/] and [3d_plot/]
    checks the file and the columns itself, inside a [try] with the
    clauses [except FileNotFoundError] and [except Exception]; the
    paths are relative to the directory of the script. *)
Definition data_path (w : World) (csv_file : string) : string :=
  path_join (path_join (path_join (script_dir w) "..") "data") csv_file.

Definition plot_path (w : World) (png_file : string) : string :=
  path_join (path_join (path_join (script_dir w) "..") "plot") png_file.

Definition inline_chart (csv_file : string) (required_columns : list string)
    (body : World → DataFrame → M unit) (png_file : string) (w : World)
  : M bool :=
  try_except
    (let csv_path := data_path w csv_file in
     (if negb (path_exists w csv_path) then
        raise (Exn FileNotFoundError (RequiredCsvNotFound csv_path))
      else mret tt);;
     data ← lift (read_csv w csv_path);
     let missing_columns :=
       filter (λ col, col ∉ columns data) required_columns in
     (if bool_decide (missing_columns ≠ []) then
        raise (Exn ValueError
                 (MissingRequiredColumns missing_columns required_columns))
      else mret tt);;
     body w data;;
     save_plot w (plot_path w png_file);;
     plt_close w;;
     mret true)
    [ (FileNotFoundError, λ _, mret false);
      (Exception, λ _, mret false) ].

(** *** Names bound at module level

    [from common_utils import *] binds every public name of
    [utils/common_utils.py], the modules it imports included. *)
Definition common_utils_names : list string :=
  [ "np"; "pd"; "plt"; "sns"; "os"; "sys"; "Path";
    "set_scientific_style"; "get_color_palette"; "save_plot";
    "check_and_load_csv"; "generate_sample_data";
    "create_figure_with_style"; "generate_time_series_data";
    "generate_multiple_series_data"; "generate_categorical_data";
    "generate_scatter_data"; "generate_distribution_data" ].

(** The globals of [histogram/code/basic_histogram.py]. *)
Definition basic_histogram_globals : list string :=
  [ "sys"; "os" ] ++ common_utils_names
  ++ [ "np"; "pd"; "plt"; "sns"; "create_basic_histogram"; "main" ].

(** The globals of [histogram/code/histogram.py], which has
    [from scipy import stats]. *)
Definition histogram_globals : list string :=
  [ "os"; "sys"; "pd"; "plt"; "sns"; "np"; "stats";
    "set_scientific_style"; "get_color_palette"; "save_plot";
    "create_basic_histogram"; "create_multiple_histograms";
    "create_stacked_histogram"; "create_2d_histogram";
    "create_distribution_comparison"; "main" ].

(** Evaluating a global name that is not a builtin. *)
Definition load_global (globals : list string) (name : string) : M unit :=
  if bool_decide (name ∈ globals) then mret tt
  else raise (Exn NameError (NameNotDefined name)).

(** The body of [create_basic_histogram] between the column check and
    [save_plot]: the histogram, then [stats.norm.fit] and
    [stats.norm.pdf], then the decoration. *)
Definition histogram_body (globals : list string) (w : World)
    (data : DataFrame) : M unit :=
  outcome (plotting w "basic_histogram:hist");;
  load_global globals "stats";;
  outcome (plotting w "basic_histogram:normal_fit");;
  outcome (plotting w "basic_histogram:decorate").

(** The three numeric columns the grid is built from. *)
Definition xyz (data : DataFrame) : option (ndarray * ndarray * ndarray) :=
  x ← getitem data "x" ≫= values;
  y ← getitem data "y" ≫= values;
  z ← getitem data "z" ≫= values;
  Some (x, y, z).

(** The inner [try] of the surface, wireframe and contour plots: the
    grid is built and plotted; on any exception the points are drawn
    as a scatter plot instead.  With a column of strings the outcome
    of the attempt is left to the plotting library. *)
Definition gridded (label : string) (w : World) (data : DataFrame) : M unit :=
  try_except
    (match xyz data with
     | Some (x, y, z) =>
         '(X, Y, Z) ← lift (reconstruct x y z);
         emit (Plot3D label X Y Z);;
         outcome (plotting w (label +:+ ":grid"))
     | None => outcome (plotting w (label +:+ ":grid"))
     end)
    [ (Exception, λ _, outcome (plotting w (label +:+ ":scatter"))) ].

Definition surface_body (w : World) (data : DataFrame) : M unit :=
  outcome (plotting w "3d_surface:figure");;
  gridded "3d_surface" w data;;
  outcome (plotting w "3d_surface:labels");;
  try_except (outcome (plotting w "3d_surface:colorbar"))
    [ (Exception, λ _, mret tt) ];;
  outcome (plotting w "3d_surface:decorate").

Definition wireframe_body (w : World) (data : DataFrame) : M unit :=
  outcome (plotting w "3d_wireframe:figure");;
  gridded "3d_wireframe" w data;;
  outcome (plotting w "3d_wireframe:decorate").

Definition contour_body (w : World) (data : DataFrame) : M unit :=
  outcome (plotting w "3d_contour:figure");;
  gridded "3d_contour" w data;;
  outcome (plotting w "3d_contour:decorate").

(** Line 60 of [basic_scatter_plot.py]; columns of strings make numpy
    raise. *)
Definition correlation_of (df : DataFrame) : result float :=
  match getitem df "x" ≫= Corr.as_float64, getitem df "y" ≫= Corr.as_float64 with
  | Some x, Some y => Ret (Corr.corrcoef x y)
  | _, _ => Raise (Exn TypeError (LibraryText "unsupported operand type(s)"))
  end.

Definition basic_scatter_body (w : World) (df : DataFrame) : M unit :=
  outcome (plotting w "basic_scatter:trend");;
  correlation ← lift (correlation_of df);
  emit (AxText correlation);;
  outcome (plotting w "basic_scatter:decorate").

(** *** The chart functions of the line, bar and scatter scripts *)

Definition create_basic_line_chart : World → M bool :=
  loader_chart "../data/basic_line_data.csv" ["time"; "amplitude"]
    "基础折线图数据格式" (draw "basic_line_chart") "../plot/basic_line_chart.png".

Definition create_multiple_line_chart : World → M bool :=
  loader_chart "../data/multiple_line_data.csv" ["time"; "series_a"; "series_b"; "series_c"]
    "多系列折线图数据格式" (draw "multiple_line_chart") "../plot/multiple_line_chart.png".

Definition create_line_chart_with_ci : World → M bool :=
  loader_chart "../data/confidence_interval_data.csv" ["time"; "mean"; "lower_ci"; "upper_ci"]
    "带置信区间折线图数据格式" (draw "line_chart_with_ci") "../plot/line_chart_with_ci.png".

Definition create_basic_bar_chart : World → M bool :=
  loader_chart "../data/basic_bar_data.csv" ["category"; "value"]
    "基础柱状图数据格式" (draw "basic_bar_chart") "../plot/basic_bar_chart.png".

Definition create_grouped_bar_chart : World → M bool :=
  loader_chart "../data/grouped_bar_data.csv" ["category"; "group_a"; "group_b"; "group_c"]
    "分组柱状图数据格式" (draw "grouped_bar_chart") "../plot/grouped_bar_chart.png".

Definition create_stacked_bar_chart : World → M bool :=
  loader_chart "../data/stacked_bar_data.csv" ["category"; "part_a"; "part_b"; "part_c"]
    "堆叠柱状图数据格式" (draw "stacked_bar_chart") "../plot/stacked_bar_chart.png".

Definition create_horizontal_bar_chart : World → M bool :=
  loader_chart "../data/horizontal_bar_data.csv" ["item"; "score"]
    "水平柱状图数据格式" (draw "horizontal_bar_chart") "../plot/horizontal_bar_chart.png".

Definition create_basic_scatter_plot : World → M bool :=
  loader_chart "../data/basic_scatter_data.csv" ["x"; "y"]
    "基础散点图数据格式" (basic_scatter_body) "../plot/basic_scatter_plot.png".

Definition create_colored_scatter_plot : World → M bool :=
  loader_chart "../data/colored_scatter_data.csv" ["x"; "y"; "color_value"]
    "彩色散点图数据格式" (draw "colored_scatter_plot") "../plot/colored_scatter_plot.png".

Definition create_sized_scatter_plot : World → M bool :=
  loader_chart "../data/sized_scatter_data.csv" ["x"; "y"; "size_value"]
    "大小变化散点图数据格式" (draw "sized_scatter_plot") "../plot/sized_scatter_plot.png".

Definition create_categorical_scatter_plot : World → M bool :=
  loader_chart "../data/categorical_scatter_data.csv" ["x"; "y"; "category"]
    "分类散点图数据格式" (draw "categorical_scatter_plot") "../plot/categorical_scatter_plot.png".

Definition create_correlation_matrix_scatter : World → M bool :=
  loader_chart "../data/correlation_matrix_data.csv" ["var1"; "var2"; "var3"; "var4"]
    "相关性矩阵散点图数据格式" (draw "correlation_matrix_scatter") "../plot/correlation_matrix_scatter.png".

(** *** The chart functions of the box plot, histogram and 3D scripts *)

Definition create_basic_box_plot : World → M bool :=
  inline_chart "basic_box_data.csv" ["group"; "value"]
    (draw "basic_box_plot") "basic_box_plot.png".

Definition create_violin_plot : World → M bool :=
  inline_chart "violin_plot_data.csv" ["category"; "measurement"]
    (draw "violin_plot") "violin_plot.png".

Definition create_grouped_box_plot : World → M bool :=
  inline_chart "grouped_box_data.csv" ["time_point"; "condition"; "response"]
    (draw "grouped_box_plot") "grouped_box_plot.png".

Definition create_notched_box_plot : World → M bool :=
  inline_chart "notched_box_data.csv" ["method"; "performance"]
    (draw "notched_box_plot") "notched_box_plot.png".

Definition create_horizontal_box_plot : World → M bool :=
  inline_chart "horizontal_box_data.csv" ["algorithm"; "execution_time"]
    (draw "horizontal_box_plot") "horizontal_box_plot.png".

Definition create_basic_histogram : World → M bool :=
  inline_chart "basic_histogram_data.csv" ["values"]
    (histogram_body basic_histogram_globals) "basic_histogram.png".

(** [create_basic_histogram] as [histogram/code/histogram.py] defines
    it: the same text, in a module that imports [stats]. *)
Definition create_basic_histogram_in_histogram_py : World → M bool :=
  inline_chart "basic_histogram_data.csv" ["values"]
    (histogram_body histogram_globals) "basic_histogram.png".

Definition create_multiple_histograms : World → M bool :=
  inline_chart "multiple_histogram_data.csv" ["group_a"; "group_b"; "group_c"]
    (draw "multiple_histograms") "multiple_histograms.png".

Definition create_stacked_histogram : World → M bool :=
  inline_chart "stacked_histogram_data.csv" ["value"; "category"]
    (draw "stacked_histogram") "stacked_histogram.png".

Definition create_2d_histogram : World → M bool :=
  inline_chart "2d_histogram_data.csv" ["x"; "y"]
    (draw "2d_histogram") "2d_histogram.png".

Definition create_distribution_comparison : World → M bool :=
  inline_chart "distribution_comparison_data.csv" ["observed"; "theoretical"]
    (draw "distribution_comparison") "distribution_comparison.png".

Definition create_3d_surface_plot : World → M bool :=
  inline_chart "3d_surface_data.csv" ["x"; "y"; "z"]
    (surface_body) "3d_surface_plot.png".

Definition create_3d_scatter_plot : World → M bool :=
  inline_chart "3d_scatter_data.csv" ["x"; "y"; "z"; "group"]
    (draw "3d_scatter_plot") "3d_scatter_plot.png".

Definition create_3d_wireframe_plot : World → M bool :=
  inline_chart "3d_wireframe_data.csv" ["x"; "y"; "z"]
    (wireframe_body) "3d_wireframe_plot.png".

Definition create_3d_bar_plot : World → M bool :=
  inline_chart "3d_bar_data.csv" ["x_pos"; "y_pos"; "height"]
    (draw "3d_bar_plot") "3d_bar_plot.png".

Definition create_3d_contour_plot : World → M bool :=
  inline_chart "3d_contour_data.csv" ["x"; "y"; "z"]
    (contour_body) "3d_contour_plot.png".

Definition create_parametric_3d_plot : World → M bool :=
  inline_chart "parametric_3d_data.csv" ["t"; "x"; "y"; "z"; "curve_type"]
    (draw "parametric_3d_plot") "parametric_3d_plot.png".

(** *** Scripts

    A chart is a chart function with the CSV file it requires. *)
Record chart := Chart {
  csv : World → string;
  create : World → M bool
}.


Definition chart_basic_line_chart : chart :=
  Chart (λ _, "../data/basic_line_data.csv") create_basic_line_chart.

Definition chart_multiple_line_chart : chart :=
  Chart (λ _, "../data/multiple_line_data.csv") create_multiple_line_chart.

Definition chart_line_chart_with_ci : chart :=
  Chart (λ _, "../data/confidence_interval_data.csv") create_line_chart_with_ci.

Definition chart_basic_bar_chart : chart :=
  Chart (λ _, "../data/basic_bar_data.csv") create_basic_bar_chart.

Definition chart_grouped_bar_chart : chart :=
  Chart (λ _, "../data/grouped_bar_data.csv") create_grouped_bar_chart.

Definition chart_stacked_bar_chart : chart :=
  Chart (λ _, "../data/stacked_bar_data.csv") create_stacked_bar_chart.

Definition chart_horizontal_bar_chart : chart :=
  Chart (λ _, "../data/horizontal_bar_data.csv") create_horizontal_bar_chart.

Definition chart_basic_scatter_plot : chart :=
  Chart (λ _, "../data/basic_scatter_data.csv") create_basic_scatter_plot.

Definition chart_colored_scatter_plot : chart :=
  Chart (λ _, "../data/colored_scatter_data.csv") create_colored_scatter_plot.

Definition chart_sized_scatter_plot : chart :=
  Chart (λ _, "../data/sized_scatter_data.csv") create_sized_scatter_plot.

Definition chart_categorical_scatter_plot : chart :=
  Chart (λ _, "../data/categorical_scatter_data.csv") create_categorical_scatter_plot.

Definition chart_correlation_matrix_scatter : chart :=
  Chart (λ _, "../data/correlation_matrix_data.csv") create_correlation_matrix_scatter.

Definition chart_basic_box_plot : chart :=
  Chart (λ w, data_path w "basic_box_data.csv") create_basic_box_plot.

Definition chart_violin_plot : chart :=
  Chart (λ w, data_path w "violin_plot_data.csv") create_violin_plot.

Definition chart_grouped_box_plot : chart :=
  Chart (λ w, data_path w "grouped_box_data.csv") create_grouped_box_plot.

Definition chart_notched_box_plot : chart :=
  Chart (λ w, data_path w "notched_box_data.csv") create_notched_box_plot.

Definition chart_horizontal_box_plot : chart :=
  Chart (λ w, data_path w "horizontal_box_data.csv") create_horizontal_box_plot.

Definition chart_basic_histogram : chart :=
  Chart (λ w, data_path w "basic_histogram_data.csv") create_basic_histogram.

Definition chart_basic_histogram_in_histogram_py : chart :=
  Chart (λ w, data_path w "basic_histogram_data.csv") create_basic_histogram_in_histogram_py.

Definition chart_multiple_histograms : chart :=
  Chart (λ w, data_path w "multiple_histogram_data.csv") create_multiple_histograms.

Definition chart_stacked_histogram : chart :=
  Chart (λ w, data_path w "stacked_histogram_data.csv") create_stacked_histogram.

Definition chart_2d_histogram : chart :=
  Chart (λ w, data_path w "2d_histogram_data.csv") create_2d_histogram.

Definition chart_distribution_comparison : chart :=
  Chart (λ w, data_path w "distribution_comparison_data.csv") create_distribution_comparison.

Definition chart_3d_surface_plot : chart :=
  Chart (λ w, data_path w "3d_surface_data.csv") create_3d_surface_plot.

Definition chart_3d_scatter_plot : chart :=
  Chart (λ w, data_path w "3d_scatter_data.csv") create_3d_scatter_plot.

Definition chart_3d_wireframe_plot : chart :=
  Chart (λ w, data_path w "3d_wireframe_data.csv") create_3d_wireframe_plot.

Definition chart_3d_bar_plot : chart :=
  Chart (λ w, data_path w "3d_bar_data.csv") create_3d_bar_plot.

Definition chart_3d_contour_plot : chart :=
  Chart (λ w, data_path w "3d_contour_data.csv") create_3d_contour_plot.

Definition chart_parametric_3d_plot : chart :=
  Chart (λ w, data_path w "parametric_3d_data.csv") create_parametric_3d_plot.


(** The status a script ends with when its last lines are
    [success = main()] and [sys.exit(0 if success else 1)]; an uncaught
    exception ends the interpreter with status 1. *)
Definition exit_status (m : M bool) : Z :=
  match res m with
  | Ret true => 0
  | Ret false => 1
  | Raise _ => 1
  end.

(** The status of a script whose last line is a bare [main()]. *)
Definition plain_status {A} (m : M A) : Z :=
  match res m with
  | Ret _ => 0
  | Raise _ => 1
  end.

(** The chart functions called in turn, counting those that return
    [True]. *)
Fixpoint count_successes (fs : list (World → M bool)) (w : World) : M nat :=
  match fs with
  | [] => mret O
  | f :: fs' =>
      ok ← f w;
      n ← count_successes fs' w;
      mret (if (ok : bool) then S n else n)
  end.

(** [main] of [line_chart.py], [bar_chart.py] and [scatter_plot.py]
    counts and prints; it returns nothing. *)
Definition counting_main (fs : list (World → M bool)) (w : World) : M unit :=
  success_count ← count_successes fs w;
  mret tt.

(** [main] of [box_plot.py], [histogram.py] and [3d_plot.py] returns
    whether every plot was created. *)
Definition reporting_main (plot_functions : list (World → M bool))
    (w : World) : M bool :=
  successful_plots ← count_successes plot_functions w;
  mret (bool_decide (successful_plots = length plot_functions)).

Record script := Script {
  file : string;
  charts : list chart;
  (** exit status and trace of one run *)
  run : World → Z * list event
}.

(** [def main(): return create_x()] with
    [success = main(); sys.exit(0 if success else 1)]. *)
Definition standalone (file : string) (c : chart) : script :=
  Script file [c] (λ w, (exit_status (create c w), trace (create c w))).

(** A family script of the line, bar and scatter kind, ending in a
    bare [main()]. *)
Definition counting_family (file : string) (cs : list chart) : script :=
  Script file cs
    (λ w, let m := counting_main (create <$> cs) w in (plain_status m, trace m)).

(** A family script of the box plot, histogram and 3D kind, ending in
    a bare [main()] as well. *)
Definition reporting_family (file : string) (cs : list chart) : script :=
  Script file cs
    (λ w, let m := reporting_main (create <$> cs) w in (plain_status m, trace m)).


Definition standalone_scripts : list script :=
  [ 
standalone "line_chart/code/basic_line_chart.py" chart_basic_line_chart;
    standalone "line_chart/code/multiple_line_chart.py" chart_multiple_line_chart;
    standalone "line_chart/code/line_chart_with_ci.py" chart_line_chart_with_ci;
    standalone "bar_chart/code/basic_bar_chart.py" chart_basic_bar_chart;
    standalone "bar_chart/code/grouped_bar_chart.py" chart_grouped_bar_chart;
    standalone "bar_chart/code/stacked_bar_chart.py" chart_stacked_bar_chart;
    standalone "bar_chart/code/horizontal_bar_chart.py" chart_horizontal_bar_chart;
    standalone "scatter_plot/code/basic_scatter_plot.py" chart_basic_scatter_plot;
    standalone "scatter_plot/code/colored_scatter_plot.py" chart_colored_scatter_plot;
    standalone "scatter_plot/code/sized_scatter_plot.py" chart_sized_scatter_plot;
    standalone "scatter_plot/code/categorical_scatter_plot.py" chart_categorical_scatter_plot;
    standalone "scatter_plot/code/correlation_matrix_scatter.py" chart_correlation_matrix_scatter;
    standalone "box_plot/code/basic_box_plot.py" chart_basic_box_plot;
    standalone "box_plot/code/violin_plot.py" chart_violin_plot;
    standalone "box_plot/code/grouped_box_plot.py" chart_grouped_box_plot;
    standalone "box_plot/code/notched_box_plot.py" chart_notched_box_plot;
    standalone "box_plot/code/horizontal_box_plot.py" chart_horizontal_box_plot;
    standalone "histogram/code/basic_histogram.py" chart_basic_histogram;
    standalone "histogram/code/multiple_histograms.py" chart_multiple_histograms;
    standalone "histogram/code/stacked_histogram.py" chart_stacked_histogram;
    standalone "histogram/code/2d_histogram.py" chart_2d_histogram;
    standalone "histogram/code/distribution_comparison.py" chart_distribution_comparison;
    standalone "3d_plot/code/3d_surface_plot.py" chart_3d_surface_plot;
    standalone "3d_plot/code/3d_scatter_plot.py" chart_3d_scatter_plot;
    standalone "3d_plot/code/3d_wireframe_plot.py" chart_3d_wireframe_plot;
    standalone "3d_plot/code/3d_bar_plot.py" chart_3d_bar_plot;
    standalone "3d_plot/code/3d_contour_plot.py" chart_3d_contour_plot;
    standalone "3d_plot/code/parametric_3d_plot.py" chart_parametric_3d_plot ].


Definition line_chart_py : script :=
  counting_family "line_chart/code/line_chart.py"
    [ chart_basic_line_chart;
      chart_multiple_line_chart;
      chart_line_chart_with_ci ].

Definition bar_chart_py : script :=
  counting_family "bar_chart/code/bar_chart.py"
    [ chart_basic_bar_chart;
      chart_grouped_bar_chart;
      chart_stacked_bar_chart;
      chart_horizontal_bar_chart ].

Definition scatter_plot_py : script :=
  counting_family "scatter_plot/code/scatter_plot.py"
    [ chart_basic_scatter_plot;
      chart_colored_scatter_plot;
      chart_sized_scatter_plot;
      chart_categorical_scatter_plot;
      chart_correlation_matrix_scatter ].

Definition box_plot_py : script :=
  reporting_family "box_plot/code/box_plot.py"
    [ chart_basic_box_plot;
      chart_violin_plot;
      chart_grouped_box_plot;
      chart_notched_box_plot;
      chart_horizontal_box_plot ].

Definition histogram_py : script :=
  reporting_family "histogram/code/histogram.py"
    [ chart_basic_histogram_in_histogram_py;
      chart_multiple_histograms;
      chart_stacked_histogram;
      chart_2d_histogram;
      chart_distribution_comparison ].

Definition plot_3d_py : script :=
  reporting_family "3d_plot/code/3d_plot.py"
    [ chart_3d_surface_plot;
      chart_3d_scatter_plot;
      chart_3d_wireframe_plot;
      chart_3d_bar_plot;
      chart_3d_contour_plot;
      chart_parametric_3d_plot ].

Definition family_scripts : list script :=
  [ line_chart_py; bar_chart_py; scatter_plot_py;
    box_plot_py; histogram_py; plot_3d_py ].

Definition chart_scripts : list script := standalone_scripts ++ family_scripts.

(** The chart functions by the shape of their [try] statement. *)
Definition loader_charts : list chart :=
  [ chart_basic_line_chart;
      chart_multiple_line_chart;
      chart_line_chart_with_ci;
      chart_basic_bar_chart;
      chart_grouped_bar_chart;
      chart_stacked_bar_chart;
      chart_horizontal_bar_chart;
      chart_basic_scatter_plot;
      chart_colored_scatter_plot;
      chart_sized_scatter_plot;
      chart_categorical_scatter_plot;
      chart_correlation_matrix_scatter ].

Definition inline_charts : list chart :=
  [ chart_basic_box_plot;
      chart_violin_plot;
      chart_grouped_box_plot;
      chart_notched_box_plot;
      chart_horizontal_box_plot;
      chart_basic_histogram;
      chart_basic_histogram_in_histogram_py;
      chart_multiple_histograms;
      chart_stacked_histogram;
      chart_2d_histogram;
      chart_distribution_comparison;
      chart_3d_surface_plot;
      chart_3d_scatter_plot;
      chart_3d_wireframe_plot;
      chart_3d_bar_plot;
      chart_3d_contour_plot;
      chart_parametric_3d_plot ].

Definition all_charts : list chart := loader_charts ++ inline_charts.

End Charts.

(** ** run_all_plots.py *)

Module Runner.

(** What the runner does that can be seen from outside. *)
Inductive action :=
| Running (module_name : string)      (* print(f"Running {module_name}...") *)
| Chdir (dir : string)                (* a successful os.chdir *)
| SubprocessRun (cwd script : string) (timeout : Z)
                                      (* subprocess.run(..., timeout=...) *)
| Sleep (seconds : Z).                (* time.sleep *)

(** The operating system answers from what has happened so far.
    [subprocess.run] waits for the child: it returns the exit status,
    or raises [TimeoutExpired], or raises because the child could not
    be started. *)
Record OS := {
  chdir_outcome : list action → string → option exn;
  run_outcome : list action → string → string → result Z
}.

Record state := State { cwd : string; log : list action }.

(** A step of the runner: it reads and changes the state, and returns
    or raises. *)
Definition R (A : Type) : Type := state → result A * state.

#[global] Instance R_ret : MRet R := λ A a st, (Ret a, st).
#[global] Instance R_bind : MBind R := λ A B k m st,
  match m st with
  | (Ret a, st') => k a st'
  | (Raise e, st') => (Raise e, st')
  end.

Definition handler (A : Type) : Type := exn_class * (exn → R A).

Fixpoint dispatch {A} (hs : list (handler A)) (e : exn) : R A :=
  match hs with
  | [] => λ st, (Raise e, st)
  | (c, h) :: hs' => if isinstance e c then h e else dispatch hs' e
  end.

Definition try_except {A} (body : R A) (hs : list (handler A)) : R A :=
  λ st, match body st with
        | (Ret a, st') => (Ret a, st')
        | (Raise e, st') => dispatch hs e st'
        end.

Definition record (a : action) : R unit :=
  λ st, (Ret tt, State (cwd st) (log st ++ [a])).

(** [os.getcwd()]; the directory the runner is in is taken to exist, so
    the call returns and [original_dir] is bound when an [except] clause
    of [run_plotting_module] uses it. *)
Definition os_getcwd : R string := λ st, (Ret (cwd st), st).

Definition is_absolute (p : string) : bool :=
  match p with
  | String c _ => bool_decide (c = "/"%char)
  | EmptyString => false
  end.

(** Where [os.chdir(dir)] leads from [cwd]. *)
Definition resolve (cwd dir : string) : string :=
  if is_absolute dir then dir else path_join cwd dir.

Definition os_chdir (os : OS) (dir : string) : R unit :=
  λ st, match chdir_outcome os (log st) dir with
        | Some e => (Raise e, st)
        | None => (Ret tt, State (resolve (cwd st) dir) (log st ++ [Chdir dir]))
        end.

Definition subprocess_run (os : OS) (script : string) (timeout : Z) : R Z :=
  λ st, (run_outcome os (log st) (cwd st) script,
         State (cwd st) (log st ++ [SubprocessRun (cwd st) script timeout])).

Definition time_sleep (seconds : Z) : R unit := record (Sleep seconds).

(** [os.path.basename]: what follows the last ['/']. *)
Definition basename (p : string) : string :=
  match last_slash p with
  | Some i => String.substring (S i) (String.length p - S i) p
  | None => p
  end.

Definition run_plotting_module (os : OS) (module_path module_name : string)
  : R bool :=
  record (Running module_name);;
  original_dir ← os_getcwd;
  try_except
    (let module_dir := dirname module_path in
     os_chdir os module_dir;;
     returncode ← subprocess_run os (basename module_path) 300;
     os_chdir os original_dir;;
     mret (bool_decide (returncode = 0%Z)))
    [ (TimeoutExpired, λ _, os_chdir os original_dir;; mret false);
      (Exception, λ _, os_chdir os original_dir;; mret false) ].

Definition modules : list (string * string) :=
  [ ("line_chart/code/line_chart.py", "Line Charts (折线图)");
    ("bar_chart/code/bar_chart.py", "Bar Charts (柱状图)");
    ("scatter_plot/code/scatter_plot.py", "Scatter Plots (散点图)");
    ("box_plot/code/box_plot.py", "Box Plots (箱线图)");
    ("histogram/code/histogram.py", "Histograms (直方图)");
    ("3d_plot/code/3d_plot.py", "3D Plots (三维图)") ].

(** The loop of [main]: [results] is the dict of outcomes by name. *)
Fixpoint run_each (os : OS) (ms : list (string * string))
    (results : gmap string bool) : R (gmap string bool) :=
  match ms with
  | [] => mret results
  | (module_path, module_name) :: ms' =>
      success ← run_plotting_module os module_path module_name;
      time_sleep 1;;
      run_each os ms' (<[module_name := success]> results)
  end.

(** [sum(results.values())] *)
Definition successes (results : gmap string bool) : nat :=
  length (filter (λ kv, kv.2 = true) (map_to_list results)).

Definition main (os : OS) : R bool :=
  results ← run_each os modules ∅;
  let successful := successes results in
  let failed := (length modules - successful)%nat in
  mret (bool_decide (failed = O)).

(** What one round of the loop of [main] leaves in the log when the
    module was launched from its directory [dir], started in [home]. *)
Definition launched_round (home module_path module_name : string) : list action :=
  [ Running module_name;
    Chdir (dirname module_path);
    SubprocessRun (resolve home (dirname module_path)) (basename module_path) 300;
    Chdir home;
    Sleep 1 ].

(** The same when the directory of the module could not be entered. *)
Definition refused_round (home module_name : string) : list action :=
  [ Running module_name; Chdir home; Sleep 1 ].

(** A round of the loop, as it shows in the log. *)
Definition round_of (home : string) (m : string * string) (r : list action) : Prop :=
  r = launched_round home m.1 m.2 ∨ r = refused_round home m.2.

(** The runs of [subprocess.run] in a log, and the modules announced. *)
Definition launches (l : list action) : list (string * string * Z) :=
  omap (λ a, match a with
             | SubprocessRun d s t => Some (d, s, t)
             | _ => None
             end) l.

Definition announced (l : list action) : list string :=
  omap (λ a, match a with Running n => Some n | _ => None end) l.

(** The round of the module [m] when the log so far is [l]: the script
    is launched when [os.chdir(module_dir)] succeeds at that point; the
    round is the short one only when that call raises. *)
Definition round_at (os : OS) (home : string) (m : string * string)
    (l : list action) : list action :=
  match chdir_outcome os (l ++ [Running m.2]) (dirname m.1) with
  | None => launched_round home m.1 m.2
  | Some _ => refused_round home m.2
  end.

(** The rounds of the modules [ms], one after the other, each appended
    to the log before the next one starts. *)
Fixpoint rounds_from (os : OS) (home : string) (ms : list (string * string))
    (l : list action) : list (list action) :=
  match ms with
  | [] => []
  | m :: ms' =>
      let r := round_at os home m l in
      r :: rounds_from os home ms' (l ++ r)
  end.

(** What [subprocess.run] is called with for the module [m]. *)
Definition launch_of (home : string) (m : string * string)
  : string * string * Z :=
  (resolve home (dirname m.1), basename m.1, 300%Z).

End Runner.

(** ** Sample worlds and data *)

Module Samples.

Import Charts.

Definition quiet (label : string) : option exn := None.

(** A machine on which no data file exists. *)
Definition no_files : World :=
  {| path_exists := λ _, false;
     read_csv := λ _, Raise (Exn FileNotFoundError (LibraryText "No such file or directory"));
     plotting := quiet;
     makedirs := quiet;
     savefig := quiet;
     script_dir := "" |}.

(** A machine on which every path holds the table [df], and the plotting
    calls answer as [plot] says. *)
Definition serving (df : DataFrame) (plot : string → option exn) : World :=
  {| path_exists := λ _, true;
     read_csv := λ _, Ret df;
     plotting := plot;
     makedirs := quiet;
     savefig := quiet;
     script_dir := "" |}.

(** A machine on which every path holds an empty file. *)
Definition empty_files : World :=
  {| path_exists := λ _, true;
     read_csv := λ _, Raise (Exn EmptyDataError (LibraryText "No columns to parse from file"));
     plotting := quiet;
     makedirs := quiet;
     savefig := quiet;
     script_dir := "" |}.

(** x = [1,2,3], y = [2,4,6] *)
Definition correlation_dataset : DataFrame :=
  [ ("x", Int64 [1; 2; 3]%Z); ("y", Int64 [2; 4; 6]%Z) ].

(** Scatter data whose columns hold text. *)
Definition text_dataset : DataFrame :=
  [ ("x", Object ["a"; "b"]); ("y", Object ["c"; "d"]) ].

(** The trend line cannot be fitted to text: [np.polyfit] raises. *)
Definition polyfit_fails (label : string) : option exn :=
  if decide (label = "basic_scatter:trend")
  then Some (Exn TypeError (LibraryText "can only concatenate str (not float) to str"))
  else None.

Definition bar_dataset : DataFrame :=
  [ ("category", Object ["A"; "B"]); ("value", Int64 [10; 20]%Z) ].

Definition histogram_dataset : DataFrame :=
  [ ("values", Float64 [Q2Qc (47 # 2); Q2Qc (251 # 10); Q2Qc (114 # 5)]) ].

(** A full 2 x 1 grid whose x coordinates are written as integers. *)
Definition integer_grid : DataFrame :=
  [ ("x", Int64 [0; 1]%Z); ("y", Int64 [0; 0]%Z);
    ("z", Float64 [Q2Qc (1 # 2); Q2Qc (3 # 2)]) ].

(** The same grid with the x coordinates written with a decimal point. *)
Definition float_grid : DataFrame :=
  [ ("x", Float64 [of_int 0; of_int 1]); ("y", Int64 [0; 0]%Z);
    ("z", Float64 [Q2Qc (1 # 2); Q2Qc (3 # 2)]) ].

(** Two points of a 2 x 2 grid: the cells (0,1) and (1,0) have no row. *)
Definition sparse_integer_grid : DataFrame :=
  [ ("x", Int64 [0; 1]%Z); ("y", Int64 [0; 1]%Z);
    ("z", Float64 [Q2Qc (1 # 2); of_int 1]) ].

Definition sparse_float_grid : DataFrame :=
  [ ("x", Float64 [of_int 0; of_int 1]); ("y", Int64 [0; 1]%Z);
    ("z", Float64 [Q2Qc (1 # 2); of_int 1]) ].

(** Two rows at the same point. *)
Definition repeated_integer_point : DataFrame :=
  [ ("x", Int64 [0; 0]%Z); ("y", Int64 [0; 0]%Z);
    ("z", Float64 [Q2Qc (5 # 2); Q2Qc (7 # 2)]) ].

Definition repeated_float_point : DataFrame :=
  [ ("x", Float64 [of_int 0; of_int 0]); ("y", Int64 [0; 0]%Z);
    ("z", Float64 [Q2Qc (5 # 2); Q2Qc (7 # 2)]) ].

(** An operating system on which the line chart script exits with
    status 1, the bar chart script runs into the timeout, the scatter
    plot script cannot be started, the directory of the box plot script
    is missing, and the other two scripts exit with status 0. *)
Definition flaky_os : Runner.OS :=
  {| Runner.chdir_outcome := λ _ dir,
       if decide (dir = "box_plot/code")
       then Some (Exn FileNotFoundError (LibraryText "No such file or directory"))
       else None;
     Runner.run_outcome := λ _ _ script,
       if decide (script = "line_chart.py") then Ret 1%Z
       else if decide (script = "bar_chart.py")
       then Raise (Exn TimeoutExpired (LibraryText "timed out after 300 seconds"))
       else if decide (script = "scatter_plot.py")
       then Raise (Exn PermissionError (LibraryText "Permission denied"))
       else Ret 0%Z |}.

Definition repository : Runner.state := Runner.State "/repo" [].

End Samples.

(** ** The chart functions with their columns and image files *)

Module Catalog.

Import Charts.

(** A chart function with the columns it requires and the image file it
    saves. *)
Record entry := Entry {
  chart_of : chart;
  required : list string;
  png : World → string
}.

Definition loader_entries : list entry :=
  [ Entry chart_basic_line_chart ["time"; "amplitude"]
      (λ _, "../plot/basic_line_chart.png");
    Entry chart_multiple_line_chart ["time"; "series_a"; "series_b"; "series_c"]
      (λ _, "../plot/multiple_line_chart.png");
    Entry chart_line_chart_with_ci ["time"; "mean"; "lower_ci"; "upper_ci"]
      (λ _, "../plot/line_chart_with_ci.png");
    Entry chart_basic_bar_chart ["category"; "value"]
      (λ _, "../plot/basic_bar_chart.png");
    Entry chart_grouped_bar_chart ["category"; "group_a"; "group_b"; "group_c"]
      (λ _, "../plot/grouped_bar_chart.png");
    Entry chart_stacked_bar_chart ["category"; "part_a"; "part_b"; "part_c"]
      (λ _, "../plot/stacked_bar_chart.png");
    Entry chart_horizontal_bar_chart ["item"; "score"]
      (λ _, "../plot/horizontal_bar_chart.png");
    Entry chart_basic_scatter_plot ["x"; "y"]
      (λ _, "../plot/basic_scatter_plot.png");
    Entry chart_colored_scatter_plot ["x"; "y"; "color_value"]
      (λ _, "../plot/colored_scatter_plot.png");
    Entry chart_sized_scatter_plot ["x"; "y"; "size_value"]
      (λ _, "../plot/sized_scatter_plot.png");
    Entry chart_categorical_scatter_plot ["x"; "y"; "category"]
      (λ _, "../plot/categorical_scatter_plot.png");
    Entry chart_correlation_matrix_scatter ["var1"; "var2"; "var3"; "var4"]
      (λ _, "../plot/correlation_matrix_scatter.png") ].

Definition inline_entries : list entry :=
  [ Entry chart_basic_box_plot ["group"; "value"]
      (λ w, plot_path w "basic_box_plot.png");
    Entry chart_violin_plot ["category"; "measurement"]
      (λ w, plot_path w "violin_plot.png");
    Entry chart_grouped_box_plot ["time_point"; "condition"; "response"]
      (λ w, plot_path w "grouped_box_plot.png");
    Entry chart_notched_box_plot ["method"; "performance"]
      (λ w, plot_path w "notched_box_plot.png");
    Entry chart_horizontal_box_plot ["algorithm"; "execution_time"]
      (λ w, plot_path w "horizontal_box_plot.png");
    Entry chart_basic_histogram ["values"]
      (λ w, plot_path w "basic_histogram.png");
    Entry chart_basic_histogram_in_histogram_py ["values"]
      (λ w, plot_path w "basic_histogram.png");
    Entry chart_multiple_histograms ["group_a"; "group_b"; "group_c"]
      (λ w, plot_path w "multiple_histograms.png");
    Entry chart_stacked_histogram ["value"; "category"]
      (λ w, plot_path w "stacked_histogram.png");
    Entry chart_2d_histogram ["x"; "y"]
      (λ w, plot_path w "2d_histogram.png");
    Entry chart_distribution_comparison ["observed"; "theoretical"]
      (λ w, plot_path w "distribution_comparison.png");
    Entry chart_3d_surface_plot ["x"; "y"; "z"]
      (λ w, plot_path w "3d_surface_plot.png");
    Entry chart_3d_scatter_plot ["x"; "y"; "z"; "group"]
      (λ w, plot_path w "3d_scatter_plot.png");
    Entry chart_3d_wireframe_plot ["x"; "y"; "z"]
      (λ w, plot_path w "3d_wireframe_plot.png");
    Entry chart_3d_bar_plot ["x_pos"; "y_pos"; "height"]
      (λ w, plot_path w "3d_bar_plot.png");
    Entry chart_3d_contour_plot ["x"; "y"; "z"]
      (λ w, plot_path w "3d_contour_plot.png");
    Entry chart_parametric_3d_plot ["t"; "x"; "y"; "z"; "curve_type"]
      (λ w, plot_path w "parametric_3d_plot.png") ].

Definition catalog : list entry := loader_entries ++ inline_entries.

(** What both kinds of chart function do with a loaded table: the
    plotting calls, [save_plot], [plt.close()]. *)
Definition render_and_save (body : World → DataFrame → M unit)
    (png_path : string) (w : World) (df : DataFrame) : M unit :=
  body w df;; save_plot w png_path;; plt_close w.

(** A body that writes no image file itself. *)
Definition saves_nothing (body : World → DataFrame → M unit) : Prop :=
  ∀ w df, saved (trace (body w df)) = [].

(** The chart functions whose plotting is a fixed list of library
    calls: all but the basic scatter plot, which computes with the
    columns itself, and the basic histogram of
    [histogram/code/basic_histogram.py]. *)
Definition drawn_entries : list entry :=
  [ Entry chart_basic_line_chart ["time"; "amplitude"]
      (λ _, "../plot/basic_line_chart.png");
    Entry chart_multiple_line_chart ["time"; "series_a"; "series_b"; "series_c"]
      (λ _, "../plot/multiple_line_chart.png");
    Entry chart_line_chart_with_ci ["time"; "mean"; "lower_ci"; "upper_ci"]
      (λ _, "../plot/line_chart_with_ci.png");
    Entry chart_basic_bar_chart ["category"; "value"]
      (λ _, "../plot/basic_bar_chart.png");
    Entry chart_grouped_bar_chart ["category"; "group_a"; "group_b"; "group_c"]
      (λ _, "../plot/grouped_bar_chart.png");
    Entry chart_stacked_bar_chart ["category"; "part_a"; "part_b"; "part_c"]
      (λ _, "../plot/stacked_bar_chart.png");
    Entry chart_horizontal_bar_chart ["item"; "score"]
      (λ _, "../plot/horizontal_bar_chart.png");
    Entry chart_colored_scatter_plot ["x"; "y"; "color_value"]
      (λ _, "../plot/colored_scatter_plot.png");
    Entry chart_sized_scatter_plot ["x"; "y"; "size_value"]
      (λ _, "../plot/sized_scatter_plot.png");
    Entry chart_categorical_scatter_plot ["x"; "y"; "category"]
      (λ _, "../plot/categorical_scatter_plot.png");
    Entry chart_correlation_matrix_scatter ["var1"; "var2"; "var3"; "var4"]
      (λ _, "../plot/correlation_matrix_scatter.png");
    Entry chart_basic_box_plot ["group"; "value"]
      (λ w, plot_path w "basic_box_plot.png");
    Entry chart_violin_plot ["category"; "measurement"]
      (λ w, plot_path w "violin_plot.png");
    Entry chart_grouped_box_plot ["time_point"; "condition"; "response"]
      (λ w, plot_path w "grouped_box_plot.png");
    Entry chart_notched_box_plot ["method"; "performance"]
      (λ w, plot_path w "notched_box_plot.png");
    Entry chart_horizontal_box_plot ["algorithm"; "execution_time"]
      (λ w, plot_path w "horizontal_box_plot.png");
    Entry chart_basic_histogram_in_histogram_py ["values"]
      (λ w, plot_path w "basic_histogram.png");
    Entry chart_multiple_histograms ["group_a"; "group_b"; "group_c"]
      (λ w, plot_path w "multiple_histograms.png");
    Entry chart_stacked_histogram ["value"; "category"]
      (λ w, plot_path w "stacked_histogram.png");
    Entry chart_2d_histogram ["x"; "y"]
      (λ w, plot_path w "2d_histogram.png");
    Entry chart_distribution_comparison ["observed"; "theoretical"]
      (λ w, plot_path w "distribution_comparison.png");
    Entry chart_3d_surface_plot ["x"; "y"; "z"]
      (λ w, plot_path w "3d_surface_plot.png");
    Entry chart_3d_scatter_plot ["x"; "y"; "z"; "group"]
      (λ w, plot_path w "3d_scatter_plot.png");
    Entry chart_3d_wireframe_plot ["x"; "y"; "z"]
      (λ w, plot_path w "3d_wireframe_plot.png");
    Entry chart_3d_bar_plot ["x_pos"; "y_pos"; "height"]
      (λ w, plot_path w "3d_bar_plot.png");
    Entry chart_3d_contour_plot ["x"; "y"; "z"]
      (λ w, plot_path w "3d_contour_plot.png");
    Entry chart_parametric_3d_plot ["t"; "x"; "y"; "z"; "curve_type"]
      (λ w, plot_path w "parametric_3d_plot.png") ].

(** A world in which the plotting library and the file system do what
    they are asked. *)
Definition cooperative (w : World) : Prop :=
  (∀ label, plotting w label = None)
  ∧ (∀ dir, makedirs w dir = None)
  ∧ (∀ filename, savefig w filename = None).

(** Whether a run of a chart function returned [True]. *)
Definition returned_true (m : M bool) : bool :=
  match res m with
  | Ret true => true
  | _ => false
  end.

(** The three chart functions that rebuild a grid. *)
Definition gridded_entries : list entry :=
  [ Entry chart_3d_surface_plot ["x"; "y"; "z"]
      (λ w, plot_path w "3d_surface_plot.png");
    Entry chart_3d_wireframe_plot ["x"; "y"; "z"]
      (λ w, plot_path w "3d_wireframe_plot.png");
    Entry chart_3d_contour_plot ["x"; "y"; "z"]
      (λ w, plot_path w "3d_contour_plot.png") ].

(** The plotting calls inside the inner [try] blocks of these three
    functions: the calls that draw the grid, and the colour bar of the
    surface plot. *)
Definition guarded_calls : list string :=
  [ "3d_surface:grid"; "3d_wireframe:grid"; "3d_contour:grid";
    "3d_surface:colorbar" ].

(** A world that cooperates except, possibly, in the guarded calls. *)
Definition cooperative_outside (labels : list string) (w : World) : Prop :=
  (∀ label, label ∉ labels → plotting w label = None)
  ∧ (∀ dir, makedirs w dir = None)
  ∧ (∀ filename, savefig w filename = None).

(** A chart function that returns, whatever it returns, in the world
    [w]. *)
Definition returns (w : World) (f : World → M bool) : Prop :=
  ∃ b, res (f w) = Ret b.

(** The scripts whose [main] returns whether every plot was made. *)
Definition reporting_scripts : list script :=
  [ box_plot_py; histogram_py; plot_3d_py ].

(** The scripts whose [main] only counts. *)
Definition counting_scripts : list script :=
  [ line_chart_py; bar_chart_py; scatter_plot_py ].

End Catalog.

(** ** The runner over the chart scripts *)

Module Pipeline.

Import Charts Runner.

(** The family script a file name of the runner's list stands for. *)
Definition family_of (script : string) : option Charts.script :=
  if decide (script = "line_chart.py") then Some line_chart_py
  else if decide (script = "bar_chart.py") then Some bar_chart_py
  else if decide (script = "scatter_plot.py") then Some scatter_plot_py
  else if decide (script = "box_plot.py") then Some box_plot_py
  else if decide (script = "histogram.py") then Some histogram_py
  else if decide (script = "3d_plot.py") then Some plot_3d_py
  else None.

(** An operating system on which every directory can be entered and
    [subprocess.run] runs the chart script of that name to its end within
    the timeout: it returns the exit status of the script in the world
    [worlds cwd] seen from the directory it is started in.  The
    interpreter ends with status 2 when the file is not a script of the
    repository. *)
Definition os_of (worlds : string → World) : OS :=
  {| chdir_outcome := λ _ _, None;
     run_outcome := λ _ cwd script,
       match family_of script with
       | Some s => Ret (run s (worlds cwd)).1
       | None => Ret 2%Z
       end |}.

(** Whether one call of [run_plotting_module], made with the log [l],
    returns [True]: the directory is entered and the script exits with
    status 0. *)
Definition module_ok (os : OS) (home module_path module_name : string)
    (l : list action) : bool :=
  match chdir_outcome os (l ++ [Running module_name]) (dirname module_path) with
  | Some _ => false
  | None =>
      match run_outcome os
              (l ++ [Running module_name; Chdir (dirname module_path)])
              (resolve home (dirname module_path)) (basename module_path) with
      | Ret returncode => bool_decide (returncode = 0%Z)
      | Raise _ => false
      end
  end.

(** [result.returncode == 0], and [False] from the [except] clauses when
    [subprocess.run] raised. *)
Definition returned_zero (r : result Z) : bool :=
  match r with
  | Ret returncode => bool_decide (returncode = 0%Z)
  | Raise _ => false
  end.

(** The directories of the runner's list with the scripts in them. *)
Definition counting_modules : list (string * Charts.script) :=
  [ ("line_chart/code", line_chart_py);
    ("bar_chart/code", bar_chart_py);
    ("scatter_plot/code", scatter_plot_py) ].

Definition reporting_modules : list (string * Charts.script) :=
  [ ("box_plot/code", box_plot_py);
    ("histogram/code", histogram_py);
    ("3d_plot/code", plot_3d_py) ].

Definition module_scripts : list (string * Charts.script) :=
  counting_modules ++ reporting_modules.

End Pipeline.

(** ** More sample worlds *)

Module MoreSamples.

Import Samples.

(** A machine on which the data files exist but may not be read. *)
Definition unreadable_files : World :=
  {| path_exists := λ _, true;
     read_csv := λ _, Raise (Exn PermissionError (LibraryText "Permission denied"));
     plotting := quiet;
     makedirs := quiet;
     savefig := quiet;
     script_dir := "" |}.

(** A machine on which the surface cannot be drawn and the colour bar
    fails, while everything else works. *)
Definition no_surface (label : string) : option exn :=
  if decide (label = "3d_surface:grid")
  then Some (Exn ValueError (LibraryText "Argument Z must be 2-dimensional."))
  else if decide (label = "3d_surface:colorbar")
  then Some (Exn RuntimeError (LibraryText "No mappable was found"))
  else None.

(** The bars cannot be drawn: [ax.bar] raises a [ValueError]. *)
Definition bars_fail (label : string) : option exn :=
  if decide (label = "basic_bar_chart")
  then Some (Exn ValueError (LibraryText "shape mismatch: objects cannot be broadcast to a single shape"))
  else None.

(** An operating system on which every directory can be entered and
    every script but [histogram.py] exits with status 0. *)
Definition histogram_fails (cwd script : string) : result Z :=
  if decide (script = "histogram.py") then Ret 1%Z else Ret 0%Z.

Definition steady_os : Runner.OS :=
  {| Runner.chdir_outcome := λ _ _, None;
     Runner.run_outcome := λ _, histogram_fails |}.

(** An operating system on which the directory the runner was started in
    has been removed: the scripts run, but there is no way back. *)
Definition homeless_os : Runner.OS :=
  {| Runner.chdir_outcome := λ _ dir,
       if decide (dir = "/repo")
       then Some (Exn FileNotFoundError (LibraryText "No such file or directory"))
       else None;
     Runner.run_outcome := λ _ _ _, Ret 0%Z |}.

End MoreSamples.

(** * Properties *)

(** ** Exceptions and the effect monad *)

Section Runtime.

Lemma isinstance_Exception (e : exn) : isinstance e Exception = true.
Proof. destruct e as [[] ?]; reflexivity. Qed.

Lemma isinstance_EmptyData_ValueError (e : exn) :
  isinstance e EmptyDataError = true → isinstance e ValueError = true.
Proof. destruct e as [[] ?]; cbn; done. Qed.

Lemma res_bind {A B} (m : M A) (k : A → M B) :
  res (m ≫= k) = match res m with
                 | Ret a => res (k a)
                 | Raise e => Raise e
                 end.
Proof. unfold mbind, M_bind, bind. destruct (res m); reflexivity. Qed.

Lemma trace_bind {A B} (m : M A) (k : A → M B) :
  trace (m ≫= k) = match res m with
                   | Ret a => trace m ++ trace (k a)
                   | Raise e => trace m
                   end.
Proof. unfold mbind, M_bind, bind. destruct (res m); reflexivity. Qed.

Lemma M_eta {A} (m : M A) : m = Run (res m) (trace m).
Proof. destruct m; reflexivity. Qed.

Lemma saved_app (t1 t2 : list event) : saved (t1 ++ t2) = saved t1 ++ saved t2.
Proof. unfold saved. apply omap_app. Qed.

End Runtime.

(** ** check_and_load_csv *)

Section CsvValidator.

Variable w : World.
Variables (csv_path data_description : string) (required_columns : list string).

Let load := check_and_load_csv w csv_path required_columns data_description.

Lemma load_missing_file :
  path_exists w csv_path = false →
  load = raise (Exn FileNotFoundError (DataFileMissing csv_path)).
Proof. intros H. unfold load, check_and_load_csv. rewrite H. reflexivity. Qed.

Lemma load_table (df : DataFrame) :
  path_exists w csv_path = true →
  read_csv w csv_path = Ret df →
  load =
    let missing := filter (λ col, col ∉ columns df) required_columns in
    if bool_decide (missing ≠ [])
    then raise (Exn ValueError (CsvColumnsMissing missing))
    else mret df.
Proof.
  intros He Hr. unfold load, check_and_load_csv. rewrite He. cbn.
  unfold try_except, lift. rewrite Hr. cbn.
  case_bool_decide; reflexivity.
Qed.

Lemma load_read_error (e : exn) :
  path_exists w csv_path = true →
  read_csv w csv_path = Raise e →
  load =
    if isinstance e EmptyDataError
    then raise (Exn ValueError (CsvEmpty csv_path))
    else raise e.
Proof.
  intros He Hr. unfold load, check_and_load_csv. rewrite He. cbn.
  unfold try_except, lift. rewrite Hr. cbn.
  destruct (isinstance e EmptyDataError); cbn; [reflexivity|].
  rewrite isinstance_Exception. reflexivity.
Qed.

(** The loader writes nothing. *)
Lemma load_trace : trace load = [].
Proof.
  unfold load, check_and_load_csv.
  destruct (path_exists w csv_path); cbn; [|reflexivity].
  unfold try_except, lift. destruct (read_csv w csv_path) as [df|e]; cbn.
  - case_bool_decide; reflexivity.
  - destruct (isinstance e EmptyDataError); cbn; [reflexivity|].
    rewrite isinstance_Exception. reflexivity.
Qed.

End CsvValidator.

(** C3. The contract of [check_and_load_csv]: a path that does not exist
    gives [FileNotFoundError]; a loaded table that lacks required columns
    gives a [ValueError] whose text lists exactly the required columns
    the table does not have; a loaded table with every required column
    is returned as it was read. *)
Theorem check_and_load_csv_contract (w : World) (csv_path : string)
    (required_columns : list string) (data_description : string) :
  let load := check_and_load_csv w csv_path required_columns data_description in
  (path_exists w csv_path = false →
   load = raise (Exn FileNotFoundError (DataFileMissing csv_path)))
  ∧ (∀ df : DataFrame,
       path_exists w csv_path = true →
       read_csv w csv_path = Ret df →
       ∃ missing : list string,
         (∀ col, col ∈ missing ↔ col ∈ required_columns ∧ col ∉ columns df)
         ∧ (missing ≠ [] →
            load = raise (Exn ValueError (CsvColumnsMissing missing)))
         ∧ (missing = [] → load = mret df)).
Proof.
  intros load. split.
  - apply load_missing_file.
  - intros df He Hr.
    exists (filter (λ col, col ∉ columns df) required_columns).
    split; [|split].
    + intros col. rewrite list_elem_of_filter. tauto.
    + intros Hm. unfold load. rewrite (load_table _ _ _ _ df He Hr). cbn.
      rewrite bool_decide_eq_true_2 by done. reflexivity.
    + intros Hm. unfold load. rewrite (load_table _ _ _ _ df He Hr). cbn.
      rewrite bool_decide_eq_false_2; [reflexivity|]. intros Hne. done.
Qed.

(** ** The grid reconstructor *)

Section GridFacts.

(** *** Stores into a matrix *)

Lemma setitem_in_range (nr nc : nat) (m : matrix) (j i : nat) (v : Qc) :
  shaped nr nc m → (j < nr)%nat → (i < nc)%nat →
  ∃ m', setitem m j i v = Ret m'
        ∧ shaped nr nc m'
        ∧ mdtype m' = mdtype m
        ∧ ∀ j' i', getitem2 m' j' i' =
                   if decide (j' = j ∧ i' = i) then Some (cast (mdtype m) v)
                   else getitem2 m j' i'.
Proof.
  intros [Hr Hc] Hj Hi. unfold setitem.
  destruct (rows m !! j) as [r|] eqn:Hrow.
  2:{ apply lookup_ge_None in Hrow. lia. }
  pose proof (Hc _ _ Hrow) as Hlen.
  destruct (decide (i < length r)%nat) as [_|]; [|lia].
  eexists. split; [reflexivity|]. split; [|split; [reflexivity|]].
  - split; cbn.
    + by rewrite length_insert.
    + intros j' r' Hl. destruct (decide (j = j')) as [<-|Hne].
      * rewrite list_lookup_insert_eq in Hl by lia.
        injection Hl as <-. by rewrite length_insert.
      * rewrite list_lookup_insert_ne in Hl by done. eauto.
  - intros j' i'. unfold getitem2. cbn.
    destruct (decide (j' = j)) as [->|Hne].
    + rewrite list_lookup_insert_eq by lia. cbn. rewrite Hrow. cbn.
      destruct (decide (i' = i)) as [->|Hni].
      * rewrite list_lookup_insert_eq by lia.
        rewrite decide_True by done. reflexivity.
      * rewrite list_lookup_insert_ne by done.
        rewrite decide_False by tauto. reflexivity.
    + rewrite list_lookup_insert_ne by done.
      rewrite decide_False by tauto. reflexivity.
Qed.


(** *** The value of one cell *)

Lemma any_mask_false (xs ys : list Qc) (xi yi : Qc) :
  (∀ k, ¬ (xs !! k = Some xi ∧ ys !! k = Some yi)) →
  any (mask xs ys xi yi) = false.
Proof.
  revert ys. induction xs as [|x xs IH]; intros ys Hno; [reflexivity|].
  destruct ys as [|y ys]; [reflexivity|]. cbn.
  rewrite orb_false_iff. split.
  - apply andb_false_iff.
    destruct (decide (x = xi)) as [->|]; [|left; by apply bool_decide_eq_false_2].
    destruct (decide (y = yi)) as [->|]; [|right; by apply bool_decide_eq_false_2].
    destruct (Hno O). by split.
  - apply IH. intros k. apply (Hno (S k)).
Qed.

Lemma loc_first_row (xs ys zs : list Qc) (xi yi zk : Qc) (k : nat) :
  xs !! k = Some xi → ys !! k = Some yi → zs !! k = Some zk →
  (∀ k', (k' < k)%nat → ¬ (xs !! k' = Some xi ∧ ys !! k' = Some yi)) →
  any (mask xs ys xi yi) = true
  ∧ iloc0 (loc (mask xs ys xi yi) zs) = Ret zk.
Proof.
  revert xs ys zs. induction k as [|k IH]; intros xs ys zs Hx Hy Hz Hfirst.
  - destruct xs as [|x xs], ys as [|y ys], zs as [|z zs]; try discriminate.
    cbn in Hx, Hy, Hz. injection Hx as ->. injection Hy as ->. injection Hz as ->.
    cbn. rewrite !bool_decide_eq_true_2 by done. by split.
  - destruct xs as [|x xs], ys as [|y ys], zs as [|z zs]; try discriminate.
    cbn in Hx, Hy, Hz.
    destruct (IH xs ys zs Hx Hy Hz) as [Hany Hloc].
    { intros k' Hk'. apply (Hfirst (S k')). lia. }
    cbn. destruct (bool_decide (x = xi) && bool_decide (y = yi)) eqn:Hb.
    + apply andb_true_iff in Hb as [Hb1 Hb2].
      apply bool_decide_eq_true_1 in Hb1, Hb2. subst.
      destruct (Hfirst O); [lia|]. by split.
    + cbn. by split.
Qed.

Lemma loc_of_any (m : list bool) (zs : list Qc) :
  any m = true → (length m ≤ length zs)%nat →
  ∃ v, iloc0 (loc m zs) = Ret v.
Proof.
  revert zs. induction m as [|b m IH]; intros zs Hany Hlen; [discriminate|].
  destruct zs as [|z zs]; [cbn in Hlen; lia|].
  cbn in *. destruct b; cbn; [eauto|].
  apply IH; [done|lia].
Qed.

Lemma cell_returns (xs ys zs : list Qc) (xi yi : Qc) :
  length xs = length ys → length ys = length zs →
  ∃ v, cell xs ys zs xi yi = Ret v.
Proof.
  intros Hxy Hyz. unfold cell.
  destruct (any (mask xs ys xi yi)) eqn:Hany; [|eauto].
  apply loc_of_any; [done|].
  unfold mask. rewrite length_zip_with. lia.
Qed.

Lemma cell_first_row (xs ys zs : list Qc) (xi yi zk : Qc) (k : nat) :
  xs !! k = Some xi → ys !! k = Some yi → zs !! k = Some zk →
  (∀ k', (k' < k)%nat → ¬ (xs !! k' = Some xi ∧ ys !! k' = Some yi)) →
  cell xs ys zs xi yi = Ret zk.
Proof.
  intros Hx Hy Hz Hfirst. unfold cell.
  destruct (loc_first_row xs ys zs xi yi zk k Hx Hy Hz Hfirst) as [-> ->].
  reflexivity.
Qed.

Lemma cell_no_row (xs ys zs : list Qc) (xi yi : Qc) :
  (∀ k, ¬ (xs !! k = Some xi ∧ ys !! k = Some yi)) →
  cell xs ys zs xi yi = Ret (mean zs).
Proof.
  intros Hno. unfold cell. by rewrite any_mask_false.
Qed.


(** *** The two loops *)

Section Loops.

Variables xs ys zs : list Qc.
Hypothesis Hxy : length xs = length ys.
Hypothesis Hyz : length ys = length zs.
Variable d : dtype.
Variable nc : nat.

Let store (i : nat) (xi : Qc) (j : nat) (yi : Qc) (Z : matrix) : result matrix :=
  match cell xs ys zs xi yi with
  | Ret v => setitem Z j i v
  | Raise e => Raise e
  end.

Lemma inner_loop (i : nat) (xi : Qc) (l : list Qc) :
  (i < nc)%nat →
  ∀ (k0 : nat) (Z : matrix),
    shaped (k0 + length l) nc Z → mdtype Z = d →
    ∃ Z', for_enumerate (store i xi) k0 l Z = Ret Z'
          ∧ shaped (k0 + length l) nc Z'
          ∧ mdtype Z' = d
          ∧ ∀ j' i', getitem2 Z' j' i' =
              match (if decide (i' = i ∧ k0 ≤ j')%nat
                     then l !! (j' - k0)%nat else None) with
              | Some yi => stored d (cell xs ys zs xi yi)
              | None => getitem2 Z j' i'
              end.
Proof.
  intros Hi. induction l as [|a l IH]; intros k0 Z Hs Hd.
  - exists Z. cbn. split; [done|]. split; [done|]. split; [done|].
    intros j' i'. by destruct (decide _).
  - cbn [for_enumerate]. unfold store at 1.
    destruct (cell_returns xs ys zs xi a Hxy Hyz) as [v Hv]. rewrite Hv.
    cbn [length] in Hs.
    destruct (setitem_in_range _ _ Z k0 i v Hs) as (Z1 & -> & Hs1 & Hd1 & Hg1);
      [lia|done|].
    destruct (IH (S k0) Z1) as (Z' & HZ' & Hs' & Hd' & Hg').
    { by replace (S k0 + length l)%nat with (k0 + S (length l))%nat by lia. }
    { congruence. }
    exists Z'. split; [exact HZ'|]. split.
    { cbn [length]. by replace (k0 + S (length l))%nat with (S k0 + length l)%nat by lia. }
    split; [done|].
    intros j' i'. rewrite Hg', Hg1, Hd.
    destruct (decide (i' = i)) as [->|Hni].
    + destruct (decide (j' = k0)) as [->|Hnj].
      * rewrite (decide_False (P := (i = i ∧ S k0 ≤ k0)%nat)) by lia.
        rewrite decide_True by done.
        rewrite decide_True by (split; [done|lia]).
        replace (k0 - k0)%nat with O by lia. cbn. by rewrite Hv.
      * destruct (decide (k0 ≤ j')%nat) as [Hle|Hgt].
        -- rewrite (decide_True (P := (i = i ∧ S k0 ≤ j')%nat)) by lia.
           rewrite (decide_True (P := (i = i ∧ k0 ≤ j')%nat)) by lia.
           replace (j' - k0)%nat with (S (j' - S k0)) by lia. cbn.
           destruct (l !! (j' - S k0)%nat); [done|].
           by rewrite decide_False by tauto.
        -- rewrite (decide_False (P := (i = i ∧ S k0 ≤ j')%nat)) by lia.
           rewrite (decide_False (P := (i = i ∧ k0 ≤ j')%nat)) by lia.
           by rewrite decide_False by tauto.
    + rewrite (decide_False (P := (i' = i ∧ S k0 ≤ j')%nat)) by tauto.
      rewrite (decide_False (P := (i' = i ∧ k0 ≤ j')%nat)) by tauto.
      by rewrite decide_False by tauto.
Qed.

Lemma outer_loop (yu : list Qc) (l : list Qc) :
  ∀ (i0 : nat) (Z : matrix),
    (i0 + length l ≤ nc)%nat →
    shaped (length yu) nc Z → mdtype Z = d →
    ∃ Z', for_enumerate (λ i xi Z, for_enumerate (store i xi) 0 yu Z) i0 l Z
          = Ret Z'
          ∧ shaped (length yu) nc Z'
          ∧ mdtype Z' = d
          ∧ ∀ j' i', getitem2 Z' j' i' =
              match (if decide (i0 ≤ i')%nat then l !! (i' - i0)%nat else None),
                    yu !! j' with
              | Some xi, Some yi => stored d (cell xs ys zs xi yi)
              | _, _ => getitem2 Z j' i'
              end.
Proof.
  induction l as [|a l IH]; intros i0 Z Hle Hs Hd.
  - exists Z. cbn. split; [done|]. split; [done|]. split; [done|].
    intros j' i'. by destruct (decide _).
  - cbn [for_enumerate]. cbn [length] in Hle.
    destruct (inner_loop i0 a yu) with (k0 := O) (Z := Z)
      as (Z1 & -> & Hs1 & Hd1 & Hg1); [lia|done|done|].
    destruct (IH (S i0) Z1) as (Z' & HZ' & Hs' & Hd' & Hg'); [lia|done|done|].
    exists Z'. split; [exact HZ'|]. split; [done|]. split; [done|].
    intros j' i'. rewrite Hg', Hg1.
    replace (j' - 0)%nat with j' by lia.
    destruct (decide (i' = i0)) as [->|Hni].
    + rewrite (decide_False (P := (S i0 ≤ i0)%nat)) by lia.
      rewrite (decide_True (P := (i0 = i0 ∧ 0 ≤ j')%nat)) by lia.
      rewrite (decide_True (P := (i0 ≤ i0)%nat)) by lia.
      replace (i0 - i0)%nat with O by lia. cbn.
      by destruct (yu !! j').
    + rewrite (decide_False (P := (i' = i0 ∧ 0 ≤ j')%nat)) by tauto.
      destruct (decide (i0 ≤ i')%nat) as [Hl|Hg].
      * rewrite (decide_True (P := (S i0 ≤ i')%nat)) by lia.
        replace (i' - i0)%nat with (S (i' - S i0)) by lia. done.
      * rewrite (decide_False (P := (S i0 ≤ i')%nat)) by lia. done.
Qed.

End Loops.

(** *** The reconstructed grid, cell by cell *)

Lemma zeros_like_shaped (X : matrix) (nr nc : nat) :
  shaped nr nc X → shaped nr nc (zeros_like X).
Proof.
  intros [Hr Hc]. split; cbn.
  - by rewrite length_fmap.
  - intros j r Hl. rewrite list_lookup_fmap in Hl.
    destruct (rows X !! j) as [r0|] eqn:E; [|discriminate].
    cbn in Hl. injection Hl as <-. rewrite length_fmap. eauto.
Qed.

(** The loop never raises, and each cell of the grid holds what the
    loop body computes for its coordinates, converted to the dtype of
    the grid, which is the dtype of the x column. *)
Theorem reconstruct_cells (x y z : ndarray) :
  length (items x) = length (items y) →
  length (items y) = length (items z) →
  ∃ X Y Z,
    reconstruct x y z = Ret (X, Y, Z)
    ∧ mdtype Z = dtype_of x
    ∧ ∀ i j xi yi,
        items (unique x) !! i = Some xi →
        items (unique y) !! j = Some yi →
        getitem2 Z j i
        = stored (dtype_of x) (cell (items x) (items y) (items z) xi yi).
Proof.
  intros Hxy Hyz. unfold reconstruct, meshgrid. cbv beta iota zeta.
  set (xu := items (unique x)). set (yu := items (unique y)).
  set (X := Matrix (dtype_of (unique x)) (replicate (length yu) xu)).
  assert (shaped (length yu) (length xu) X) as HX.
  { split; cbn.
    - by rewrite length_replicate.
    - intros j r Hl. apply lookup_replicate in Hl as [-> _]. done. }
  destruct (outer_loop (items x) (items y) (items z) Hxy Hyz
              (dtype_of x) (length xu) yu xu O (zeros_like X))
    as (Z & HZ & Hs & Hd & Hg).
  { lia. }
  { by apply zeros_like_shaped. }
  { reflexivity. }
  rewrite HZ. eexists _, _, Z. split; [reflexivity|]. split; [exact Hd|].
  intros i j xi yi Hi Hj. rewrite Hg.
  rewrite decide_True by lia. replace (i - 0)%nat with i by lia.
  fold xu in Hi. fold yu in Hj. by rewrite Hi, Hj.
Qed.


Lemma unique_NoDup (a : ndarray) : NoDup (items (unique a)).
Proof.
  unfold unique. cbn. rewrite merge_sort_Permutation.
  apply NoDup_remove_dups.
Qed.

Lemma unique_sorted (a : ndarray) : Sorted Qcle (items (unique a)).
Proof. unfold unique. cbn. apply (Sorted_merge_sort Qcle). Qed.

Section Cells.

Variables x y z : ndarray.
Hypothesis Hxy : length (items x) = length (items y).
Hypothesis Hyz : length (items y) = length (items z).
Variables (i j : nat) (xi yi : Qc).
Hypothesis Hi : items (unique x) !! i = Some xi.
Hypothesis Hj : items (unique y) !! j = Some yi.

(** With a row at the coordinates, the cell holds the z value of the
    first such row, converted to the dtype of the x column. *)
Lemma grid_first_row (k : nat) (zk : Qc) :
  items x !! k = Some xi → items y !! k = Some yi → items z !! k = Some zk →
  (∀ k', (k' < k)%nat → ¬ (items x !! k' = Some xi ∧ items y !! k' = Some yi)) →
  ∃ Z, grid x y z = Some Z
       ∧ getitem2 Z j i = Some (cast (dtype_of x) zk).
Proof.
  intros Hx Hy Hz Hfirst.
  destruct (reconstruct_cells x y z Hxy Hyz) as (X & Y & Z & HR & _ & Hg).
  exists Z. unfold grid. rewrite HR. split; [done|].
  rewrite (Hg i j xi yi Hi Hj).
  by rewrite (cell_first_row _ _ _ _ _ zk k Hx Hy Hz Hfirst).
Qed.

(** Without a row at the coordinates, the cell holds the mean of all z
    values, converted to the dtype of the x column. *)
Lemma grid_no_row :
  (∀ k, ¬ (items x !! k = Some xi ∧ items y !! k = Some yi)) →
  ∃ Z, grid x y z = Some Z
       ∧ getitem2 Z j i = Some (cast (dtype_of x) (mean (items z))).
Proof.
  intros Hno.
  destruct (reconstruct_cells x y z Hxy Hyz) as (X & Y & Z & HR & _ & Hg).
  exists Z. unfold grid. rewrite HR. split; [done|].
  rewrite (Hg i j xi yi Hi Hj). by rewrite (cell_no_row _ _ _ _ _ Hno).
Qed.

End Cells.

End GridFacts.

(** ** Tactics for the tables of charts and scripts *)

(** Goes through the members of one of the tables. *)
Ltac each_member H :=
  repeat (apply elem_of_cons in H as [->|H]);
  [.. | by apply elem_of_nil in H].

(** Finds an entry in a table that is written out. *)
Ltac in_list :=
  solve [ repeat first [ apply list_elem_of_here | apply list_elem_of_further ] ].

Ltac in_table :=
  unfold Charts.all_charts, Charts.loader_charts, Charts.inline_charts,
    Charts.chart_scripts, Charts.standalone_scripts, Charts.family_scripts;
  first
    [ in_list
    | apply elem_of_app; left; in_list
    | apply elem_of_app; right; in_list ].

(** ** The two shapes of chart function *)

Section ChartShapes.

Import Charts.

Variable w : World.

(** *** Charts that load through [check_and_load_csv] *)

Section Loader.

Variables (csv_path data_description png_path : string).
Variable required_columns : list string.
Variable body : World → DataFrame → M unit.

Let chart := loader_chart csv_path required_columns data_description body png_path.

Lemma loader_chart_load_raises (e : exn) :
  check_and_load_csv w csv_path required_columns data_description = raise e →
  chart w =
    if isinstance e FileNotFoundError then mret false
    else if isinstance e ValueError then mret false
    else raise e.
Proof.
  intros H. unfold chart, loader_chart. rewrite H. cbn.
  unfold try_except. cbn.
  destruct (isinstance e FileNotFoundError); [reflexivity|].
  destruct (isinstance e ValueError); reflexivity.
Qed.

Lemma loader_chart_missing_file :
  path_exists w csv_path = false → chart w = Run (Ret false) [].
Proof.
  intros H. rewrite (loader_chart_load_raises _ (load_missing_file _ _ _ _ H)).
  reflexivity.
Qed.

Lemma loader_chart_missing_columns (df : DataFrame) :
  path_exists w csv_path = true →
  read_csv w csv_path = Ret df →
  filter (λ col, col ∉ columns df) required_columns ≠ [] →
  chart w = Run (Ret false) [].
Proof.
  intros He Hr Hm.
  rewrite (loader_chart_load_raises
             (Exn ValueError (CsvColumnsMissing
                (filter (λ col, col ∉ columns df) required_columns)))).
  - reflexivity.
  - rewrite (load_table _ _ _ _ df He Hr). cbn.
    rewrite bool_decide_eq_true_2 by done. reflexivity.
Qed.

Lemma loader_chart_empty_file (e : exn) :
  path_exists w csv_path = true →
  read_csv w csv_path = Raise e →
  isinstance e EmptyDataError = true →
  chart w = Run (Ret false) [].
Proof.
  intros He Hr Hi.
  rewrite (loader_chart_load_raises (Exn ValueError (CsvEmpty csv_path))).
  - reflexivity.
  - rewrite (load_read_error _ _ _ _ e He Hr), Hi. reflexivity.
Qed.

(** What leaves the function is neither of the two classes its
    [except] clause names. *)
Lemma loader_chart_raises (e : exn) :
  res (chart w) = Raise e →
  isinstance e FileNotFoundError = false ∧ isinstance e ValueError = false.
Proof.
  unfold chart, loader_chart. rewrite res_bind.
  match goal with |- context [try_except ?m ?h] => set (tried := m) end.
  unfold try_except. destruct (res tried) as [r|e'] eqn:Ht.
  - rewrite Ht. destruct r; cbn; discriminate.
  - cbn. destruct (isinstance e' FileNotFoundError) eqn:H1; cbn; [discriminate|].
    destruct (isinstance e' ValueError) eqn:H2; cbn; [discriminate|].
    intros [= <-]. done.
Qed.

(** An exception of another class raised between loading and saving
    leaves the function. *)
Lemma loader_chart_body_raises (df : DataFrame) (e : exn) :
  path_exists w csv_path = true →
  read_csv w csv_path = Ret df →
  filter (λ col, col ∉ columns df) required_columns = [] →
  res (body w df) = Raise e →
  isinstance e FileNotFoundError = false →
  isinstance e ValueError = false →
  res (chart w) = Raise e.
Proof.
  intros He Hr Hm Hb H1 H2. unfold chart, loader_chart.
  rewrite (load_table _ _ _ _ df He Hr). cbn. rewrite Hm. cbn.
  rewrite res_bind. unfold try_except.
  unfold mbind, M_bind, bind. cbn. rewrite Hb. cbn.
  rewrite H1, H2. reflexivity.
Qed.

End Loader.

(** *** Charts that check the file themselves *)

Section Inline.

Variables (csv_file png_file : string).
Variable required_columns : list string.
Variable body : World → DataFrame → M unit.

Let chart := inline_chart csv_file required_columns body png_file.

Lemma inline_chart_missing_file :
  path_exists w (data_path w csv_file) = false → chart w = Run (Ret false) [].
Proof.
  intros H. unfold chart, inline_chart. rewrite H. reflexivity.
Qed.

(** The catch-all clause leaves nothing to propagate. *)
Lemma inline_chart_total : ∃ b, res (chart w) = Ret b.
Proof.
  unfold chart, inline_chart.
  match goal with |- context [try_except ?m ?h] => set (tried := m) end.
  unfold try_except. destruct (res tried) as [r|e] eqn:Ht.
  - exists r. exact Ht.
  - cbn. destruct (isinstance e FileNotFoundError); cbn; [by exists false|].
    rewrite isinstance_Exception. by exists false.
Qed.

Lemma inline_chart_body_raises (data : DataFrame) (e : exn) :
  path_exists w (data_path w csv_file) = true →
  read_csv w (data_path w csv_file) = Ret data →
  filter (λ col, col ∉ columns data) required_columns = [] →
  res (body w data) = Raise e →
  chart w = Run (Ret false) (trace (body w data)).
Proof.
  intros He Hr Hm Hb. unfold chart, inline_chart, try_except.
  rewrite He. cbn. unfold lift. rewrite Hr. cbn. rewrite Hm. cbn.
  unfold mbind, M_bind, bind. cbn. rewrite Hb. cbn.
  destruct (isinstance e FileNotFoundError); cbn.
  - by rewrite app_nil_r.
  - rewrite isinstance_Exception. cbn. by rewrite app_nil_r.
Qed.

End Inline.

End ChartShapes.

(** ** The chart functions of the repository *)

Section ChartFunctions.

Import Charts Samples.


Lemma inline_chart_never_succeeds (w : World) (csv_file png_file : string)
    (required_columns : list string) (body : World → DataFrame → M unit) :
  (∀ data, ∃ e, body w data = Run (Raise e) []) →
  inline_chart csv_file required_columns body png_file w = Run (Ret false) [].
Proof.
  intros Hbody.
  destruct (path_exists w (data_path w csv_file)) eqn:He;
    [|by apply inline_chart_missing_file].
  unfold inline_chart, try_except. rewrite He. cbn. unfold lift.
  destruct (read_csv w (data_path w csv_file)) as [data|e] eqn:Hr; cbn.
  - case_bool_decide as Hm; cbn.
    + reflexivity.
    + destruct (Hbody data) as [e Hb].
      unfold mbind, M_bind, bind. rewrite Hb. cbn.
      destruct (isinstance e FileNotFoundError); cbn; [reflexivity|].
      rewrite isinstance_Exception. reflexivity.
  - destruct (isinstance e FileNotFoundError); cbn; [reflexivity|].
    rewrite isinstance_Exception. reflexivity.
Qed.

Lemma stats_is_unbound : bool_decide ("stats" ∈ basic_histogram_globals) = false.
Proof. vm_compute. reflexivity. Qed.

Lemma stats_is_bound_in_histogram_py :
  bool_decide ("stats" ∈ histogram_globals) = true.
Proof. vm_compute. reflexivity. Qed.

Lemma histogram_body_raises (w : World) (data : DataFrame) :
  ∃ e, histogram_body basic_histogram_globals w data = Run (Raise e) [].
Proof.
  unfold histogram_body, load_global. rewrite stats_is_unbound.
  destruct (plotting w "basic_histogram:hist") as [e|]; cbn; eauto.
Qed.

Lemma histogram_body_name_error (w : World) (data : DataFrame) :
  plotting w "basic_histogram:hist" = None →
  histogram_body basic_histogram_globals w data
  = raise (Exn NameError (NameNotDefined "stats")).
Proof.
  intros H. unfold histogram_body, load_global.
  rewrite stats_is_unbound, H. reflexivity.
Qed.

(** Every chart function fails without writing when its file is
    missing. *)
Lemma chart_missing_csv (w : World) (c : chart) :
  c ∈ all_charts →
  path_exists w (csv c w) = false →
  create c w = Run (Ret false) [].
Proof.
  intros Hc Hp. unfold all_charts in Hc. apply elem_of_app in Hc as [Hc|Hc].
  - unfold loader_charts in Hc. each_member Hc;
      apply loader_chart_missing_file; exact Hp.
  - unfold inline_charts in Hc. each_member Hc;
      apply inline_chart_missing_file; exact Hp.
Qed.

Lemma charts_of_script (s : script) (c : chart) :
  s ∈ chart_scripts → c ∈ charts s → c ∈ all_charts.
Proof.
  intros Hs Hc. unfold chart_scripts in Hs. apply elem_of_app in Hs as [Hs|Hs].
  - unfold standalone_scripts in Hs. each_member Hs;
      unfold standalone, charts in Hc; each_member Hc; in_table.
  - unfold family_scripts in Hs. each_member Hs;
      unfold line_chart_py, bar_chart_py, scatter_plot_py, box_plot_py,
        histogram_py, plot_3d_py, counting_family, reporting_family, charts in Hc;
      each_member Hc; in_table.
Qed.

End ChartFunctions.

(** ** More about the chart functions *)

Section SavingFacts.

Import Charts Catalog.

Variable w : World.

Lemma save_plot_cases (filename : string) :
  save_plot w filename =
    match makedirs w (dirname filename) with
    | Some e => raise e
    | None =>
        match savefig w filename with
        | Some e => Run (Raise e) [Makedirs (dirname filename)]
        | None => Run (Ret tt) [Makedirs (dirname filename); Savefig filename]
        end
    end.
Proof.
  unfold save_plot.
  destruct (makedirs w (dirname filename)); [reflexivity|].
  destruct (savefig w filename); reflexivity.
Qed.

Lemma missing_columns_nil (df : DataFrame) (required_columns : list string) :
  filter (λ col, col ∉ columns df) required_columns = []
  ↔ ∀ col, col ∈ required_columns → col ∈ columns df.
Proof.
  split.
  - intros Hnil col Hin.
    destruct (decide (col ∈ columns df)) as [|Hout]; [done|].
    assert (col ∈ filter (λ col, col ∉ columns df) required_columns) as Hf
      by (apply list_elem_of_filter; done).
    rewrite Hnil in Hf. by apply elem_of_nil in Hf.
  - intros Hall. induction required_columns as [|c cs IH]; [reflexivity|].
    rewrite filter_cons. destruct (decide (c ∉ columns df)) as [Hout|_].
    + destruct Hout. apply Hall. by left.
    + apply IH. intros col Hin. apply Hall. by right.
Qed.

(** What [render_and_save] leaves behind. *)
Lemma render_and_save_saved (body : World → DataFrame → M unit)
    (png_path : string) (df : DataFrame) :
  saved (trace (body w df)) = [] →
  (res (render_and_save body png_path w df) = Ret tt →
   saved (trace (render_and_save body png_path w df)) = [png_path])
  ∧ (saved (trace (render_and_save body png_path w df)) = []
     ∨ saved (trace (render_and_save body png_path w df)) = [png_path]).
Proof.
  intros Hq. unfold render_and_save, plt_close.
  rewrite save_plot_cases.
  destruct (body w df) as [rb tb]. change (saved tb = []) in Hq.
  destruct rb as [[]|eb]; cbn [res trace mbind M_bind bind raise outcome ret].
  2:{ split; [discriminate|]. by left. }
  destruct (makedirs w (dirname png_path));
    cbn [res trace mbind M_bind bind raise outcome ret].
  { rewrite app_nil_r. split; [discriminate|]. by left. }
  destruct (savefig w png_path);
    cbn [res trace mbind M_bind bind raise outcome ret].
  { rewrite saved_app, Hq. split; [discriminate|]. by left. }
  destruct (plotting w "plt.close");
    cbn [res trace mbind M_bind bind raise outcome ret];
    rewrite ?app_nil_r, !saved_app, Hq; split; auto; discriminate.
Qed.

Lemma render_and_save_quiet (body : World → DataFrame → M unit)
    (png_path : string) (df : DataFrame) :
  res (body w df) = Ret tt →
  makedirs w (dirname png_path) = None →
  savefig w png_path = None →
  plotting w "plt.close" = None →
  res (render_and_save body png_path w df) = Ret tt.
Proof.
  intros Hb Hm Hs Hc. unfold render_and_save, plt_close.
  rewrite save_plot_cases, Hm, Hs, Hc.
  destruct (body w df) as [rb tb]. cbn in Hb. subst rb. reflexivity.
Qed.

(** *** The two shapes, once the table is loaded *)

Lemma loader_chart_loaded (csv_path data_description png_path : string)
    (required_columns : list string) (body : World → DataFrame → M unit)
    (df : DataFrame) :
  check_and_load_csv w csv_path required_columns data_description = mret df →
  loader_chart csv_path required_columns data_description body png_path w =
    let m := render_and_save body png_path w df in
    match res m with
    | Ret _ => Run (Ret true) (trace m)
    | Raise e =>
        if isinstance e FileNotFoundError then Run (Ret false) (trace m)
        else if isinstance e ValueError then Run (Ret false) (trace m)
        else Run (Raise e) (trace m)
    end.
Proof.
  intros Hl. unfold loader_chart, render_and_save. rewrite Hl.
  generalize (save_plot w png_path) (plt_close w). intros ms mc.
  unfold mbind, M_bind, mret, M_ret. cbn [bind ret res trace app].
  destruct (body w df) as [rb tb], ms as [rs ts], mc as [rc tc].
  destruct rb as [[]|eb]; cbn.
  - destruct rs as [[]|es]; cbn.
    + destruct rc as [[]|ec]; cbn.
      * by rewrite !app_nil_r.
      * unfold try_except. cbn.
        destruct (isinstance ec FileNotFoundError); cbn;
          [by rewrite !app_nil_r|].
        destruct (isinstance ec ValueError); cbn; by rewrite !app_nil_r.
    + unfold try_except. cbn.
      destruct (isinstance es FileNotFoundError); cbn;
        [by rewrite !app_nil_r|].
      destruct (isinstance es ValueError); cbn; by rewrite !app_nil_r.
  - unfold try_except. cbn.
    destruct (isinstance eb FileNotFoundError); cbn;
      [by rewrite !app_nil_r|].
    destruct (isinstance eb ValueError); cbn; by rewrite !app_nil_r.
Qed.

Lemma inline_chart_cases (csv_file png_file : string)
    (required_columns : list string) (body : World → DataFrame → M unit) :
  inline_chart csv_file required_columns body png_file w =
    if path_exists w (data_path w csv_file) then
      match read_csv w (data_path w csv_file) with
      | Raise _ => Run (Ret false) []
      | Ret data =>
          if bool_decide (filter (λ col, col ∉ columns data) required_columns ≠ [])
          then Run (Ret false) []
          else
            let m := render_and_save body (plot_path w png_file) w data in
            match res m with
            | Ret _ => Run (Ret true) (trace m)
            | Raise _ => Run (Ret false) (trace m)
            end
      end
    else Run (Ret false) [].
Proof.
  destruct (path_exists w (data_path w csv_file)) eqn:He;
    [|by apply inline_chart_missing_file].
  unfold inline_chart, try_except, render_and_save. rewrite He. cbn. unfold lift.
  destruct (read_csv w (data_path w csv_file)) as [data|e]; cbn.
  2:{ destruct (isinstance e FileNotFoundError); cbn; [done|].
      by rewrite isinstance_Exception. }
  case_bool_decide; cbn; [done|].
  generalize (save_plot w (plot_path w png_file)) (plt_close w). intros ms mc.
  destruct (body w data) as [rb tb], ms as [rs ts], mc as [rc tc].
  destruct rb as [[]|eb]; cbn.
  - destruct rs as [[]|es]; cbn.
    + destruct rc as [[]|ec]; cbn.
      * by rewrite !app_nil_r.
      * destruct (isinstance ec FileNotFoundError); cbn;
          [by rewrite !app_nil_r|].
        rewrite isinstance_Exception. cbn. by rewrite !app_nil_r.
    + destruct (isinstance es FileNotFoundError); cbn;
        [by rewrite !app_nil_r|].
      rewrite isinstance_Exception. cbn. by rewrite !app_nil_r.
  - destruct (isinstance eb FileNotFoundError); cbn;
      [by rewrite !app_nil_r|].
    rewrite isinstance_Exception. cbn. by rewrite !app_nil_r.
Qed.

End SavingFacts.

(** ** What the handlers of the two shapes do *)

Section HandlerFacts.

Import Charts Catalog.

Variable w : World.

Lemma inline_chart_handles (csv_file png_file : string)
    (required_columns : list string) (body : World → DataFrame → M unit) :
  let chart := inline_chart csv_file required_columns body png_file in
  let csv_path := data_path w csv_file in
  (∃ b, res (chart w) = Ret b)
  ∧ (path_exists w csv_path = false → res (chart w) = Ret false)
  ∧ (∀ e, read_csv w csv_path = Raise e → res (chart w) = Ret false)
  ∧ (∀ data col, read_csv w csv_path = Ret data →
       col ∈ required_columns → col ∉ columns data →
       res (chart w) = Ret false)
  ∧ (∀ data e, read_csv w csv_path = Ret data →
       res (render_and_save body (plot_path w png_file) w data) = Raise e →
       res (chart w) = Ret false)
  ∧ (∀ data, path_exists w csv_path = true →
       read_csv w csv_path = Ret data →
       (∀ col, col ∈ required_columns → col ∈ columns data) →
       res (render_and_save body (plot_path w png_file) w data) = Ret tt →
       res (chart w) = Ret true).
Proof.
  intros chart csv_path. unfold chart, csv_path.
  split; [apply inline_chart_total|].
  rewrite inline_chart_cases.
  destruct (path_exists w (data_path w csv_file)).
  2:{ repeat split; try done. }
  split; [done|]. split.
  { intros e ->. done. }
  split.
  { intros data col -> Hin Hout.
    rewrite bool_decide_eq_true_2; [done|].
    intros Hnil. apply Hout. by apply (missing_columns_nil data required_columns). }
  split.
  { intros data e -> Hr. case_bool_decide; [done|]. cbn zeta. by rewrite Hr. }
  intros data _ -> Hcols Hr.
  rewrite bool_decide_eq_false_2.
  2:{ intros Hne. apply Hne. by apply missing_columns_nil. }
  cbn zeta. by rewrite Hr.
Qed.

Lemma loader_chart_handles (csv_path data_description png_path : string)
    (required_columns : list string) (body : World → DataFrame → M unit) :
  let chart :=
    loader_chart csv_path required_columns data_description body png_path in
  let load := check_and_load_csv w csv_path required_columns data_description in
  (∀ e, res (chart w) = Raise e →
        isinstance e FileNotFoundError = false
        ∧ isinstance e ValueError = false)
  ∧ (∀ e, res load = Raise e →
       res (chart w) =
         if isinstance e FileNotFoundError then Ret false
         else if isinstance e ValueError then Ret false
         else Raise e)
  ∧ (∀ df e, res load = Ret df →
       res (render_and_save body png_path w df) = Raise e →
       res (chart w) =
         if isinstance e FileNotFoundError then Ret false
         else if isinstance e ValueError then Ret false
         else Raise e)
  ∧ (∀ df, res load = Ret df →
       res (render_and_save body png_path w df) = Ret tt →
       res (chart w) = Ret true).
Proof.
  intros chart load. unfold chart, load.
  split; [intros e; apply loader_chart_raises|].
  pose proof (load_trace w csv_path data_description required_columns) as Ht.
  pose proof (M_eta (check_and_load_csv w csv_path required_columns
                       data_description)) as Heta.
  rewrite Ht in Heta. split; [|split].
  - intros e He. rewrite He in Heta.
    rewrite (loader_chart_load_raises w _ _ _ _ _ e Heta).
    destruct (isinstance e FileNotFoundError); [done|].
    by destruct (isinstance e ValueError).
  - intros df e Hl Hr. rewrite Hl in Heta.
    rewrite (loader_chart_loaded w _ _ _ _ _ df Heta). cbn zeta. rewrite Hr.
    destruct (isinstance e FileNotFoundError); [done|].
    by destruct (isinstance e ValueError).
  - intros df Hl Hr. rewrite Hl in Heta.
    rewrite (loader_chart_loaded w _ _ _ _ _ df Heta). cbn zeta. by rewrite Hr.
Qed.

End HandlerFacts.

(** ** Claims about the chart functions and scripts *)

Section ChartClaims.

Import Charts Catalog Samples MoreSamples.

(** C2, as the code has it. Every chart function has one of two shapes.
    The chart functions of the box plot, histogram and 3D scripts end
    their [try] with [except Exception]: whatever is raised inside the
    [try] (the missing file, an error of [pd.read_csv], a missing column,
    an exception of the plotting calls, of [save_plot] or of
    [plt.close()]) the function returns [False], and no exception leaves
    it; it returns [True] when nothing was raised. The chart functions of
    the line, bar and scatter scripts have the single clause
    [except (FileNotFoundError, ValueError)]: an exception of these two
    classes, raised by [check_and_load_csv] or by anything between loading
    and [plt.close()], gives [False]; an exception of any other class
    leaves the function. *)
Theorem chart_exception_handling (w : World) :
  (∀ c, c ∈ inline_charts →
     ∃ csv_file required_columns body png_file,
       create c = inline_chart csv_file required_columns body png_file)
  ∧ (∀ c, c ∈ loader_charts →
     ∃ csv_path required_columns data_description body png_path,
       create c = loader_chart csv_path required_columns data_description
                    body png_path)
  ∧ (∀ csv_file required_columns body png_file,
       let chart := inline_chart csv_file required_columns body png_file in
       let csv_path := data_path w csv_file in
       (∃ b, res (chart w) = Ret b)
       ∧ (path_exists w csv_path = false → res (chart w) = Ret false)
       ∧ (∀ e, read_csv w csv_path = Raise e → res (chart w) = Ret false)
       ∧ (∀ data col, read_csv w csv_path = Ret data →
            col ∈ required_columns → col ∉ columns data →
            res (chart w) = Ret false)
       ∧ (∀ data e, read_csv w csv_path = Ret data →
            res (render_and_save body (plot_path w png_file) w data) = Raise e →
            res (chart w) = Ret false)
       ∧ (∀ data, path_exists w csv_path = true →
            read_csv w csv_path = Ret data →
            (∀ col, col ∈ required_columns → col ∈ columns data) →
            res (render_and_save body (plot_path w png_file) w data) = Ret tt →
            res (chart w) = Ret true))
  ∧ (∀ csv_path required_columns data_description body png_path,
       let chart :=
         loader_chart csv_path required_columns data_description body png_path in
       let load :=
         check_and_load_csv w csv_path required_columns data_description in
       (∀ e, res (chart w) = Raise e →
             isinstance e FileNotFoundError = false
             ∧ isinstance e ValueError = false)
       ∧ (∀ e, res load = Raise e →
            res (chart w) =
              if isinstance e FileNotFoundError then Ret false
              else if isinstance e ValueError then Ret false
              else Raise e)
       ∧ (∀ df e, res load = Ret df →
            res (render_and_save body png_path w df) = Raise e →
            res (chart w) =
              if isinstance e FileNotFoundError then Ret false
              else if isinstance e ValueError then Ret false
              else Raise e)
       ∧ (∀ df, res load = Ret df →
            res (render_and_save body png_path w df) = Ret tt →
            res (chart w) = Ret true)).
Proof.
  split; [|split; [|split]].
  - intros c Hc. unfold inline_charts in Hc.
    each_member Hc; eexists _, _, _, _; reflexivity.
  - intros c Hc. unfold loader_charts in Hc.
    each_member Hc; eexists _, _, _, _, _; reflexivity.
  - intros. apply inline_chart_handles.
  - intros. apply loader_chart_handles.
Qed.

Lemma chart_exception_handling_witness :
  res (create_basic_histogram (serving histogram_dataset quiet)) = Ret false
  ∧ res (create_basic_bar_chart (serving bar_dataset bars_fail)) = Ret false
  ∧ res (create_basic_scatter_plot (serving text_dataset polyfit_fails))
    = Raise (Exn TypeError
               (LibraryText "can only concatenate str (not float) to str")).
Proof.
  split; [|split].
  - destruct (chart_exception_handling (serving histogram_dataset quiet))
      as (_ & _ & Hinline & _).
    destruct (Hinline "basic_histogram_data.csv" ["values"]
                (histogram_body basic_histogram_globals) "basic_histogram.png")
      as (_ & _ & _ & _ & Hraised & _).
    apply (Hraised histogram_dataset
             (Exn NameError (NameNotDefined "stats"))); reflexivity.
  - destruct (chart_exception_handling (serving bar_dataset bars_fail))
      as (_ & _ & _ & Hloader).
    destruct (Hloader "../data/basic_bar_data.csv" ["category"; "value"]
                "基础柱状图数据格式" (draw "basic_bar_chart")
                "../plot/basic_bar_chart.png")
      as (_ & _ & Hraised & _).
    apply (Hraised bar_dataset
             (Exn ValueError
                (LibraryText "shape mismatch: objects cannot be broadcast to a single shape")));
      reflexivity.
  - destruct (chart_exception_handling (serving text_dataset polyfit_fails))
      as (_ & _ & _ & Hloader).
    destruct (Hloader "../data/basic_scatter_data.csv" ["x"; "y"]
                "基础散点图数据格式" basic_scatter_body
                "../plot/basic_scatter_plot.png")
      as (_ & _ & Hraised & _).
    apply (Hraised text_dataset
             (Exn TypeError
                (LibraryText "can only concatenate str (not float) to str")));
      reflexivity.
Defined.

(** C2 fails for the basic scatter plot: with text in the columns
    [np.polyfit] raises [TypeError], which the only [except] clause does
    not name, so the exception reaches the caller. *)
Lemma basic_scatter_plot_propagates_type_error :
  chart_basic_scatter_plot ∈ all_charts
  ∧ path_exists (serving text_dataset polyfit_fails) "../data/basic_scatter_data.csv" = true
  ∧ res (create_basic_scatter_plot (serving text_dataset polyfit_fails))
    = Raise (Exn TypeError (LibraryText "can only concatenate str (not float) to str")).
Proof.
  split; [in_table|]. split; vm_compute; reflexivity.
Qed.

(** C6, as the code has it. Whatever script a chart function is called
    from, with its CSV file missing it returns [False] and writes nothing.
    A script that makes one chart ends with
    [sys.exit(0 if success else 1)], so its exit status is then 1 and no
    image exists. *)
Theorem missing_csv_fails_chart (w : World) (s : script) (c : chart) :
  (s ∈ chart_scripts → c ∈ charts s →
   path_exists w (csv c w) = false →
   create c w = Run (Ret false) [])
  ∧ (s ∈ standalone_scripts → c ∈ charts s →
     path_exists w (csv c w) = false →
     run s w = (1%Z, [])).
Proof.
  split.
  - intros Hs Hc Hp. apply chart_missing_csv; [|exact Hp].
    by apply (charts_of_script s).
  - intros Hs Hc Hp.
    assert (create c w = Run (Ret false) []) as Hf.
    { apply chart_missing_csv; [|exact Hp].
      apply (charts_of_script s); [|exact Hc].
      unfold chart_scripts. apply elem_of_app. by left. }
    unfold standalone_scripts in Hs.
    each_member Hs; unfold standalone, charts in Hc; each_member Hc;
      unfold standalone, run; rewrite Hf; reflexivity.
Qed.

Lemma missing_csv_fails_chart_witness :
  create chart_basic_bar_chart no_files = Run (Ret false) []
  ∧ run (standalone "bar_chart/code/basic_bar_chart.py" chart_basic_bar_chart)
        no_files = (1%Z, []).
Proof.
  split.
  - apply (missing_csv_fails_chart no_files
             (standalone "bar_chart/code/basic_bar_chart.py" chart_basic_bar_chart)
             chart_basic_bar_chart).
    + in_table.
    + in_list.
    + reflexivity.
  - apply (missing_csv_fails_chart no_files
             (standalone "bar_chart/code/basic_bar_chart.py" chart_basic_bar_chart)
             chart_basic_bar_chart).
    + in_table.
    + in_list.
    + reflexivity.
Defined.

(** C6 fails for the family scripts: [bar_chart.py] ends with a bare
    [main()], so with none of its CSV files present every chart function
    returns [False] and the process still ends with status 0. *)
Lemma bar_chart_py_exits_zero_without_data :
  bar_chart_py ∈ chart_scripts
  ∧ Forall (λ c, path_exists no_files (csv c no_files) = false
                 ∧ res (create c no_files) = Ret false) (charts bar_chart_py)
  ∧ run bar_chart_py no_files = (0%Z, []).
Proof.
  split; [in_table|]. split.
  - repeat constructor.
  - vm_compute. reflexivity.
Qed.

End ChartClaims.

Section HistogramAndEmptyFile.

Import Charts Samples.

(** C9. The standalone basic histogram script never succeeds. In every
    world [create_basic_histogram] returns [False] and writes no image, so
    the script exits with status 1. When the file exists, holds the
    [values] column and the histogram itself is drawn, what stops the
    function is the [NameError] for [stats], a name the module never
    binds. *)
Theorem basic_histogram_script_never_succeeds (w : World) (data : DataFrame) :
  path_exists w (data_path w "basic_histogram_data.csv") = true →
  read_csv w (data_path w "basic_histogram_data.csv") = Ret data →
  "values" ∈ columns data →
  create_basic_histogram w = Run (Ret false) []
  ∧ run (standalone "histogram/code/basic_histogram.py" chart_basic_histogram) w
    = (1%Z, [])
  ∧ (plotting w "basic_histogram:hist" = None →
     histogram_body basic_histogram_globals w data
     = raise (Exn NameError (NameNotDefined "stats"))).
Proof.
  intros _ _ _.
  assert (create_basic_histogram w = Run (Ret false) []) as Hf.
  { apply inline_chart_never_succeeds. intros d. apply histogram_body_raises. }
  split; [exact Hf|]. split.
  - unfold standalone, run, chart_basic_histogram, create.
    rewrite Hf. reflexivity.
  - apply histogram_body_name_error.
Qed.

Lemma basic_histogram_script_never_succeeds_witness :
  create_basic_histogram (serving histogram_dataset quiet) = Run (Ret false) []
  ∧ run (standalone "histogram/code/basic_histogram.py" chart_basic_histogram)
        (serving histogram_dataset quiet) = (1%Z, [])
  ∧ (plotting (serving histogram_dataset quiet) "basic_histogram:hist" = None →
     histogram_body basic_histogram_globals (serving histogram_dataset quiet)
       histogram_dataset
     = raise (Exn NameError (NameNotDefined "stats"))).
Proof.
  apply (basic_histogram_script_never_succeeds
           (serving histogram_dataset quiet) histogram_dataset).
  - reflexivity.
  - reflexivity.
  - in_list.
Defined.

(** The same function does not depend on the file at all: it fails in
    every world. *)
Lemma basic_histogram_fails_everywhere (w : World) :
  create_basic_histogram w = Run (Ret false) [].
Proof.
  apply inline_chart_never_succeeds. intros d. apply histogram_body_raises.
Qed.

(** In [histogram.py], where [stats] is imported, the same text
    succeeds on the same data. *)
Example basic_histogram_in_histogram_py_succeeds :
  create_basic_histogram_in_histogram_py (serving histogram_dataset quiet)
  = Run (Ret true)
        [Makedirs "../plot"; Savefig "../plot/basic_histogram.png"].
Proof. vm_compute. reflexivity. Qed.

(** The basic bar chart on the rows [("A",10),("B",20)] returns [True]
    and writes its image. *)
Example basic_bar_chart_succeeds :
  create_basic_bar_chart (serving bar_dataset quiet)
  = Run (Ret true)
        [Makedirs "../plot"; Savefig "../plot/basic_bar_chart.png"].
Proof. vm_compute. reflexivity. Qed.

(** C10. An existing file without any content makes [pd.read_csv] raise
    [EmptyDataError]. For every path of such a file, whatever the
    required columns, [check_and_load_csv] raises a [ValueError] in its
    place; so every chart function that loads this path through it, those
    of the repository included, returns [False] without writing, as it
    does for a missing column. *)
Theorem empty_csv_is_value_error (w : World) (csv_path : string) (e : exn) :
  path_exists w csv_path = true →
  read_csv w csv_path = Raise e →
  isinstance e EmptyDataError = true →
  (∀ required_columns data_description,
     check_and_load_csv w csv_path required_columns data_description
     = raise (Exn ValueError (CsvEmpty csv_path)))
  ∧ (∀ required_columns data_description body png_path,
       loader_chart csv_path required_columns data_description body png_path w
       = Run (Ret false) [])
  ∧ (∀ c, c ∈ loader_charts → csv c w = csv_path →
          create c w = Run (Ret false) []).
Proof.
  intros He Hr Hi. split; [|split].
  - intros req d. rewrite (load_read_error _ _ _ _ e He Hr), Hi. reflexivity.
  - intros req d body png.
    apply (loader_chart_empty_file _ _ _ _ _ _ e He Hr Hi).
  - intros c Hc Hcsv. unfold loader_charts in Hc.
    each_member Hc; cbn [csv] in Hcsv; subst csv_path;
      apply (loader_chart_empty_file _ _ _ _ _ _ e He Hr Hi).
Qed.

Lemma empty_csv_is_value_error_witness :
  (∀ required_columns data_description,
     check_and_load_csv empty_files "my_data.csv" required_columns
       data_description
     = raise (Exn ValueError (CsvEmpty "my_data.csv")))
  ∧ (∀ required_columns data_description body png_path,
       loader_chart "my_data.csv" required_columns data_description body
         png_path empty_files
       = Run (Ret false) [])
  ∧ create chart_basic_bar_chart empty_files = Run (Ret false) [].
Proof.
  destruct (empty_csv_is_value_error empty_files "my_data.csv"
              (Exn EmptyDataError (LibraryText "No columns to parse from file"))
              eq_refl eq_refl eq_refl) as (Hload & Hshape & _).
  destruct (empty_csv_is_value_error empty_files "../data/basic_bar_data.csv"
              (Exn EmptyDataError (LibraryText "No columns to parse from file"))
              eq_refl eq_refl eq_refl) as (_ & _ & Hcharts).
  split; [exact Hload|]. split; [exact Hshape|].
  apply Hcharts; [in_table|reflexivity].
Defined.

(** The same failure for a missing column. *)
Example basic_bar_chart_missing_column :
  create_basic_bar_chart (serving [("category", Object ["A"])] quiet)
  = Run (Ret false) [].
Proof. vm_compute. reflexivity. Qed.

(** C3 at work: the table lacks two of three required columns. *)
Lemma check_and_load_csv_contract_witness :
  check_and_load_csv no_files "../data/basic_bar_data.csv" ["category"; "value"] ""
  = raise (Exn FileNotFoundError (DataFileMissing "../data/basic_bar_data.csv"))
  ∧ ∃ missing : list string,
      (∀ col, col ∈ missing ↔
              col ∈ ["time"; "category"; "value"] ∧ col ∉ columns bar_dataset)
      ∧ (missing ≠ [] →
         check_and_load_csv (serving bar_dataset quiet) "d.csv"
           ["time"; "category"; "value"] ""
         = raise (Exn ValueError (CsvColumnsMissing missing)))
      ∧ (missing = [] →
         check_and_load_csv (serving bar_dataset quiet) "d.csv"
           ["time"; "category"; "value"] ""
         = mret bar_dataset).
Proof.
  split.
  - apply (check_and_load_csv_contract no_files "../data/basic_bar_data.csv"
             ["category"; "value"] ""). reflexivity.
  - apply (check_and_load_csv_contract (serving bar_dataset quiet) "d.csv"
             ["time"; "category"; "value"] "" ); reflexivity.
Defined.

End HistogramAndEmptyFile.

(** ** Claims about the grid reconstructor *)

Section GridClaims.

Import Charts Samples.

(** *** What holds when the x column is float64 *)

Section Float64Grid.

Variables x y z : ndarray.
Hypothesis Hxy : length (items x) = length (items y).
Hypothesis Hyz : length (items y) = length (items z).
Hypothesis Hfloat : dtype_of x = float64.
Variables (i j : nat) (xi yi : Qc).
Hypothesis Hi : items (unique x) !! i = Some xi.
Hypothesis Hj : items (unique y) !! j = Some yi.

(** Round trip: a cell whose coordinates occur in exactly one row holds
    the z value of that row. *)
Lemma grid_round_trip_float64 (k : nat) (zk : Qc) :
  items x !! k = Some xi → items y !! k = Some yi → items z !! k = Some zk →
  (∀ k', items x !! k' = Some xi ∧ items y !! k' = Some yi → k' = k) →
  ∃ Z, grid x y z = Some Z ∧ getitem2 Z j i = Some zk.
Proof.
  intros Hx Hy Hz Hone.
  destruct (grid_first_row x y z Hxy Hyz i j xi yi Hi Hj k zk Hx Hy Hz)
    as (Z & HZ & Hg).
  { intros k' Hlt Hk'. apply Hone in Hk'. lia. }
  exists Z. split; [done|]. by rewrite Hg, Hfloat.
Qed.

(** Fallback: a cell without a row holds the mean of all z values. *)
Lemma grid_fallback_float64 :
  (∀ k, ¬ (items x !! k = Some xi ∧ items y !! k = Some yi)) →
  ∃ Z, grid x y z = Some Z ∧ getitem2 Z j i = Some (mean (items z)).
Proof.
  intros Hno.
  destruct (grid_no_row x y z Hxy Hyz i j xi yi Hi Hj Hno) as (Z & HZ & Hg).
  exists Z. split; [done|]. by rewrite Hg, Hfloat.
Qed.

(** Tie-break: with several rows at the coordinates the cell holds the
    z value of the first of them. *)
Lemma grid_tie_break_float64 (k : nat) (zk : Qc) :
  items x !! k = Some xi → items y !! k = Some yi → items z !! k = Some zk →
  (∀ k', (k' < k)%nat → ¬ (items x !! k' = Some xi ∧ items y !! k' = Some yi)) →
  ∃ Z, grid x y z = Some Z ∧ getitem2 Z j i = Some zk.
Proof.
  intros Hx Hy Hz Hfirst.
  destruct (grid_first_row x y z Hxy Hyz i j xi yi Hi Hj k zk Hx Hy Hz Hfirst)
    as (Z & HZ & Hg).
  exists Z. split; [done|]. by rewrite Hg, Hfloat.
Qed.

End Float64Grid.

(** The mean is the arithmetic mean: times the number of values it is
    their sum. *)
Lemma mean_is_arithmetic (l : list Qc) :
  l ≠ [] → (mean l * of_int (Z.of_nat (length l)) = sum l)%Qc.
Proof.
  intros Hne. unfold mean.
  assert (of_int (Z.of_nat (length l)) ≠ 0%Qc) as Hnz.
  { destruct l as [|a l]; [done|]. intros H.
    unfold of_int in H. change 0%Qc with (Q2Qc 0) in H.
    apply Q2Qc_eq_iff in H. unfold Qeq, inject_Z in H.
    cbn [Qnum Qden length] in H. lia. }
  field. exact Hnz.
Qed.

(** *** What the scripts plot when the x column is int64 *)

(** C1 at a failing input. The table is the full grid
    x,y,z = (0,0,0.5), (1,0,1.5) with x written as integers. The surface
    plot returns [True] and saves its image, but the grid it plots is
    [[0, 1]]: the cell of the row (0,0,0.5) holds 0, not 0.5. *)
Theorem surface_grid_truncates_on_integer_x :
  getitem integer_grid "z" = Some (Float64 [Q2Qc (1 # 2); Q2Qc (3 # 2)])
  ∧ res (create_3d_surface_plot (serving integer_grid quiet)) = Ret true
  ∧ plotted (trace (create_3d_surface_plot (serving integer_grid quiet)))
    = [ [ [0; 1] ] ]%Q.
Proof. split; [reflexivity|]. split; vm_compute; reflexivity. Qed.

(** The same rows with x written as 0.0 and 1.0 come back unchanged. *)
Example surface_grid_on_float_x :
  plotted (trace (create_3d_surface_plot (serving float_grid quiet)))
  = [ [ [1 # 2; 3 # 2] ] ]%Q.
Proof. vm_compute. reflexivity. Qed.

(** C4 at a failing input. The table holds (0,0,0.5) and (1,1,1.0) with
    x written as integers; the mean of z is 0.75. The contour plot fills
    the two cells without a row with 0. *)
Theorem contour_grid_truncates_mean_on_integer_x :
  this (mean [Q2Qc (1 # 2); of_int 1]) = (3 # 4)%Q
  ∧ res (create_3d_contour_plot (serving sparse_integer_grid quiet)) = Ret true
  ∧ plotted (trace (create_3d_contour_plot (serving sparse_integer_grid quiet)))
    = [ [ [0; 0]; [0; 1] ] ]%Q.
Proof. split; [reflexivity|]. split; vm_compute; reflexivity. Qed.

Example contour_grid_on_float_x :
  plotted (trace (create_3d_contour_plot (serving sparse_float_grid quiet)))
  = [ [ [1 # 2; 3 # 4]; [3 # 4; 1] ] ]%Q.
Proof. vm_compute. reflexivity. Qed.

(** C5 at a failing input. Two rows, (0,0,2.5) and (0,0,3.5), lie at the
    same point, with x written as integers. The surface plot takes the
    first row, but the cell holds 2, not 2.5. *)
Theorem surface_grid_truncates_first_row_on_integer_x :
  getitem repeated_integer_point "z" = Some (Float64 [Q2Qc (5 # 2); Q2Qc (7 # 2)])
  ∧ res (create_3d_surface_plot (serving repeated_integer_point quiet)) = Ret true
  ∧ plotted (trace (create_3d_surface_plot (serving repeated_integer_point quiet)))
    = [ [ [2] ] ]%Q.
Proof. split; [reflexivity|]. split; vm_compute; reflexivity. Qed.

Example surface_grid_first_row_on_float_x :
  plotted (trace (create_3d_surface_plot (serving repeated_float_point quiet)))
  = [ [ [5 # 2] ] ]%Q.
Proof. vm_compute. reflexivity. Qed.

End GridClaims.

(** ** The runner *)

Section RunnerFacts.

Import Runner Samples.

Variable os : OS.
Variable home : string.
Hypothesis home_absolute : is_absolute home = true.
(** The directory the runner was started in stays reachable. *)
Hypothesis home_reachable : ∀ l, chdir_outcome os l home = None.

Lemma resolve_home (d : string) : resolve d home = home.
Proof. unfold resolve. by rewrite home_absolute. Qed.

Lemma chdir_home (l : list action) (d : string) :
  os_chdir os home (State d l) = (Ret tt, State home (l ++ [Chdir home])).
Proof.
  unfold os_chdir. cbn. by rewrite home_reachable, resolve_home.
Qed.

(** One call of [run_plotting_module] returns, whatever the script did,
    with the runner back in its directory. *)
Lemma run_plotting_module_returns (module_path module_name : string)
    (l : list action) :
  ∃ (b : bool) (mid : list action),
    run_plotting_module os module_path module_name (State home l)
    = (Ret b, State home (l ++ Running module_name :: mid ++ [Chdir home]))
    ∧ mid = match chdir_outcome os (l ++ [Running module_name])
                    (dirname module_path) with
            | Some _ => []
            | None =>
                [ Chdir (dirname module_path);
                  SubprocessRun (resolve home (dirname module_path))
                    (basename module_path) 300 ]
            end.
Proof.
  unfold run_plotting_module, mbind, R_bind, record, os_getcwd, try_except.
  cbn [cwd log].
  unfold os_chdir at 1. cbn [cwd log].
  destruct (chdir_outcome os (l ++ [Running module_name]) (dirname module_path))
    as [e|] eqn:Hc.
  - exists false, []. split; [|done].
    cbn [dispatch].
    destruct (isinstance e TimeoutExpired).
    + rewrite chdir_home. cbn. by rewrite <- app_assoc.
    + rewrite isinstance_Exception, chdir_home. cbn. by rewrite <- app_assoc.
  - unfold subprocess_run. cbn [cwd log].
    match goal with |- context [run_outcome os ?a ?b ?c] =>
      destruct (run_outcome os a b c) as [returncode|e] end.
    + rewrite chdir_home. eexists _, _. split; [|done].
      cbn. by rewrite <- !app_assoc.
    + exists false. eexists. split; [|done].
      cbn [dispatch].
      destruct (isinstance e TimeoutExpired).
      * rewrite chdir_home. cbn. by rewrite <- !app_assoc.
      * rewrite isinstance_Exception, chdir_home. cbn. by rewrite <- !app_assoc.
Qed.

Lemma round_at_log (module_path module_name : string) (l : list action) :
  (l ++ Running module_name
        :: match chdir_outcome os (l ++ [Running module_name])
                   (dirname module_path) with
           | Some _ => []
           | None =>
               [ Chdir (dirname module_path);
                 SubprocessRun (resolve home (dirname module_path))
                   (basename module_path) 300 ]
           end ++ [Chdir home]) ++ [Sleep 1]
  = l ++ round_at os home (module_path, module_name) l.
Proof.
  unfold round_at. cbn [fst snd].
  destruct (chdir_outcome os (l ++ [Running module_name]) (dirname module_path));
    unfold launched_round, refused_round; cbn; by rewrite <- !app_assoc.
Qed.

Lemma run_each_rounds_from (ms : list (string * string)) :
  ∀ (results : gmap string bool) (l : list action),
    ∃ results' : gmap string bool,
      run_each os ms results (State home l)
      = (Ret results', State home (l ++ concat (rounds_from os home ms l))).
Proof.
  induction ms as [|[module_path module_name] ms IH]; intros results l.
  - exists results. cbn. by rewrite app_nil_r.
  - cbn [run_each rounds_from concat]. unfold mbind, R_bind.
    destruct (run_plotting_module_returns module_path module_name l) as (b & mid & -> & ->).
    unfold time_sleep, record. cbn [cwd log].
    rewrite round_at_log.
    destruct (IH (<[module_name := b]> results)
                (l ++ round_at os home (module_path, module_name) l))
      as [results' ->].
    exists results'. by rewrite app_assoc.
Qed.

Lemma rounds_from_round_of (ms : list (string * string)) :
  ∀ l, Forall2 (round_of home) ms (rounds_from os home ms l).
Proof.
  induction ms as [|m ms IH]; intros l; [constructor|].
  cbn [rounds_from]. constructor; [|apply IH].
  unfold round_of, round_at. destruct (chdir_outcome _ _ _); [by right|by left].
Qed.

Lemma rounds_from_all_launched (ms : list (string * string)) :
  (∀ l' d, chdir_outcome os l' d = None) →
  ∀ l, rounds_from os home ms l = (λ m, launched_round home m.1 m.2) <$> ms.
Proof.
  intros Hok. induction ms as [|m ms IH]; intros l; [done|].
  cbn [rounds_from]. rewrite fmap_cons, IH. unfold round_at. by rewrite Hok.
Qed.

Lemma launches_app (l1 l2 : list action) :
  launches (l1 ++ l2) = launches l1 ++ launches l2.
Proof. unfold launches. apply omap_app. Qed.

(** A module whose directory can be entered is launched, whatever
    happens to the modules before and after it. *)
Lemma rounds_from_launch (ms : list (string * string)) (m : string * string) :
  m ∈ ms →
  (∀ l', chdir_outcome os l' (dirname m.1) = None) →
  ∀ l, launch_of home m ∈ launches (concat (rounds_from os home ms l)).
Proof.
  intros Hm Hok. induction ms as [|m' ms IH]; intros l.
  - by apply elem_of_nil in Hm.
  - cbn [rounds_from concat]. rewrite launches_app. apply elem_of_app.
    apply elem_of_cons in Hm as [<-|Hm].
    + left. unfold round_at. rewrite Hok. unfold launched_round, launch_of.
      cbn. left.
    + right. by apply IH.
Qed.

Lemma announced_rounds (ms : list (string * string)) (rounds : list (list action)) :
  Forall2 (round_of home) ms rounds → announced (concat rounds) = ms.*2.
Proof.
  induction 1 as [|m r ms rounds Hr _ IH]; [reflexivity|].
  cbn. unfold announced in *. rewrite omap_app, IH.
  destruct Hr as [->| ->]; reflexivity.
Qed.

Lemma launches_rounds (ms : list (string * string)) (rounds : list (list action)) :
  Forall2 (round_of home) ms rounds →
  Forall (λ launch, launch.2 = 300%Z) (launches (concat rounds))
  ∧ launches (concat rounds)
    `sublist_of` (λ m, (resolve home (dirname m.1), basename m.1, 300%Z)) <$> ms.
Proof.
  induction 1 as [|m r ms rounds Hr _ [IH1 IH2]]; [split; constructor|].
  cbn. unfold launches in *. rewrite omap_app.
  destruct Hr as [->| ->]; cbn.
  - split; [by constructor|by constructor].
  - split; [done|by constructor].
Qed.

End RunnerFacts.

(** ** Claims about the runner *)

Section RunnerClaims.

Import Runner Samples.

(** C7. Started in a directory that stays reachable, [main] goes
    through its six modules one after the other and returns. The log
    holds one round per module, in the order of the list, each begun
    after the one before it has ended with its second of sleep. The round
    of a module is the full one (the directory of the module entered, the
    script run with the timeout of 300 seconds, the directory left again,
    one second of sleep) whenever [os.chdir] to its directory succeeds at
    that point, and the short one without a launch only when that call
    raises. So a module whose directory can be entered is launched
    whatever happened to the others, no script is launched twice, and
    neither an exit status other than 0, nor the timeout, nor an error at
    launch stops the later rounds: the outcomes of [subprocess.run] are
    arbitrary here. *)
Theorem runner_attempts_every_module (os : OS) (home : string)
    (l : list action) :
  is_absolute home = true →
  (∀ l', chdir_outcome os l' home = None) →
  ∃ (b : bool) (rounds : list (list action)),
    main os (State home l) = (Ret b, State home (l ++ concat rounds))
    ∧ rounds = rounds_from os home modules l
    ∧ Forall2 (round_of home) modules rounds
    ∧ announced (concat rounds) = modules.*2
    ∧ Forall (λ launch, launch.2 = 300%Z) (launches (concat rounds))
    ∧ launches (concat rounds) `sublist_of` launch_of home <$> modules
    ∧ (∀ m, m ∈ modules →
            (∀ l', chdir_outcome os l' (dirname m.1) = None) →
            launch_of home m ∈ launches (concat rounds))
    ∧ ((∀ l' d, chdir_outcome os l' d = None) →
       rounds = (λ m, launched_round home m.1 m.2) <$> modules).
Proof.
  intros Habs Hhome. unfold main, mbind, R_bind.
  destruct (run_each_rounds_from os home Habs Hhome modules ∅ l)
    as [results ->].
  pose proof (rounds_from_round_of os home modules l) as Hrounds.
  eexists _, _. split; [reflexivity|]. split; [reflexivity|].
  split; [exact Hrounds|].
  split; [by apply (announced_rounds home)|].
  split; [by apply (launches_rounds home modules)|].
  split; [by apply (launches_rounds home modules)|].
  split.
  - intros m Hm Hok. by apply rounds_from_launch.
  - intros Hok. by apply rounds_from_all_launched.
Qed.

Lemma runner_attempts_every_module_witness :
  ∃ (b : bool) (rounds : list (list action)),
    main flaky_os repository = (Ret b, State "/repo" ([] ++ concat rounds))
    ∧ rounds = rounds_from flaky_os "/repo" modules []
    ∧ Forall2 (round_of "/repo") modules rounds
    ∧ announced (concat rounds) = modules.*2
    ∧ Forall (λ launch, launch.2 = 300%Z) (launches (concat rounds))
    ∧ launches (concat rounds) `sublist_of` launch_of "/repo" <$> modules
    ∧ (∀ m, m ∈ modules →
            (∀ l', chdir_outcome flaky_os l' (dirname m.1) = None) →
            launch_of "/repo" m ∈ launches (concat rounds))
    ∧ ((∀ l' d, chdir_outcome flaky_os l' d = None) →
       rounds = (λ m, launched_round "/repo" m.1 m.2) <$> modules).
Proof.
  apply (runner_attempts_every_module flaky_os "/repo" []).
  - reflexivity.
  - intros l'. reflexivity.
Defined.

(** One run with every kind of failure: four scripts fail in four
    ways, the two last ones are run all the same, and [main] reports
    failure. *)
Example runner_on_flaky_os :
  launches (log (main flaky_os repository).2)
  = [ ("/repo/line_chart/code", "line_chart.py", 300%Z);
      ("/repo/bar_chart/code", "bar_chart.py", 300%Z);
      ("/repo/scatter_plot/code", "scatter_plot.py", 300%Z);
      ("/repo/histogram/code", "histogram.py", 300%Z);
      ("/repo/3d_plot/code", "3d_plot.py", 300%Z) ]
  ∧ announced (log (main flaky_os repository).2) = modules.*2
  ∧ (main flaky_os repository).1 = Ret false.
Proof. vm_compute. done. Qed.

(** The rounds on the flaky machine. *)
Example rounds_on_flaky_os :
  rounds_from flaky_os "/repo" modules []
  = [ launched_round "/repo" "line_chart/code/line_chart.py" "Line Charts (折线图)";
      launched_round "/repo" "bar_chart/code/bar_chart.py" "Bar Charts (柱状图)";
      launched_round "/repo" "scatter_plot/code/scatter_plot.py"
        "Scatter Plots (散点图)";
      refused_round "/repo" "Box Plots (箱线图)";
      launched_round "/repo" "histogram/code/histogram.py" "Histograms (直方图)";
      launched_round "/repo" "3d_plot/code/3d_plot.py" "3D Plots (三维图)" ].
Proof. vm_compute. reflexivity. Qed.

End RunnerClaims.

(** ** The correlation coefficient of the basic scatter plot *)

Section Correlation.

Import Charts Samples.

(** C8. For the dataset x = [1,2,3], y = [2,4,6] the correlation
    coefficient that line 60 of the basic scatter plot computes is the
    binary64 number 1.0 itself: no rounding occurs on the way. It is the
    number the script writes into the figure before it saves the image. *)
Theorem correlation_of_doubled_series :
  correlation_of correlation_dataset = Ret 1%float
  ∧ create_basic_scatter_plot (serving correlation_dataset quiet)
    = Run (Ret true)
          [ AxText 1%float;
            Makedirs "../plot"; Savefig "../plot/basic_scatter_plot.png" ].
Proof. split; vm_compute; reflexivity. Qed.

(** The intermediate values: covariance 2, variances 1 and 4. *)
Example covariances_of_doubled_series :
  Corr.cov [1; 2; 3]%float [2; 4; 6]%float = 2%float
  ∧ Corr.cov [1; 2; 3]%float [1; 2; 3]%float = 1%float
  ∧ Corr.cov [2; 4; 6]%float [2; 4; 6]%float = 4%float.
Proof. repeat split; vm_compute; reflexivity. Qed.

End Correlation.

(** * Further properties *)

(** ** More about check_and_load_csv *)

Section CsvValidatorMore.

Variable w : World.
Variables (csv_path data_description : string) (required_columns : list string).

Let load := check_and_load_csv w csv_path required_columns data_description.

(** X1. A table that [check_and_load_csv] returns is the table pandas
    read from an existing path, and it has every required column; nothing
    was written on the way. *)
Theorem loaded_table_is_complete (df : DataFrame) :
  res load = Ret df →
  path_exists w csv_path = true
  ∧ read_csv w csv_path = Ret df
  ∧ (∀ col, col ∈ required_columns → col ∈ columns df)
  ∧ trace load = [].
Proof.
  intros Hres.
  destruct (path_exists w csv_path) eqn:He.
  2:{ unfold load in Hres. by rewrite (load_missing_file _ _ _ _ He) in Hres. }
  destruct (read_csv w csv_path) as [df0|e] eqn:Hr.
  - unfold load in Hres. rewrite (load_table _ _ _ _ df0 He Hr) in Hres.
    cbn in Hres. case_bool_decide as Hm; [discriminate|].
    cbn in Hres. injection Hres as <-.
    split; [done|]. split; [done|]. split; [|apply load_trace].
    intros col Hin. destruct (decide (col ∈ columns df0)) as [|Hout]; [done|].
    assert (filter (λ col, col ∉ columns df0) required_columns = []) as Hnil.
    { destruct (decide (filter (λ col, col ∉ columns df0) required_columns = []));
        [done|]. by destruct Hm. }
    assert (col ∈ filter (λ col, col ∉ columns df0) required_columns) as Hf
      by (apply list_elem_of_filter; done).
    rewrite Hnil in Hf. by apply elem_of_nil in Hf.
  - unfold load in Hres. rewrite (load_read_error _ _ _ _ e He Hr) in Hres.
    destruct (isinstance e EmptyDataError); discriminate.
Qed.

(** X2. The exceptions that leave [check_and_load_csv]: the
    [FileNotFoundError] for a missing path; the [ValueError] listing the
    missing columns of a table that was read; the [ValueError] for an
    empty file; or, unchanged, any other exception pandas raised while
    reading. *)
Theorem load_failure_kinds (e : exn) :
  res load = Raise e →
  (path_exists w csv_path = false
   ∧ e = Exn FileNotFoundError (DataFileMissing csv_path))
  ∨ (path_exists w csv_path = true
     ∧ ∃ df, read_csv w csv_path = Ret df
             ∧ filter (λ col, col ∉ columns df) required_columns ≠ []
             ∧ e = Exn ValueError
                     (CsvColumnsMissing
                        (filter (λ col, col ∉ columns df) required_columns)))
  ∨ (path_exists w csv_path = true
     ∧ ∃ e0, read_csv w csv_path = Raise e0
             ∧ ((isinstance e0 EmptyDataError = true
                 ∧ e = Exn ValueError (CsvEmpty csv_path))
                ∨ (isinstance e0 EmptyDataError = false ∧ e = e0))).
Proof.
  intros Hres.
  destruct (path_exists w csv_path) eqn:He.
  2:{ left. unfold load in Hres. rewrite (load_missing_file _ _ _ _ He) in Hres.
      cbn in Hres. by injection Hres as <-. }
  right. destruct (read_csv w csv_path) as [df0|e0] eqn:Hr.
  - left. split; [done|]. exists df0.
    unfold load in Hres. rewrite (load_table _ _ _ _ df0 He Hr) in Hres.
    cbn in Hres. case_bool_decide as Hm; [|discriminate].
    cbn in Hres. by injection Hres as <-.
  - right. split; [done|]. exists e0. split; [done|].
    unfold load in Hres. rewrite (load_read_error _ _ _ _ e0 He Hr) in Hres.
    destruct (isinstance e0 EmptyDataError); cbn in Hres; injection Hres as <-;
      [by left|by right].
Qed.

End CsvValidatorMore.

Section CsvValidatorWitnesses.

Import Samples.

Lemma loaded_table_is_complete_witness :
  path_exists (serving bar_dataset quiet) "d.csv" = true
  ∧ read_csv (serving bar_dataset quiet) "d.csv" = Ret bar_dataset
  ∧ (∀ col, col ∈ ["value"; "category"] → col ∈ columns bar_dataset)
  ∧ trace (check_and_load_csv (serving bar_dataset quiet) "d.csv"
             ["value"; "category"] "") = [].
Proof.
  apply (loaded_table_is_complete (serving bar_dataset quiet) "d.csv" ""
           ["value"; "category"] bar_dataset).
  reflexivity.
Defined.

Lemma load_failure_kinds_witness :
  let w := serving bar_dataset quiet in
  let e := Exn ValueError (CsvColumnsMissing ["time"]) in
  (path_exists w "d.csv" = false
   ∧ e = Exn FileNotFoundError (DataFileMissing "d.csv"))
  ∨ (path_exists w "d.csv" = true
     ∧ ∃ df, read_csv w "d.csv" = Ret df
             ∧ filter (λ col, col ∉ columns df) ["time"; "value"] ≠ []
             ∧ e = Exn ValueError
                     (CsvColumnsMissing
                        (filter (λ col, col ∉ columns df) ["time"; "value"])))
  ∨ (path_exists w "d.csv" = true
     ∧ ∃ e0, read_csv w "d.csv" = Raise e0
             ∧ ((isinstance e0 EmptyDataError = true
                 ∧ e = Exn ValueError (CsvEmpty "d.csv"))
                ∨ (isinstance e0 EmptyDataError = false ∧ e = e0))).
Proof.
  apply (load_failure_kinds (serving bar_dataset quiet) "d.csv" ""
           ["time"; "value"]).
  reflexivity.
Defined.

End CsvValidatorWitnesses.

(** *** The bodies of the chart functions *)

Section Bodies.

Import Charts Catalog.

Ltac oracles w :=
  repeat match goal with
         | |- context [plotting w ?l] =>
             let o := fresh "o" in
             generalize (plotting w l); intros o; destruct o
         end.

Ltac settle w :=
  repeat first
    [ reflexivity
    | rewrite isinstance_Exception
    | progress cbn
    | progress oracles w ].

Lemma draw_saves_nothing (label : string) : saves_nothing (draw label).
Proof. intros w df. unfold draw. by destruct (plotting w label). Qed.

Lemma histogram_body_saves_nothing (globals : list string) :
  saves_nothing (histogram_body globals).
Proof.
  intros w df. unfold histogram_body, load_global.
  destruct (bool_decide ("stats" ∈ globals)); oracles w; reflexivity.
Qed.

Lemma basic_scatter_body_saves_nothing : saves_nothing basic_scatter_body.
Proof.
  intros w df. unfold basic_scatter_body.
  destruct (correlation_of df); oracles w; reflexivity.
Qed.

Lemma gridded_saves_nothing (label : string) : saves_nothing (gridded label).
Proof.
  intros w df. unfold gridded, try_except.
  destruct (xyz df) as [[[x y] z]|].
  - destruct (reconstruct x y z) as [[[X Y] Z]|e]; settle w.
  - settle w.
Qed.

Lemma surface_body_saves_nothing : saves_nothing surface_body.
Proof.
  intros w df. unfold surface_body.
  pose proof (gridded_saves_nothing "3d_surface" w df) as Hg.
  destruct (gridded "3d_surface" w df) as [rg tg].
  change (saved tg = []) in Hg. unfold try_except.
  destruct rg as [[]|eg]; oracles w; cbn -[saved]; rewrite ?app_nil_r, ?saved_app, ?Hg;
    try reflexivity; rewrite ?isinstance_Exception; cbn -[saved];
    rewrite ?app_nil_r, ?saved_app, ?Hg; reflexivity.
Qed.

Lemma wireframe_body_saves_nothing : saves_nothing wireframe_body.
Proof.
  intros w df. unfold wireframe_body.
  pose proof (gridded_saves_nothing "3d_wireframe" w df) as Hg.
  destruct (gridded "3d_wireframe" w df) as [rg tg].
  change (saved tg = []) in Hg.
  destruct rg as [[]|eg]; oracles w; cbn -[saved]; rewrite ?app_nil_r, ?saved_app, ?Hg;
    reflexivity.
Qed.

Lemma contour_body_saves_nothing : saves_nothing contour_body.
Proof.
  intros w df. unfold contour_body.
  pose proof (gridded_saves_nothing "3d_contour" w df) as Hg.
  destruct (gridded "3d_contour" w df) as [rg tg].
  change (saved tg = []) in Hg.
  destruct rg as [[]|eg]; oracles w; cbn -[saved]; rewrite ?app_nil_r, ?saved_app, ?Hg;
    reflexivity.
Qed.

End Bodies.

(** *** What each shape guarantees *)

Section ShapeGuarantees.

Import Charts Catalog.

Variable w : World.
Variable required_columns : list string.
Variable body : World → DataFrame → M unit.
Hypothesis body_saves_nothing : saves_nothing body.

Section LoaderGuarantees.

Variables (csv_path data_description png_path : string).

Let chart := loader_chart csv_path required_columns data_description body png_path.

Lemma loader_chart_saved :
  saved (trace (chart w)) = [] ∨ saved (trace (chart w)) = [png_path].
Proof.
  pose proof (load_trace w csv_path data_description required_columns) as Ht.
  destruct (res (check_and_load_csv w csv_path required_columns data_description))
    as [df|e] eqn:Hr.
  - assert (check_and_load_csv w csv_path required_columns data_description
            = mret df) as Hl.
    { rewrite (M_eta (check_and_load_csv _ _ _ _)), Hr, Ht. reflexivity. }
    unfold chart. rewrite (loader_chart_loaded w _ _ _ _ _ df Hl). cbn zeta.
    destruct (render_and_save_saved w body png_path df (body_saves_nothing w df))
      as [_ Hs].
    destruct (res (render_and_save body png_path w df)) as [|e]; [exact Hs|].
    destruct (isinstance e FileNotFoundError); [exact Hs|].
    destruct (isinstance e ValueError); exact Hs.
  - assert (check_and_load_csv w csv_path required_columns data_description
            = raise e) as Hl.
    { rewrite (M_eta (check_and_load_csv _ _ _ _)), Hr, Ht. reflexivity. }
    unfold chart. rewrite (loader_chart_load_raises w _ _ _ _ _ e Hl).
    destruct (isinstance e FileNotFoundError); [by left|].
    destruct (isinstance e ValueError); by left.
Qed.

Lemma loader_chart_true :
  res (chart w) = Ret true →
  path_exists w csv_path = true
  ∧ (∃ df, read_csv w csv_path = Ret df
           ∧ ∀ col, col ∈ required_columns → col ∈ columns df)
  ∧ saved (trace (chart w)) = [png_path].
Proof.
  pose proof (load_trace w csv_path data_description required_columns) as Ht.
  destruct (res (check_and_load_csv w csv_path required_columns data_description))
    as [df|e] eqn:Hr.
  - destruct (loaded_table_is_complete w _ _ _ df Hr) as (He & Hread & Hcols & _).
    assert (check_and_load_csv w csv_path required_columns data_description
            = mret df) as Hl.
    { rewrite (M_eta (check_and_load_csv _ _ _ _)), Hr, Ht. reflexivity. }
    unfold chart. rewrite (loader_chart_loaded w _ _ _ _ _ df Hl). cbn zeta.
    destruct (render_and_save_saved w body png_path df (body_saves_nothing w df))
      as [Hs _].
    destruct (res (render_and_save body png_path w df)) as [[]|e] eqn:Hm.
    + intros _. split; [done|]. split; [by exists df|]. by apply Hs.
    + destruct (isinstance e FileNotFoundError); [discriminate|].
      destruct (isinstance e ValueError); discriminate.
  - assert (check_and_load_csv w csv_path required_columns data_description
            = raise e) as Hl.
    { rewrite (M_eta (check_and_load_csv _ _ _ _)), Hr, Ht. reflexivity. }
    unfold chart. rewrite (loader_chart_load_raises w _ _ _ _ _ e Hl).
    destruct (isinstance e FileNotFoundError); [discriminate|].
    destruct (isinstance e ValueError); discriminate.
Qed.

Lemma loader_chart_succeeds (df : DataFrame) :
  path_exists w csv_path = true →
  read_csv w csv_path = Ret df →
  (∀ col, col ∈ required_columns → col ∈ columns df) →
  cooperative w →
  res (body w df) = Ret tt →
  res (chart w) = Ret true ∧ saved (trace (chart w)) = [png_path].
Proof.
  intros He Hr Hcols (Hp & Hm & Hs) Hb.
  assert (check_and_load_csv w csv_path required_columns data_description
          = mret df) as Hl.
  { rewrite (load_table _ _ _ _ df He Hr). cbn.
    rewrite bool_decide_eq_false_2; [done|].
    intros Hne. apply Hne. by apply missing_columns_nil. }
  assert (res (chart w) = Ret true) as Ht.
  { unfold chart. rewrite (loader_chart_loaded w _ _ _ _ _ df Hl). cbn zeta.
    by rewrite (render_and_save_quiet w body png_path df Hb (Hm _) (Hs _) (Hp _)). }
  split; [exact Ht|]. by apply loader_chart_true.
Qed.

Lemma loader_chart_read_error (e : exn) :
  path_exists w csv_path = true →
  read_csv w csv_path = Raise e →
  chart w =
    if isinstance e FileNotFoundError then Run (Ret false) []
    else if isinstance e ValueError then Run (Ret false) []
    else Run (Raise e) [].
Proof.
  intros He Hr. unfold chart.
  pose proof (load_read_error w csv_path data_description required_columns
                e He Hr) as Hl.
  destruct (isinstance e EmptyDataError) eqn:Hempty.
  - rewrite (loader_chart_load_raises w _ _ _ _ _ _ Hl).
    rewrite (isinstance_EmptyData_ValueError e Hempty).
    by destruct (isinstance e FileNotFoundError).
  - by rewrite (loader_chart_load_raises w _ _ _ _ _ _ Hl).
Qed.

End LoaderGuarantees.

Section InlineGuarantees.

Variables (csv_file png_file : string).

Let chart := inline_chart csv_file required_columns body png_file.

Lemma inline_chart_saved :
  saved (trace (chart w)) = []
  ∨ saved (trace (chart w)) = [plot_path w png_file].
Proof.
  unfold chart. rewrite inline_chart_cases.
  destruct (path_exists w (data_path w csv_file)); [|by left].
  destruct (read_csv w (data_path w csv_file)) as [data|e]; [|by left].
  case_bool_decide; [by left|]. cbn zeta.
  destruct (render_and_save_saved w body (plot_path w png_file) data
              (body_saves_nothing w data)) as [_ Hs].
  by destruct (res (render_and_save body (plot_path w png_file) w data)).
Qed.

Lemma inline_chart_true :
  res (chart w) = Ret true →
  path_exists w (data_path w csv_file) = true
  ∧ (∃ data, read_csv w (data_path w csv_file) = Ret data
             ∧ ∀ col, col ∈ required_columns → col ∈ columns data)
  ∧ saved (trace (chart w)) = [plot_path w png_file].
Proof.
  unfold chart. rewrite inline_chart_cases.
  destruct (path_exists w (data_path w csv_file)); [|discriminate].
  destruct (read_csv w (data_path w csv_file)) as [data|e]; [|discriminate].
  case_bool_decide as Hm; [discriminate|]. cbn zeta.
  destruct (render_and_save_saved w body (plot_path w png_file) data
              (body_saves_nothing w data)) as [Hs _].
  destruct (res (render_and_save body (plot_path w png_file) w data))
    as [[]|e] eqn:Hr; [|discriminate].
  intros _. split; [done|]. split; [|by apply Hs].
  exists data. split; [done|]. apply missing_columns_nil.
  destruct (decide (filter (λ col, col ∉ columns data) required_columns = []));
    [done|by destruct Hm].
Qed.

Lemma inline_chart_missing_columns (data : DataFrame) :
  path_exists w (data_path w csv_file) = true →
  read_csv w (data_path w csv_file) = Ret data →
  filter (λ col, col ∉ columns data) required_columns ≠ [] →
  chart w = Run (Ret false) [].
Proof.
  intros He Hr Hm. unfold chart. rewrite inline_chart_cases, He, Hr.
  by rewrite bool_decide_eq_true_2.
Qed.

Lemma inline_chart_read_error (e : exn) :
  path_exists w (data_path w csv_file) = true →
  read_csv w (data_path w csv_file) = Raise e →
  chart w = Run (Ret false) [].
Proof.
  intros He Hr. unfold chart. by rewrite inline_chart_cases, He, Hr.
Qed.

Lemma inline_chart_succeeds (data : DataFrame) :
  path_exists w (data_path w csv_file) = true →
  read_csv w (data_path w csv_file) = Ret data →
  (∀ col, col ∈ required_columns → col ∈ columns data) →
  cooperative w →
  res (body w data) = Ret tt →
  res (chart w) = Ret true
  ∧ saved (trace (chart w)) = [plot_path w png_file].
Proof.
  intros He Hr Hcols (Hp & Hm & Hs) Hb.
  assert (res (chart w) = Ret true) as Ht.
  { unfold chart. rewrite inline_chart_cases, He, Hr.
    rewrite bool_decide_eq_false_2.
    2:{ intros Hne. apply Hne. by apply missing_columns_nil. }
    cbn zeta.
    by rewrite (render_and_save_quiet w body _ data Hb (Hm _) (Hs _) (Hp _)). }
  split; [exact Ht|]. by apply inline_chart_true.
Qed.

End InlineGuarantees.

End ShapeGuarantees.

(** *** Bodies in a cooperative world *)

Section CooperativeBodies.

Import Charts Catalog.

Variable w : World.
Hypothesis Hw : cooperative w.

Lemma draw_returns (label : string) (df : DataFrame) :
  res (draw label w df) = Ret tt.
Proof. destruct Hw as (Hp & _). unfold draw. by rewrite Hp. Qed.

Lemma histogram_body_returns (df : DataFrame) :
  res (histogram_body histogram_globals w df) = Ret tt.
Proof.
  destruct Hw as (Hp & _). unfold histogram_body, load_global.
  rewrite stats_is_bound_in_histogram_py, !Hp. reflexivity.
Qed.

Lemma gridded_returns (label : string) (df : DataFrame) :
  res (gridded label w df) = Ret tt.
Proof.
  destruct Hw as (Hp & _). unfold gridded, try_except.
  destruct (xyz df) as [[[x y] z]|].
  - destruct (reconstruct x y z) as [[[X Y] Z]|e]; cbn.
    + by rewrite Hp.
    + by rewrite isinstance_Exception, Hp.
  - by rewrite Hp.
Qed.

Lemma surface_body_returns (df : DataFrame) : res (surface_body w df) = Ret tt.
Proof.
  unfold surface_body. rewrite res_bind, (proj1 Hw). cbn.
  rewrite res_bind, gridded_returns.
  rewrite res_bind, (proj1 Hw). cbn.
  rewrite res_bind. unfold try_except. rewrite (proj1 Hw). cbn.
  by rewrite (proj1 Hw).
Qed.

Lemma wireframe_body_returns (df : DataFrame) :
  res (wireframe_body w df) = Ret tt.
Proof.
  unfold wireframe_body. rewrite res_bind, (proj1 Hw). cbn.
  rewrite res_bind, gridded_returns. by rewrite (proj1 Hw).
Qed.

Lemma contour_body_returns (df : DataFrame) : res (contour_body w df) = Ret tt.
Proof.
  unfold contour_body. rewrite res_bind, (proj1 Hw). cbn.
  rewrite res_bind, gridded_returns. by rewrite (proj1 Hw).
Qed.

End CooperativeBodies.

(** ** Properties of every chart function *)

Section CatalogFacts.

Import Charts Catalog Samples MoreSamples.

(** Settles the side condition on the body of a chart function. *)
Ltac body_is_quiet :=
  first
    [ apply draw_saves_nothing
    | apply histogram_body_saves_nothing
    | apply basic_scatter_body_saves_nothing
    | apply surface_body_saves_nothing
    | apply wireframe_body_saves_nothing
    | apply contour_body_saves_nothing ].

Ltac body_returns :=
  first
    [ apply draw_returns
    | apply histogram_body_returns
    | apply surface_body_returns
    | apply wireframe_body_returns
    | apply contour_body_returns ]; assumption.

Lemma catalog_true (w : World) (e : entry) :
  e ∈ catalog →
  res (create (chart_of e) w) = Ret true →
  path_exists w (csv (chart_of e) w) = true
  ∧ (∃ df, read_csv w (csv (chart_of e) w) = Ret df
           ∧ ∀ col, col ∈ required e → col ∈ columns df)
  ∧ saved (trace (create (chart_of e) w)) = [png e w].
Proof.
  intros He. unfold catalog in He. apply elem_of_app in He as [He|He].
  - unfold loader_entries in He. each_member He;
      apply loader_chart_true; body_is_quiet.
  - unfold inline_entries in He. each_member He;
      apply inline_chart_true; body_is_quiet.
Qed.

Lemma catalog_saved (w : World) (e : entry) :
  e ∈ catalog →
  saved (trace (create (chart_of e) w)) = []
  ∨ saved (trace (create (chart_of e) w)) = [png e w].
Proof.
  intros He. unfold catalog in He. apply elem_of_app in He as [He|He].
  - unfold loader_entries in He. each_member He;
      apply loader_chart_saved; body_is_quiet.
  - unfold inline_entries in He. each_member He;
      apply inline_chart_saved; body_is_quiet.
Qed.

(** X3. With a CSV file that exists and can be read but lacks a required
    column, every chart function of the repository returns [False]
    without writing anything; none raises. *)
Theorem missing_column_fails_every_chart (w : World) (e : entry)
    (df : DataFrame) (col : string) :
  e ∈ catalog →
  path_exists w (csv (chart_of e) w) = true →
  read_csv w (csv (chart_of e) w) = Ret df →
  col ∈ required e → col ∉ columns df →
  create (chart_of e) w = Run (Ret false) [].
Proof.
  intros He Hp Hr Hin Hout.
  assert (filter (λ col, col ∉ columns df) (required e) ≠ []) as Hm.
  { intros Hnil. apply Hout. by apply (missing_columns_nil df (required e)). }
  unfold catalog in He. apply elem_of_app in He as [He|He].
  - unfold loader_entries in He. each_member He;
      exact (loader_chart_missing_columns w _ _ _ _ _ df Hp Hr Hm).
  - unfold inline_entries in He. each_member He;
      exact (inline_chart_missing_columns w _ _ _ _ df Hp Hr Hm).
Qed.

Lemma missing_column_fails_every_chart_witness :
  create chart_3d_scatter_plot (serving integer_grid quiet) = Run (Ret false) [].
Proof.
  apply (missing_column_fails_every_chart (serving integer_grid quiet)
           (Entry chart_3d_scatter_plot ["x"; "y"; "z"; "group"]
              (λ w, plot_path w "3d_scatter_plot.png"))
           integer_grid "group").
  - in_table.
  - reflexivity.
  - reflexivity.
  - in_list.
  - apply (bool_decide_unpack _). vm_compute. exact I.
Defined.

(** X4. A chart function returns [True] only when its CSV file exists,
    pandas read it, the table has every required column, and exactly one
    image was written: the chart's own file. *)
Theorem chart_true_means_image (w : World) (e : entry) :
  e ∈ catalog →
  res (create (chart_of e) w) = Ret true →
  path_exists w (csv (chart_of e) w) = true
  ∧ (∃ df, read_csv w (csv (chart_of e) w) = Ret df
           ∧ ∀ col, col ∈ required e → col ∈ columns df)
  ∧ saved (trace (create (chart_of e) w)) = [png e w].
Proof. apply catalog_true. Qed.

Lemma chart_true_means_image_witness :
  path_exists (serving bar_dataset quiet) "../data/basic_bar_data.csv" = true
  ∧ (∃ df, read_csv (serving bar_dataset quiet) "../data/basic_bar_data.csv"
           = Ret df
           ∧ ∀ col, col ∈ ["category"; "value"] → col ∈ columns df)
  ∧ saved (trace (create_basic_bar_chart (serving bar_dataset quiet)))
    = ["../plot/basic_bar_chart.png"].
Proof.
  apply (chart_true_means_image (serving bar_dataset quiet)
           (Entry chart_basic_bar_chart ["category"; "value"]
              (λ _, "../plot/basic_bar_chart.png"))).
  - in_table.
  - vm_compute. reflexivity.
Defined.

(** X5. In no world does a chart function write an image other than its
    own: its trace holds no saved file, or exactly the chart's image
    file; this holds also when the function fails or raises. *)
Theorem chart_writes_only_its_image (w : World) (e : entry) :
  e ∈ catalog →
  saved (trace (create (chart_of e) w)) = []
  ∨ saved (trace (create (chart_of e) w)) = [png e w].
Proof. apply catalog_saved. Qed.

Lemma chart_writes_only_its_image_witness :
  saved (trace (create_basic_scatter_plot (serving text_dataset polyfit_fails)))
  = []
  ∨ saved (trace (create_basic_scatter_plot (serving text_dataset polyfit_fails)))
    = ["../plot/basic_scatter_plot.png"].
Proof.
  apply (chart_writes_only_its_image (serving text_dataset polyfit_fails)
           (Entry chart_basic_scatter_plot ["x"; "y"]
              (λ _, "../plot/basic_scatter_plot.png"))).
  in_table.
Defined.

(** X6. A CSV file that exists but cannot be read. The box plot,
    histogram and 3D chart functions return [False] whatever pandas
    raised. The line, bar and scatter chart functions return [False] when
    the exception is a [FileNotFoundError] or a [ValueError] (a parser
    error, an empty file); any other exception, such as a
    [PermissionError], leaves the function. Nothing is written. *)
Theorem unreadable_csv (w : World) (e : entry) (err : exn) :
  path_exists w (csv (chart_of e) w) = true →
  read_csv w (csv (chart_of e) w) = Raise err →
  (e ∈ inline_entries → create (chart_of e) w = Run (Ret false) [])
  ∧ (e ∈ loader_entries →
     create (chart_of e) w =
       if isinstance err FileNotFoundError then Run (Ret false) []
       else if isinstance err ValueError then Run (Ret false) []
       else Run (Raise err) []).
Proof.
  intros Hp Hr. split; intros He.
  - unfold inline_entries in He. each_member He;
      exact (inline_chart_read_error w _ _ _ _ err Hp Hr).
  - unfold loader_entries in He. each_member He;
      exact (loader_chart_read_error w _ _ _ _ _ err Hp Hr).
Qed.

Lemma unreadable_csv_witness :
  create_basic_box_plot unreadable_files = Run (Ret false) []
  ∧ create_basic_line_chart unreadable_files
    = Run (Raise (Exn PermissionError (LibraryText "Permission denied"))) [].
Proof.
  split.
  - apply (unreadable_csv unreadable_files
             (Entry chart_basic_box_plot ["group"; "value"]
                (λ w, plot_path w "basic_box_plot.png"))
             (Exn PermissionError (LibraryText "Permission denied")));
      [reflexivity|reflexivity|in_list].
  - apply (unreadable_csv unreadable_files
             (Entry chart_basic_line_chart ["time"; "amplitude"]
                (λ _, "../plot/basic_line_chart.png"))
             (Exn PermissionError (LibraryText "Permission denied")));
      [reflexivity|reflexivity|in_list].
Defined.

(** X7. On good data every chart function with fixed plotting calls
    succeeds: when the file exists, the table has every required column
    and the plotting library and the file system do what they are asked,
    the function returns [True] and writes exactly its image. *)
Theorem drawn_chart_succeeds (w : World) (e : entry) (df : DataFrame) :
  e ∈ drawn_entries →
  cooperative w →
  path_exists w (csv (chart_of e) w) = true →
  read_csv w (csv (chart_of e) w) = Ret df →
  (∀ col, col ∈ required e → col ∈ columns df) →
  res (create (chart_of e) w) = Ret true
  ∧ saved (trace (create (chart_of e) w)) = [png e w].
Proof.
  intros He Hw Hp Hr Hcols. unfold drawn_entries in He.
  each_member He;
    first
      [ apply (loader_chart_succeeds w _ _) with (df := df)
      | apply (inline_chart_succeeds w _ _) with (data := df) ];
    first [ assumption | body_is_quiet | body_returns ].
Qed.

Lemma quiet_is_cooperative (df : DataFrame) : cooperative (serving df quiet).
Proof. by repeat split. Qed.

Lemma drawn_chart_succeeds_witness :
  res (create_3d_contour_plot (serving integer_grid quiet)) = Ret true
  ∧ saved (trace (create_3d_contour_plot (serving integer_grid quiet)))
    = ["../plot/3d_contour_plot.png"].
Proof.
  apply (drawn_chart_succeeds (serving integer_grid quiet)
           (Entry chart_3d_contour_plot ["x"; "y"; "z"]
              (λ w, plot_path w "3d_contour_plot.png"))
           integer_grid).
  - in_list.
  - apply quiet_is_cooperative.
  - reflexivity.
  - reflexivity.
  - intros col Hc. apply (bool_decide_unpack _).
    each_member Hc; vm_compute; exact I.
Defined.

(** X8. A script that makes one chart exits with status 0 or 1; the
    status is 0 exactly when the chart function returned [True], and then
    the chart's image, and no other, was written. *)
Theorem standalone_status_tells_image (w : World) (e : entry) (file : string) :
  e ∈ catalog →
  ((run (standalone file (chart_of e)) w).1 = 0%Z
   ∨ (run (standalone file (chart_of e)) w).1 = 1%Z)
  ∧ ((run (standalone file (chart_of e)) w).1 = 0%Z
     ↔ res (create (chart_of e) w) = Ret true)
  ∧ ((run (standalone file (chart_of e)) w).1 = 0%Z →
     saved (run (standalone file (chart_of e)) w).2 = [png e w]).
Proof.
  intros He. unfold standalone, run, exit_status. cbn [fst snd].
  pose proof (catalog_true w e He) as Ht.
  destruct (res (create (chart_of e) w)) as [[]|err].
  - split; [by left|]. split; [done|]. intros _. by apply Ht.
  - split; [by right|]. split; [split; discriminate|]. discriminate.
  - split; [by right|]. split; [split; discriminate|]. discriminate.
Qed.

Lemma standalone_status_tells_image_witness :
  let r := run (standalone "bar_chart/code/basic_bar_chart.py" chart_basic_bar_chart)
               (serving bar_dataset quiet) in
  (r.1 = 0%Z ∨ r.1 = 1%Z)
  ∧ (r.1 = 0%Z ↔ res (create_basic_bar_chart (serving bar_dataset quiet)) = Ret true)
  ∧ (r.1 = 0%Z → saved r.2 = ["../plot/basic_bar_chart.png"]).
Proof.
  apply (standalone_status_tells_image (serving bar_dataset quiet)
           (Entry chart_basic_bar_chart ["category"; "value"]
              (λ _, "../plot/basic_bar_chart.png"))
           "bar_chart/code/basic_bar_chart.py").
  in_table.
Defined.

End CatalogFacts.

(** ** The family scripts *)

Section FamilyScripts.

Import Charts Catalog Samples.

Variable w : World.

Lemma count_successes_all_return (fs : list (World → M bool)) :
  Forall (returns w) fs →
  res (count_successes fs w)
  = Ret (length (filter (λ f, returned_true (f w) = true) fs))
  ∧ trace (count_successes fs w) = concat ((λ f, trace (f w)) <$> fs).
Proof.
  induction 1 as [|f fs [b Hb] _ [IHr IHt]]; [done|].
  cbn [count_successes]. rewrite res_bind, trace_bind, Hb.
  rewrite res_bind, trace_bind, IHr, IHt. cbn [res trace mret M_ret ret].
  rewrite app_nil_r. split; [|done].
  rewrite filter_cons.
  destruct (decide (returned_true (f w) = true)) as [Hyes|Hno];
    unfold returned_true in Hyes || unfold returned_true in Hno;
    rewrite Hb in *; by destruct b.
Qed.

Lemma count_successes_stops (pre post : list (World → M bool))
    (f : World → M bool) (e : exn) :
  Forall (returns w) pre →
  res (f w) = Raise e →
  res (count_successes (pre ++ f :: post) w) = Raise e
  ∧ trace (count_successes (pre ++ f :: post) w)
    = concat ((λ f, trace (f w)) <$> pre) ++ trace (f w).
Proof.
  intros Hpre Hf. induction Hpre as [|g pre [b Hb] _ [IHr IHt]].
  - cbn [app count_successes fmap list_fmap concat].
    by rewrite res_bind, trace_bind, Hf.
  - cbn [app count_successes]. rewrite res_bind, trace_bind, Hb.
    rewrite res_bind, trace_bind, IHr, IHt. rewrite fmap_cons.
    cbn [concat]. by rewrite app_assoc.
Qed.

Lemma all_true_count (fs : list (World → M bool)) :
  bool_decide (length (filter (λ f, returned_true (f w) = true) fs) = length fs)
  = forallb (λ f, returned_true (f w)) fs.
Proof.
  induction fs as [|f fs IH]; [done|].
  rewrite filter_cons. cbn [forallb length].
  destruct (returned_true (f w)) eqn:Hf.
  - rewrite decide_True by done. cbn [length andb]. rewrite <- IH.
    apply bool_decide_ext. lia.
  - rewrite decide_False by done. cbn [andb].
    apply bool_decide_eq_false_2.
    pose proof (length_filter (λ f, returned_true (f w) = true) fs). lia.
Qed.

End FamilyScripts.

Section FamilyClaims.

Import Charts Catalog Samples.

Lemma inline_family_returns (w : World) (cs : list chart) :
  Forall (λ c, c ∈ inline_charts) cs →
  Forall (returns w) (create <$> cs).
Proof.
  intros H. apply Forall_fmap. eapply Forall_impl; [exact H|].
  intros c Hc. unfold returns. cbn.
  unfold inline_charts in Hc. each_member Hc; apply inline_chart_total.
Qed.

Lemma reporting_charts_inline (s : script) :
  s ∈ reporting_scripts → Forall (λ c, c ∈ inline_charts) (charts s).
Proof.
  intros Hs. unfold reporting_scripts in Hs.
  each_member Hs; repeat constructor; in_table.
Qed.

Lemma reporting_family_run (w : World) (file : string) (cs : list chart) :
  Forall (λ c, c ∈ inline_charts) cs →
  run (reporting_family file cs) w
  = (0%Z, concat ((λ c, trace (create c w)) <$> cs)).
Proof.
  intros Hcs.
  destruct (count_successes_all_return w _ (inline_family_returns w cs Hcs))
    as [Hr Ht].
  unfold run, reporting_family, plain_status, reporting_main.
  rewrite res_bind, trace_bind, Hr, Ht. cbn [res trace mret M_ret ret].
  rewrite app_nil_r. f_equal. by rewrite <- list_fmap_compose.
Qed.

(** X9. [box_plot.py], [histogram.py] and [3d_plot.py] call every one of
    their chart functions, in order, whatever the earlier ones did, and
    end with exit status 0 in every world: what the script leaves behind
    is what its chart functions leave behind, one after the other. *)
Theorem reporting_script_runs_every_chart (w : World) (s : script) :
  s ∈ reporting_scripts →
  run s w = (0%Z, concat ((λ c, trace (create c w)) <$> charts s)).
Proof.
  intros Hs. pose proof (reporting_charts_inline s Hs) as Hcs.
  unfold reporting_scripts in Hs.
  each_member Hs; by apply reporting_family_run.
Qed.

Lemma reporting_script_runs_every_chart_witness :
  run plot_3d_py no_files
  = (0%Z, concat ((λ c, trace (create c no_files)) <$> charts plot_3d_py)).
Proof.
  apply (reporting_script_runs_every_chart no_files plot_3d_py). in_list.
Defined.

(** X10. [main] of [box_plot.py], [histogram.py] and [3d_plot.py]
    returns [True] exactly when every chart function it called returned
    [True]. *)
Theorem reporting_main_flag (w : World) (s : script) :
  s ∈ reporting_scripts →
  res (reporting_main (create <$> charts s) w)
  = Ret (forallb (λ c, returned_true (create c w)) (charts s)).
Proof.
  intros Hs.
  pose proof (inline_family_returns w _ (reporting_charts_inline s Hs)) as Hret.
  destruct (count_successes_all_return w _ Hret) as [Hr _].
  unfold reporting_main. rewrite res_bind, Hr. cbn [res mret M_ret ret].
  rewrite all_true_count. f_equal.
  generalize (charts s). intros cs.
  induction cs as [|c cs IH]; [done|].
  rewrite fmap_cons. cbn [forallb]. by rewrite IH.
Qed.

Lemma reporting_main_flag_witness :
  res (reporting_main (create <$> charts histogram_py)
         (serving histogram_dataset quiet))
  = Ret (forallb (λ c, returned_true (create c (serving histogram_dataset quiet)))
           (charts histogram_py)).
Proof.
  apply (reporting_main_flag (serving histogram_dataset quiet) histogram_py).
  in_list.
Defined.

(** X11. [line_chart.py], [bar_chart.py] and [scatter_plot.py] stop at
    the first chart function that lets an exception out: the script ends
    with exit status 1, and the chart functions listed after it are not
    called. When no chart function raises, all are called and the status
    is 0, however many returned [False]. *)
Theorem counting_script_stops_at_exception (w : World) (s : script) :
  s ∈ counting_scripts →
  (∀ pre c post e,
     charts s = pre ++ c :: post →
     Forall (λ c, ∃ b, res (create c w) = Ret b) pre →
     res (create c w) = Raise e →
     run s w = (1%Z, concat ((λ c, trace (create c w)) <$> pre)
                       ++ trace (create c w)))
  ∧ (Forall (λ c, ∃ b, res (create c w) = Ret b) (charts s) →
     run s w = (0%Z, concat ((λ c, trace (create c w)) <$> charts s))).
Proof.
  intros Hs.
  assert (run s w = (plain_status (counting_main (create <$> charts s) w),
                     trace (counting_main (create <$> charts s) w))) as Hrun.
  { unfold counting_scripts in Hs. each_member Hs; reflexivity. }
  rewrite Hrun. unfold counting_main, plain_status. split.
  - intros pre c post e Hcs Hpre Hc. rewrite Hcs, fmap_app, fmap_cons.
    destruct (count_successes_stops w (create <$> pre) (create <$> post)
                (create c) e) as [Hr Ht]; [by apply Forall_fmap|done|].
    rewrite res_bind, trace_bind, Hr, Ht. f_equal.
    by rewrite <- list_fmap_compose.
  - intros Hall.
    destruct (count_successes_all_return w (create <$> charts s)) as [Hr Ht];
      [by apply Forall_fmap|].
    rewrite res_bind, trace_bind, Hr, Ht. cbn [res trace mret M_ret ret].
    rewrite app_nil_r. f_equal. by rewrite <- list_fmap_compose.
Qed.

Lemma counting_script_stops_at_exception_witness :
  run scatter_plot_py (serving text_dataset polyfit_fails) = (1%Z, [])
  ∧ run bar_chart_py no_files
    = (0%Z, concat ((λ c, trace (create c no_files)) <$> charts bar_chart_py)).
Proof.
  split.
  - apply (counting_script_stops_at_exception
             (serving text_dataset polyfit_fails) scatter_plot_py ltac:(in_list))
      with (pre := []) (c := chart_basic_scatter_plot)
           (post := [ chart_colored_scatter_plot; chart_sized_scatter_plot;
                      chart_categorical_scatter_plot;
                      chart_correlation_matrix_scatter ])
           (e := Exn TypeError
                   (LibraryText "can only concatenate str (not float) to str")).
    + reflexivity.
    + constructor.
    + vm_compute. reflexivity.
  - apply (counting_script_stops_at_exception no_files bar_chart_py
             ltac:(in_list)).
    repeat constructor; by exists false.
Defined.

End FamilyClaims.

(** ** More about the grid reconstructor *)

Section GridMore.












End GridMore.

(** ** The scatter fallback of the gridded charts *)

Section Fallback.

Import Charts Catalog Samples MoreSamples.

Variable w : World.

Lemma gridded_falls_back (label : string) (df : DataFrame) :
  plotting w (label +:+ ":scatter") = None →
  res (gridded label w df) = Ret tt.
Proof.
  intros Hs. unfold gridded, try_except.
  destruct (xyz df) as [[[x y] z]|].
  - destruct (reconstruct x y z) as [[[X Y] Z]|e]; cbn.
    + destruct (plotting w (label +:+ ":grid")); cbn; [|done].
      by rewrite isinstance_Exception, Hs.
    + by rewrite isinstance_Exception, Hs.
  - destruct (plotting w (label +:+ ":grid")); cbn; [|done].
    by rewrite isinstance_Exception, Hs.
Qed.

Hypothesis Hw : cooperative_outside guarded_calls w.

Ltac outside :=
  apply (proj1 Hw); apply (bool_decide_unpack _); vm_compute; exact I.

Lemma surface_body_falls_back (df : DataFrame) :
  res (surface_body w df) = Ret tt.
Proof.
  assert (plotting w "3d_surface:figure" = None) as Hf by outside.
  assert (plotting w "3d_surface:scatter" = None) as Hs by outside.
  assert (plotting w "3d_surface:labels" = None) as Hl by outside.
  assert (plotting w "3d_surface:decorate" = None) as Hd by outside.
  unfold surface_body. rewrite res_bind, Hf. cbn.
  rewrite res_bind, (gridded_falls_back "3d_surface" df Hs).
  rewrite res_bind, Hl. cbn.
  rewrite res_bind. unfold try_except.
  destruct (plotting w "3d_surface:colorbar"); cbn;
    rewrite ?isinstance_Exception; cbn; by rewrite Hd.
Qed.

Lemma wireframe_body_falls_back (df : DataFrame) :
  res (wireframe_body w df) = Ret tt.
Proof.
  assert (plotting w "3d_wireframe:figure" = None) as Hf by outside.
  assert (plotting w "3d_wireframe:scatter" = None) as Hs by outside.
  assert (plotting w "3d_wireframe:decorate" = None) as Hd by outside.
  unfold wireframe_body. rewrite res_bind, Hf. cbn.
  rewrite res_bind, (gridded_falls_back "3d_wireframe" df Hs). by rewrite Hd.
Qed.

Lemma contour_body_falls_back (df : DataFrame) :
  res (contour_body w df) = Ret tt.
Proof.
  assert (plotting w "3d_contour:figure" = None) as Hf by outside.
  assert (plotting w "3d_contour:scatter" = None) as Hs by outside.
  assert (plotting w "3d_contour:decorate" = None) as Hd by outside.
  unfold contour_body. rewrite res_bind, Hf. cbn.
  rewrite res_bind, (gridded_falls_back "3d_contour" df Hs). by rewrite Hd.
Qed.

Lemma inline_chart_succeeds_outside (csv_file png_file : string)
    (required_columns : list string) (body : World → DataFrame → M unit)
    (data : DataFrame) :
  saves_nothing body →
  path_exists w (data_path w csv_file) = true →
  read_csv w (data_path w csv_file) = Ret data →
  (∀ col, col ∈ required_columns → col ∈ columns data) →
  res (body w data) = Ret tt →
  res (inline_chart csv_file required_columns body png_file w) = Ret true
  ∧ saved (trace (inline_chart csv_file required_columns body png_file w))
    = [plot_path w png_file].
Proof.
  intros Hq He Hr Hcols Hb.
  assert (plotting w "plt.close" = None) as Hc by outside.
  destruct Hw as (_ & Hm & Hs).
  assert (res (inline_chart csv_file required_columns body png_file w)
          = Ret true) as Ht.
  { rewrite inline_chart_cases, He, Hr.
    rewrite bool_decide_eq_false_2.
    2:{ intros Hne. apply Hne. by apply missing_columns_nil. }
    cbn zeta.
    by rewrite (render_and_save_quiet w body _ data Hb (Hm _) (Hs _) Hc). }
  split; [exact Ht|]. by apply inline_chart_true.
Qed.

End Fallback.

Section FallbackClaims.

Import Charts Catalog Samples MoreSamples.

(** X16. The surface, wireframe and contour chart functions do not depend
    on the grid being drawn: when the call that draws the grid raises, or
    the colour bar of the surface plot does, while every other plotting
    call and the file system work, the function still returns [True] and
    writes exactly its image. *)
Theorem gridded_chart_survives_grid_failure (w : World) (e : entry)
    (df : DataFrame) :
  e ∈ gridded_entries →
  cooperative_outside guarded_calls w →
  path_exists w (csv (chart_of e) w) = true →
  read_csv w (csv (chart_of e) w) = Ret df →
  (∀ col, col ∈ required e → col ∈ columns df) →
  res (create (chart_of e) w) = Ret true
  ∧ saved (trace (create (chart_of e) w)) = [png e w].
Proof.
  intros He Hw Hp Hr Hcols. unfold gridded_entries in He.
  each_member He; apply (inline_chart_succeeds_outside w Hw) with (data := df);
    first
      [ assumption
      | apply surface_body_saves_nothing
      | apply wireframe_body_saves_nothing
      | apply contour_body_saves_nothing
      | by apply surface_body_falls_back
      | by apply wireframe_body_falls_back
      | by apply contour_body_falls_back ].
Qed.

Lemma gridded_chart_survives_grid_failure_witness :
  res (create_3d_surface_plot (serving float_grid no_surface)) = Ret true
  ∧ saved (trace (create_3d_surface_plot (serving float_grid no_surface)))
    = ["../plot/3d_surface_plot.png"].
Proof.
  apply (gridded_chart_survives_grid_failure (serving float_grid no_surface)
           (Entry chart_3d_surface_plot ["x"; "y"; "z"]
              (λ w, plot_path w "3d_surface_plot.png"))
           float_grid).
  - in_list.
  - split; [|by split].
    intros label Hl. cbn [plotting serving]. unfold no_surface.
    rewrite !decide_False; [done| |];
      intros ->; apply Hl; in_list.
  - reflexivity.
  - reflexivity.
  - intros col Hc. apply (bool_decide_unpack _).
    each_member Hc; vm_compute; exact I.
Defined.

End FallbackClaims.

(** ** What the runner returns *)

Section RunnerVerdict.

Import Charts Runner Pipeline Samples MoreSamples.

Variable os : OS.
Variable home : string.
Hypothesis home_absolute : is_absolute home = true.
Hypothesis home_reachable : ∀ l, chdir_outcome os l home = None.

Lemma run_plotting_module_flag (module_path module_name : string)
    (l : list action) :
  ∃ mid : list action,
    run_plotting_module os module_path module_name (State home l)
    = (Ret (module_ok os home module_path module_name l),
       State home (l ++ Running module_name :: mid ++ [Chdir home])).
Proof.
  unfold module_ok.
  replace (l ++ [Running module_name; Chdir (dirname module_path)])
    with ((l ++ [Running module_name]) ++ [Chdir (dirname module_path)])
    by (rewrite <- app_assoc; reflexivity).
  unfold run_plotting_module, mbind, R_bind, record, os_getcwd, try_except.
  cbn [cwd log].
  unfold os_chdir at 1. cbn [cwd log].
  destruct (chdir_outcome os (l ++ [Running module_name]) (dirname module_path))
    as [e|] eqn:Hc.
  - exists []. cbn [dispatch].
    destruct (isinstance e TimeoutExpired).
    + rewrite (chdir_home os home home_absolute home_reachable).
      cbn. by rewrite <- app_assoc.
    + rewrite isinstance_Exception,
        (chdir_home os home home_absolute home_reachable).
      cbn. by rewrite <- app_assoc.
  - unfold subprocess_run. cbn [cwd log].
    match goal with |- context [run_outcome os ?a ?b ?c] =>
      destruct (run_outcome os a b c) as [returncode|e] end.
    + rewrite (chdir_home os home home_absolute home_reachable).
      (exists [ Chdir (dirname module_path);
               SubprocessRun (resolve home (dirname module_path))
                 (basename module_path) 300 ]).
      cbn. by rewrite <- !app_assoc.
    + (exists [ Chdir (dirname module_path);
               SubprocessRun (resolve home (dirname module_path))
                 (basename module_path) 300 ]).
      cbn [dispatch].
      destruct (isinstance e TimeoutExpired).
      * rewrite (chdir_home os home home_absolute home_reachable).
        cbn. by rewrite <- !app_assoc.
      * rewrite isinstance_Exception,
          (chdir_home os home home_absolute home_reachable).
        cbn. by rewrite <- !app_assoc.
Qed.

Lemma successes_insert (results : gmap string bool) (k : string) (b : bool) :
  results !! k = None →
  successes (<[k := b]> results)
  = ((if b then 1 else 0) + successes results)%nat.
Proof.
  intros Hk. unfold successes.
  rewrite (map_to_list_insert results k b Hk).
  rewrite filter_cons. by destruct b.
Qed.

Lemma all_pass_count {A} (p : A → bool) (xs : list A) :
  bool_decide ((length xs - length (filter (λ x, p x = true) xs))%nat = O)
  = forallb p xs.
Proof.
  induction xs as [|x xs IH]; [done|].
  rewrite filter_cons. cbn [forallb length].
  pose proof (length_filter (λ x, p x = true) xs) as Hle.
  destruct (p x) eqn:Hx.
  - rewrite decide_True by done. cbn [length andb]. rewrite <- IH.
    apply bool_decide_ext. lia.
  - rewrite decide_False by done. cbn [andb].
    apply bool_decide_eq_false_2. lia.
Qed.

(** The outcomes of [subprocess.run] do not depend on what happened
    before, and every directory can be entered. *)
Variable outcome : string → string → result Z.
Hypothesis chdir_works : ∀ l d, chdir_outcome os l d = None.
Hypothesis run_steady : ∀ l cwd script, run_outcome os l cwd script = outcome cwd script.

Let passes (m : string * string) : bool :=
  returned_zero (outcome (resolve home (dirname m.1)) (basename m.1)).

Lemma module_ok_steady (module_path module_name : string) (l : list action) :
  module_ok os home module_path module_name l
  = passes (module_path, module_name).
Proof.
  unfold module_ok, passes, returned_zero. by rewrite chdir_works, run_steady.
Qed.

Lemma run_each_counts (ms : list (string * string)) :
  NoDup ms.*2 →
  ∀ (results : gmap string bool) (l : list action),
    (∀ m, m ∈ ms → results !! m.2 = None) →
    ∃ (results' : gmap string bool) (l' : list action),
      run_each os ms results (State home l) = (Ret results', State home l')
      ∧ successes results'
        = (successes results + length (filter (λ m, passes m = true) ms))%nat.
Proof.
  induction ms as [|[module_path module_name] ms IH];
    intros Hnd results l Hfresh.
  - exists results, l. split; [done|]. cbn. lia.
  - rewrite fmap_cons in Hnd. apply NoDup_cons in Hnd as [Hnot Hnd].
    cbn [run_each]. unfold mbind, R_bind.
    destruct (run_plotting_module_flag module_path module_name l) as [mid ->].
    rewrite module_ok_steady.
    unfold time_sleep, record. cbn [cwd log].
    match goal with |- context [run_each os ms ?r (State home ?l')] =>
      destruct (IH Hnd r l') as (results' & l'' & -> & Hcount) end.
    { intros m Hm. rewrite lookup_insert_ne.
      - apply Hfresh. by right.
      - intros Heq. apply Hnot. rewrite Heq.
        apply list_elem_of_fmap. by exists m. }
    exists results', l''. split; [done|].
    rewrite Hcount, successes_insert
      by (apply (Hfresh (module_path, module_name)); by left).
    rewrite filter_cons.
    destruct (passes (module_path, module_name)) eqn:Hp.
    + rewrite decide_True by done. cbn [length]. lia.
    + rewrite decide_False by done. lia.
Qed.

Lemma main_counts (l : list action) :
  (main os (State home l)).1 = Ret (forallb passes modules).
Proof.
  unfold main, mbind, R_bind.
  destruct (run_each_counts modules) with (results := (∅ : gmap string bool))
                                          (l := l)
    as (results' & l' & -> & Hcount).
  - apply (bool_decide_unpack _). vm_compute. exact I.
  - intros m _. apply lookup_empty.
  - cbn [fst mret R_ret]. rewrite Hcount.
    replace (successes ∅) with O by reflexivity.
    cbn [Nat.add]. by rewrite all_pass_count.
Qed.

End RunnerVerdict.

Section RunnerMore.

Import Charts Runner Pipeline Samples MoreSamples.

(** X17. What one call of [run_plotting_module] returns. Started in a
    directory that stays reachable, it returns [True] exactly when the
    directory of the module could be entered and the script ended with
    exit status 0; another status, the timeout, an error at launch or a
    directory that cannot be entered give [False]. The call never raises
    and leaves the runner in the directory it was started in. *)
Theorem run_plotting_module_verdict (os : OS) (home : string)
    (module_path module_name : string) (l : list action) :
  is_absolute home = true →
  (∀ l', chdir_outcome os l' home = None) →
  (run_plotting_module os module_path module_name (State home l)).1
  = Ret (module_ok os home module_path module_name l)
  ∧ cwd (run_plotting_module os module_path module_name (State home l)).2
    = home.
Proof.
  intros Habs Hhome.
  destruct (run_plotting_module_flag os home Habs Hhome module_path
              module_name l) as [mid ->].
  done.
Qed.

Lemma run_plotting_module_verdict_witness :
  (run_plotting_module flaky_os "bar_chart/code/bar_chart.py"
     "Bar Charts" repository).1
  = Ret (module_ok flaky_os "/repo" "bar_chart/code/bar_chart.py"
           "Bar Charts" [])
  ∧ cwd (run_plotting_module flaky_os "bar_chart/code/bar_chart.py"
           "Bar Charts" repository).2
    = "/repo".
Proof.
  apply (run_plotting_module_verdict flaky_os "/repo"
           "bar_chart/code/bar_chart.py" "Bar Charts" []).
  - reflexivity.
  - intros l'. reflexivity.
Defined.

(** X18. The verdict of [main]. When every directory can be entered and
    the outcome of a script does not depend on what ran before, [main]
    returns [True] exactly when each of the six scripts ended with exit
    status 0: the results are kept by module name, the six names are
    distinct, so the number of successes is the number of scripts that
    passed. *)
Theorem runner_verdict (os : OS) (home : string)
    (outcome : string → string → result Z) (l : list action) :
  is_absolute home = true →
  (∀ l' d, chdir_outcome os l' d = None) →
  (∀ l' cwd script, run_outcome os l' cwd script = outcome cwd script) →
  (main os (State home l)).1
  = Ret (forallb
           (λ m, returned_zero
                   (outcome (resolve home (dirname m.1)) (basename m.1)))
           modules).
Proof.
  intros Habs Hchdir Hrun.
  exact (main_counts os home Habs (λ l', Hchdir l' home) outcome Hchdir Hrun l).
Qed.

Lemma runner_verdict_witness :
  (main steady_os repository).1
  = Ret (forallb
           (λ m, returned_zero
                   (histogram_fails (resolve "/repo" (dirname m.1))
                      (basename m.1)))
           modules).
Proof.
  apply (runner_verdict steady_os "/repo" histogram_fails []).
  - reflexivity.
  - intros l' d. reflexivity.
  - intros l' cwd script. reflexivity.
Defined.

(** X19. When the directory the runner was started in cannot be entered
    again after a script has run, the call of [os.chdir] in the [try]
    block raises, the [except] clause calls it again, and this second
    exception leaves [run_plotting_module]: the loop of [main] ends with
    it, the runner stays in the directory of the module, and no later
    module is attempted. *)
Theorem runner_stops_when_home_is_lost (os : OS) (home : string)
    (module_path module_name : string) (l : list action) (e : exn)
    (ms : list (string * string)) (results : gmap string bool) :
  chdir_outcome os (l ++ [Running module_name]) (dirname module_path) = None →
  chdir_outcome os
    (l ++ [ Running module_name; Chdir (dirname module_path);
            SubprocessRun (resolve home (dirname module_path))
              (basename module_path) 300 ]) home = Some e →
  run_each os ((module_path, module_name) :: ms) results (State home l)
  = (Raise e,
     State (resolve home (dirname module_path))
       (l ++ [ Running module_name; Chdir (dirname module_path);
               SubprocessRun (resolve home (dirname module_path))
                 (basename module_path) 300 ])).
Proof.
  intros Hin Hback.
  replace (l ++ [ Running module_name; Chdir (dirname module_path);
                  SubprocessRun (resolve home (dirname module_path))
                    (basename module_path) 300 ])
    with (((l ++ [Running module_name]) ++ [Chdir (dirname module_path)])
          ++ [SubprocessRun (resolve home (dirname module_path))
                (basename module_path) 300 ]) in *
    by (rewrite <- !app_assoc; reflexivity).
  cbn [run_each].
  unfold run_plotting_module, mbind, R_bind, record, os_getcwd, try_except.
  cbn [cwd log].
  unfold os_chdir at 1. cbn [cwd log]. rewrite Hin.
  unfold subprocess_run. cbn [cwd log].
  match goal with |- context [run_outcome os ?a ?b ?c] =>
    destruct (run_outcome os a b c) as [returncode|e'] end.
  - unfold os_chdir at 1. cbn [cwd log]. rewrite Hback. cbn [dispatch].
    destruct (isinstance e TimeoutExpired).
    + unfold os_chdir. cbn [cwd log]. by rewrite Hback.
    + rewrite isinstance_Exception. unfold os_chdir. cbn [cwd log].
      by rewrite Hback.
  - cbn [dispatch].
    destruct (isinstance e' TimeoutExpired).
    + unfold os_chdir. cbn [cwd log]. by rewrite Hback.
    + rewrite isinstance_Exception. unfold os_chdir. cbn [cwd log].
      by rewrite Hback.
Qed.

Lemma runner_stops_when_home_is_lost_witness :
  run_each homeless_os modules ∅ repository
  = (Raise (Exn FileNotFoundError (LibraryText "No such file or directory")),
     State "/repo/line_chart/code"
       [ Running "Line Charts (折线图)";
         Chdir "line_chart/code";
         SubprocessRun "/repo/line_chart/code" "line_chart.py" 300 ]).
Proof.
  apply (runner_stops_when_home_is_lost homeless_os "/repo"
           "line_chart/code/line_chart.py" "Line Charts (折线图)" []
           (Exn FileNotFoundError (LibraryText "No such file or directory"))
           (tail modules) ∅);
    reflexivity.
Defined.

End RunnerMore.

(** ** The runner and the scripts together *)

Section PipelineFacts.

Import Charts Catalog Runner Pipeline Samples MoreSamples.

Lemma family_of_modules :
  family_of "line_chart.py" = Some line_chart_py
  ∧ family_of "bar_chart.py" = Some bar_chart_py
  ∧ family_of "scatter_plot.py" = Some scatter_plot_py
  ∧ family_of "box_plot.py" = Some box_plot_py
  ∧ family_of "histogram.py" = Some histogram_py
  ∧ family_of "3d_plot.py" = Some plot_3d_py.
Proof.
  unfold family_of.
  repeat split;
    repeat (rewrite decide_False by (intros ?; discriminate));
    by rewrite decide_True by reflexivity.
Qed.

Lemma module_paths :
  (λ m : string * string, (dirname m.1, basename m.1)) <$> modules
  = [ ("line_chart/code", "line_chart.py");
      ("bar_chart/code", "bar_chart.py");
      ("scatter_plot/code", "scatter_plot.py");
      ("box_plot/code", "box_plot.py");
      ("histogram/code", "histogram.py");
      ("3d_plot/code", "3d_plot.py") ].
Proof. vm_compute. reflexivity. Qed.

Lemma forallb_fmap {A B} (f : A → B) (p : B → bool) (xs : list A) :
  forallb p (f <$> xs) = forallb (λ x, p (f x)) xs.
Proof. induction xs as [|x xs IH]; [done|]. cbn. by rewrite IH. Qed.

Lemma count_successes_all_false (w : World) (fs : list (World → M bool)) :
  Forall (λ f, f w = Run (Ret false) []) fs →
  count_successes fs w = Run (Ret O) [].
Proof.
  induction 1 as [|f fs Hf _ IH]; [done|].
  cbn [count_successes]. rewrite Hf, IH. reflexivity.
Qed.

Lemma family_run (s : script) :
  s ∈ family_scripts →
  (∀ w, run s w = (plain_status (counting_main (create <$> charts s) w),
                   trace (counting_main (create <$> charts s) w)))
  ∨ (∀ w, run s w = (plain_status (reporting_main (create <$> charts s) w),
                     trace (reporting_main (create <$> charts s) w))).
Proof.
  intros Hs. unfold family_scripts in Hs.
  each_member Hs; first [ by left | by right ].
Qed.

Lemma family_run_without_data (w : World) (s : script) :
  s ∈ family_scripts →
  (∀ path, path_exists w path = false) →
  run s w = (0%Z, []).
Proof.
  intros Hs Hno.
  assert (count_successes (create <$> charts s) w = Run (Ret O) []) as Hc.
  { apply count_successes_all_false, Forall_fmap, Forall_forall.
    intros c Hc. apply chart_missing_csv; [|apply Hno].
    apply (charts_of_script s); [|exact Hc].
    unfold chart_scripts. apply elem_of_app. by right. }
  destruct (family_run s Hs) as [-> | ->];
    unfold counting_main, reporting_main; rewrite Hc; reflexivity.
Qed.

Lemma reporting_script_exit (w : World) (s : script) :
  s ∈ reporting_scripts → (run s w).1 = 0%Z.
Proof.
  intros Hs. pose proof (reporting_charts_inline s Hs) as Hcs.
  unfold reporting_scripts in Hs.
  each_member Hs; unfold box_plot_py, histogram_py, plot_3d_py;
    (rewrite reporting_family_run; [reflexivity | exact Hcs]).
Qed.

Lemma main_of_scripts (worlds : string → World) (home : string)
    (l : list action) :
  is_absolute home = true →
  (main (os_of worlds) (State home l)).1
  = Ret (forallb
           (λ ds, bool_decide ((run ds.2 (worlds (resolve home ds.1))).1 = 0%Z))
           counting_modules).
Proof.
  intros Habs.
  rewrite (main_counts (os_of worlds) home Habs (λ _, eq_refl)
             (λ cwd script,
                match family_of script with
                | Some s => Ret (run s (worlds cwd)).1
                | None => Ret 2%Z
                end)
             (λ _ _, eq_refl) (λ _ _ _, eq_refl) l).
  f_equal.
  etrans.
  { symmetry.
    exact (forallb_fmap (λ m : string * string, (dirname m.1, basename m.1))
             (λ ds, returned_zero
                      match family_of ds.2 with
                      | Some s => Ret (run s (worlds (resolve home ds.1))).1
                      | None => Ret 2%Z
                      end) modules). }
  rewrite module_paths.
  destruct family_of_modules as (H1 & H2 & H3 & H4 & H5 & H6).
  cbn [forallb fst snd]. rewrite H1, H2, H3, H4, H5, H6.
  rewrite (reporting_script_exit (worlds _) box_plot_py) by in_list.
  rewrite (reporting_script_exit (worlds _) histogram_py) by in_list.
  rewrite (reporting_script_exit (worlds _) plot_3d_py) by in_list.
  unfold counting_modules, returned_zero. cbn [forallb fst snd].
  by rewrite !andb_true_r.
Qed.

End PipelineFacts.

Section PipelineClaims.

Import Charts Catalog Runner Pipeline Samples MoreSamples.

(** X20. The runner together with the scripts it starts. When every
    directory can be entered and every script runs to its end,
    [box_plot.py], [histogram.py] and [3d_plot.py] always end with exit
    status 0, so what [main] of the runner returns depends on
    [line_chart.py], [bar_chart.py] and [scatter_plot.py] alone: it is
    [True] exactly when none of these three ended with a status other
    than 0. *)
Theorem runner_verdict_over_scripts (worlds : string → World) (home : string)
    (l : list action) :
  is_absolute home = true →
  (main (os_of worlds) (State home l)).1
  = Ret (forallb
           (λ ds, bool_decide ((run ds.2 (worlds (resolve home ds.1))).1 = 0%Z))
           counting_modules).
Proof. apply main_of_scripts. Qed.

Lemma runner_verdict_over_scripts_witness :
  (main (os_of (λ _, no_files)) repository).1
  = Ret (forallb
           (λ ds, bool_decide ((run ds.2 no_files).1 = 0%Z))
           counting_modules).
Proof.
  apply (runner_verdict_over_scripts (λ _, no_files) "/repo" []).
  reflexivity.
Defined.

(** X21. On a machine without any data file the whole suite reports
    success: every script writes nothing and still ends with exit status
    0, and [main] of the runner returns [True]. *)
Theorem runner_succeeds_without_data (worlds : string → World) (home : string)
    (l : list action) :
  is_absolute home = true →
  (∀ dir path, path_exists (worlds dir) path = false) →
  (main (os_of worlds) (State home l)).1 = Ret true
  ∧ ∀ ds, ds ∈ module_scripts →
          run ds.2 (worlds (resolve home ds.1)) = (0%Z, []).
Proof.
  intros Habs Hno.
  assert (∀ ds, ds ∈ module_scripts →
                run ds.2 (worlds (resolve home ds.1)) = (0%Z, [])) as Hrun.
  { intros ds Hds. apply family_run_without_data; [|apply Hno].
    unfold module_scripts, counting_modules, reporting_modules in Hds.
    cbn [app] in Hds. each_member Hds; in_list. }
  split; [|exact Hrun].
  rewrite (main_of_scripts worlds home l Habs). f_equal.
  apply forallb_forall. intros ds Hds. apply bool_decide_eq_true.
  rewrite Hrun; [done|].
  unfold module_scripts. apply elem_of_app. left. by apply list_elem_of_In.
Qed.

Lemma runner_succeeds_without_data_witness :
  (main (os_of (λ _, no_files)) repository).1 = Ret true
  ∧ ∀ ds, ds ∈ module_scripts → run ds.2 no_files = (0%Z, []).
Proof.
  apply (runner_succeeds_without_data (λ _, no_files) "/repo" []).
  - reflexivity.
  - intros dir path. reflexivity.
Defined.

End PipelineClaims.
